(** * Format resolution, print session and watch loop of [kubectl get]

    A shallow embedding of the printer resolution code of [pkg/printers]
    and of [GetOptions.Run] / [GetOptions.watch] from
    [pkg/kubectl/cmd/resource/get.go], with the properties that the
    design document states about them. *)

From Stdlib Require Import List String Ascii Bool Arith Lia Permutation FinFun.
Import ListNotations.
Open Scope string_scope.
Set Warnings "-register-all".

(** ** Go values shared by all packages *)

(** A Go [error].  [fmt.Errorf] is kept symbolic: the format string and
    its operands are stored, the rendering done by package [fmt] is not
    modelled.  [Aggregate] is the slice-of-errors error of
    [k8s.io/apimachinery/pkg/util/errors]. *)
Inductive error : Type :=
| Errorf (format : string) (args : list fmtArg)
| Aggregate (errs : list error)
with fmtArg : Type :=
| ArgString (s : string)
| ArgInt (n : nat)
| ArgError (e : error).

(** A Go pair [(T, error)]. *)
Inductive result (A : Type) : Type :=
| Ok (a : A)
| Err (e : error).
Arguments Ok {A} a.
Arguments Err {A} e.

(** What a call does: return a value, return an error, or panic at run
    time (index out of range). *)
Inductive outcome (A : Type) : Type :=
| Ret (a : A)
| Fail (e : error)
| Panic.
Arguments Ret {A} a.
Arguments Fail {A} e.
Arguments Panic {A}.

(** [s[n:]] for [n <= len(s)]. *)
Fixpoint string_drop (n : nat) (s : string) : string :=
  match n, s with
  | O, _ => s
  | S n', String _ s' => string_drop n' s'
  | S _, EmptyString => EmptyString
  end.

(** [strings.HasPrefix(s, p)]. *)
Definition HasPrefix (s p : string) : bool := String.prefix p s.

Definition lower_ascii (c : ascii) : ascii :=
  let n := nat_of_ascii c in
  if Nat.leb 65 n && Nat.leb n 90 then ascii_of_nat (n + 32) else c.

(** [strings.ToLower] on the ASCII range; the code only compares its
    result with the ASCII words json and yaml. *)
Fixpoint ToLower (s : string) : string :=
  match s with
  | EmptyString => EmptyString
  | String c s' => String (lower_ascii c) (ToLower s')
  end.

(** ** Package printers: resolution of an output format *)

Module Printers.

(** Opaque collaborators handed through to the printers. *)
Inductive ObjectTyper : Type := typer (id : nat).
Inductive Encoder : Type := encoder (id : nat).
Inductive Decoder : Type := decoder (id : nat).

Record PrintOptions : Type := {
  OutputFormatType : string;
  OutputFormatArgument : string;
  AllowMissingKeys : bool;
  NoHeaders : bool;
  WithNamespace : bool;
  WithKind : bool;
  Wide : bool;
  ShowAll : bool;
  ShowLabels : bool;
  AbsoluteTimestamps : bool;
  Kind : string;
  ColumnLabels : list string;
  SortBy : string
}.

(** The environment the constructors read: files on disk
    ([ioutil.ReadFile], [os.Open]) and the parsers of the template,
    JSONPath and custom-columns languages. *)
Record Env : Type := {
  File : Type;
  Column : Type;
  ReadFile : string -> result string;
  Open : string -> result File;
  parseGoTemplate : string -> option error;
  parseJSONPath : string -> option error;
  parseColumnsSpec : string -> result (list Column);
  parseColumnsTemplate : File -> result (list Column)
}.

(** The implementations of the [ResourcePrinter] interface. *)
Inductive ResourcePrinter (E : Env) : Type :=
| JSONPrinter
| YAMLPrinter
| NamePrinter (Typer : ObjectTyper) (Decoders : list Decoder)
| GoTemplatePrinter (rawTemplate : string) (allowMissingKeys : bool)
| JSONPathPrinter (rawTemplate : string) (allowMissingKeys : bool)
| CustomColumnsPrinter (columns : list (Column E)) (dec : Decoder) (noHeaders : bool)
| HumanReadablePrinter (enc : Encoder) (dec : Decoder) (options : PrintOptions).
Arguments JSONPrinter {E}.
Arguments YAMLPrinter {E}.
Arguments NamePrinter {E} Typer Decoders.
Arguments GoTemplatePrinter {E} rawTemplate allowMissingKeys.
Arguments JSONPathPrinter {E} rawTemplate allowMissingKeys.
Arguments CustomColumnsPrinter {E} columns dec noHeaders.
Arguments HumanReadablePrinter {E} enc dec options.

(** The renderer kinds of the design document. *)
Inductive RendererKind : Type :=
| Json | Yaml | Name | GoTemplate | JSONPath | CustomColumns | HumanTable.

Definition kindOf {E : Env} (p : ResourcePrinter E) : RendererKind :=
  match p with
  | JSONPrinter => Json
  | YAMLPrinter => Yaml
  | NamePrinter _ _ => Name
  | GoTemplatePrinter _ _ => GoTemplate
  | JSONPathPrinter _ _ => JSONPath
  | CustomColumnsPrinter _ _ _ => CustomColumns
  | HumanReadablePrinter _ _ _ => HumanTable
  end.

(** A Go triple [(ResourcePrinter, bool, error)]; the interface value and
    the error may be nil. *)
Definition matchResult (E : Env) : Type :=
  (option (ResourcePrinter E) * bool * option error)%type.

Definition noPrinterMatchedErr : error :=
  Errorf "unable to match a printer to handle current print options" [].

(** Modelled from the spec: the constructors [NewGoTemplatePrinter],
    [NewJSONPathPrinter], [NewCustomColumnsPrinterFromSpec] and
    [NewCustomColumnsPrinterFromTemplate] are not among the sources.  The
    template or expression is compiled once at construction and a syntax
    error fails the construction. *)
Definition NewGoTemplatePrinter (E : Env) (tmpl : string)
  : result (bool -> ResourcePrinter E) :=
  match parseGoTemplate E tmpl with
  | Some e => Err e
  | None => Ok (GoTemplatePrinter tmpl)
  end.

Definition NewJSONPathPrinter (E : Env) (tmpl : string)
  : result (bool -> ResourcePrinter E) :=
  match parseJSONPath E tmpl with
  | Some e => Err e
  | None => Ok (JSONPathPrinter tmpl)
  end.

Definition NewCustomColumnsPrinterFromSpec (E : Env) (spec : string)
  (dec : Decoder) (noHeaders : bool) : result (ResourcePrinter E) :=
  match parseColumnsSpec E spec with
  | Err e => Err e
  | Ok cols => Ok (CustomColumnsPrinter cols dec noHeaders)
  end.

Definition NewCustomColumnsPrinterFromTemplate (E : Env) (f : File E)
  (dec : Decoder) : result (ResourcePrinter E) :=
  match parseColumnsTemplate E f with
  | Err e => Err e
  | Ok cols => Ok (CustomColumnsPrinter cols dec false)
  end.

(** *** json_yaml_flags.go *)

(** [JSONYamlPrintFlags.ToPrinter]; the receiver is an empty struct. *)
Definition JSONYamlPrintFlags_ToPrinter (E : Env) (outputFormat : string)
  : matchResult E :=
  if Nat.eqb (String.length outputFormat) 0 then
    (None, false, Some (Errorf "missing output format" []))
  else
    let outputFormat := ToLower outputFormat in
    if negb (outputFormat =? "json")%string && negb (outputFormat =? "yaml")%string then
      (None, false, None)
    else if (outputFormat =? "json")%string then
      (Some JSONPrinter, true, None)
    else
      (Some YAMLPrinter, true, None).

(** [GoTemplatePrintFlags] and [JSONPathPrintFlags]: two nilable
    pointers. *)
Record TemplateFlags : Type := {
  tf_AllowMissingKeys : option bool;
  tf_TemplateArgument : option string
}.

(** The loop [for format := range formats] that strips [format=] from
    the output format.  At most one key followed by [=] can be a prefix of
    a given string and no key contains [=], so the result does not depend
    on the iteration order of the Go map. *)
Fixpoint stripFormatPrefix (formats : list string)
  (templateArg outputFormat : string) : string * string :=
  match formats with
  | [] => (templateArg, outputFormat)
  | format :: rest =>
      let f := format ++ "=" in
      if HasPrefix outputFormat f then
        stripFormatPrefix rest
          (string_drop (String.length f) outputFormat)
          (substring 0 (String.length f - 1) f)
      else stripFormatPrefix rest templateArg outputFormat
  end.

Definition mem_string (s : string) (l : list string) : bool :=
  existsb (String.eqb s) l.

Definition allowMissingKeysOf (f : TemplateFlags) : bool :=
  match tf_AllowMissingKeys f with
  | Some b => b
  | None => true
  end.

(** [GoTemplatePrintFlags.ToPrinter]. *)
Definition GoTemplatePrintFlags_ToPrinter (E : Env) (f : TemplateFlags)
  (outputFormat : string) : matchResult E :=
  match tf_TemplateArgument f with
  | None => (None, false, Some (Errorf "missing --template argument" []))
  | Some arg =>
      if Nat.eqb (String.length arg) 0 then
        (None, false, Some (Errorf "missing --template argument" []))
      else
        let supportedFormats :=
          ["template"; "go-template"; "go-template-file"; "templatefile"] in
        let '(templateArg, outputFormat) :=
          stripFormatPrefix supportedFormats arg outputFormat in
        if negb (mem_string outputFormat supportedFormats) then
          (None, false, None)
        else
          match NewGoTemplatePrinter E templateArg with
          | Err err => (None, true, Some err)
          | Ok p => (Some (p (allowMissingKeysOf f)), true, None)
          end
  end.

(** [JSONPathPrintFlags.ToPrinter]; the second nil test of the source is
    unreachable after the first. *)
Definition JSONPathPrintFlags_ToPrinter (E : Env) (f : TemplateFlags)
  (outputFormat : string) : matchResult E :=
  match tf_TemplateArgument f with
  | None => (None, false, Some (Errorf "missing --template value" []))
  | Some arg =>
      if Nat.eqb (String.length arg) 0 then
        (None, false, Some (Errorf "missing --template value" []))
      else
        let templateFormats := ["jsonpath"; "jsonpath-file"] in
        let '(templateArg, outputFormat) :=
          stripFormatPrefix templateFormats arg outputFormat in
        if negb (mem_string outputFormat templateFormats) then
          (None, false, None)
        else
          match NewJSONPathPrinter E templateArg with
          | Err err => (None, true, Some err)
          | Ok p => (Some (p (allowMissingKeysOf f)), true, None)
          end
  end.

Record KubeTemplatePrintFlags : Type := {
  GoTemplatePrintFlags : TemplateFlags;
  JSONPathPrintFlags : TemplateFlags
}.

(** Modelled from the spec: [KubeTemplatePrintFlags.ToPrinter] is not
    among the sources.  The jsonpath formats resolve to the JSONPath
    renderer and the template formats to the GoTemplate renderer: the
    composite asks its JSONPath flags and, when they do not match, its
    GoTemplate flags. *)
Definition KubeTemplatePrintFlags_ToPrinter (E : Env)
  (f : KubeTemplatePrintFlags) (outputFormat : string) : matchResult E :=
  match JSONPathPrintFlags_ToPrinter E (JSONPathPrintFlags f) outputFormat with
  | (p, true, err) => (p, true, err)
  | _ => GoTemplatePrintFlags_ToPrinter E (GoTemplatePrintFlags f) outputFormat
  end.

(** *** printers.go: [GetStandardPrinter] *)

(** The body shared by the template cases, entered directly or by
    [fallthrough] from the file cases. *)
Definition templateCase (E : Env) (format formatArgument : string)
  (allowMissingTemplateKeys : bool) : outcome (option (ResourcePrinter E)) :=
  let kubeTemplateFlags := {|
    GoTemplatePrintFlags := {|
      tf_AllowMissingKeys := Some allowMissingTemplateKeys;
      tf_TemplateArgument := Some formatArgument |};
    JSONPathPrintFlags := {|
      tf_AllowMissingKeys := Some allowMissingTemplateKeys;
      tf_TemplateArgument := Some formatArgument |} |} in
  match KubeTemplatePrintFlags_ToPrinter E kubeTemplateFlags format with
  | (_, false, _) => Fail noPrinterMatchedErr
  | (_, true, Some err) => Fail err
  | (kubeTemplatePrinter, true, None) => Ret kubeTemplatePrinter
  end.

Definition GetStandardPrinter (E : Env) (typer : ObjectTyper)
  (encoder : Encoder) (decoders : list Decoder) (options : PrintOptions)
  : outcome (option (ResourcePrinter E)) :=
  let format := OutputFormatType options in
  let formatArgument := OutputFormatArgument options in
  let allowMissingTemplateKeys := AllowMissingKeys options in
  if mem_string format ["json"; "yaml"] then
    match JSONYamlPrintFlags_ToPrinter E format with
    | (_, false, _) => Fail noPrinterMatchedErr
    | (_, true, Some err) => Fail err
    | (p, true, None) => Ret p
    end
  else if (format =? "name")%string then
    Ret (Some (NamePrinter typer decoders))
  else if mem_string format ["templatefile"; "go-template-file"; "jsonpath-file"] then
    if Nat.eqb (String.length formatArgument) 0 then
      Fail (Errorf "%s format specified but no template file given" [ArgString format])
    else
      match ReadFile E formatArgument with
      | Err err =>
          Fail (Errorf "error reading --template %s, %v\n"
                  [ArgString formatArgument; ArgError err])
      | Ok data => templateCase E format data allowMissingTemplateKeys
      end
  else if mem_string format ["template"; "go-template"; "jsonpath"] then
    templateCase E format formatArgument allowMissingTemplateKeys
  else if (format =? "custom-columns")%string then
    match decoders with
    | [] => Panic
    | d :: _ =>
        match NewCustomColumnsPrinterFromSpec E formatArgument d (NoHeaders options) with
        | Err err => Fail err
        | Ok printer => Ret (Some printer)
        end
    end
  else if (format =? "custom-columns-file")%string then
    match Open E formatArgument with
    | Err err =>
        Fail (Errorf "error reading template %s, %v\n"
                [ArgString formatArgument; ArgError err])
    | Ok file =>
        match decoders with
        | [] => Panic
        | d :: _ =>
            match NewCustomColumnsPrinterFromTemplate E file d with
            | Err err => Fail err
            | Ok printer => Ret (Some printer)
            end
        end
    end
  else if mem_string format ["wide"; ""] then
    match decoders with
    | [] => Panic
    | d :: _ => Ret (Some (HumanReadablePrinter encoder d options))
    end
  else
    Fail (Errorf "output format %q not recognized" [ArgString format]).

(** *** The template flags that carry their printer builders *)

(** The data fields of [TemplatePrintFlags]; the [PrinterBuilders] field
    is passed next to them, since the builders take the flags. *)
Record TemplatePrintFlags : Type := {
  tpf_AllowMissingKeys : option bool;
  tpf_TemplateArgument : option string;
  tpf_OutputFormat : string
}.

(** A builder reads the flags it is given and answers with a printer,
    whether it matched, and an error. *)
Definition PrinterBuilder (E : Env) : Type := TemplatePrintFlags -> matchResult E.

(** The first loop of [TemplatePrintFlags.ToPrinter]: the first listed
    prefix of [f.OutputFormat] moves the rest of [outputFormat] into the
    template argument, then [break]. *)
Fixpoint splitTemplateFormat (templateFormats : list string)
  (outputFormat : string) (f : TemplatePrintFlags) : TemplatePrintFlags :=
  match templateFormats with
  | [] => f
  | format :: rest =>
      if HasPrefix (tpf_OutputFormat f) format then
        let templateFile := string_drop (String.length format) outputFormat in
        {| tpf_AllowMissingKeys := tpf_AllowMissingKeys f;
           tpf_TemplateArgument := Some templateFile;
           tpf_OutputFormat := substring 0 (String.length format - 1) format |}
      else splitTemplateFormat rest outputFormat f
  end.

(** The assignments to [f] that precede the builder loop. *)
Definition prepareFlags (f : TemplatePrintFlags) (outputFormat : string)
  : TemplatePrintFlags :=
  let f := {| tpf_AllowMissingKeys := tpf_AllowMissingKeys f;
              tpf_TemplateArgument := tpf_TemplateArgument f;
              tpf_OutputFormat := outputFormat |} in
  let f :=
    match tpf_TemplateArgument f with
    | Some arg =>
        if Nat.eqb (String.length (tpf_OutputFormat f)) 0 && negb (Nat.eqb (String.length arg) 0)
        then {| tpf_AllowMissingKeys := tpf_AllowMissingKeys f;
                tpf_TemplateArgument := tpf_TemplateArgument f;
                tpf_OutputFormat := "template" |}
        else f
    | None => f
    end in
  splitTemplateFormat
    ["go-template="; "go-template-file="; "jsonpath="; "jsonpath-file=";
     "custom-columns="; "custom-columns-file="]
    outputFormat f.

(** The builder loop.  The number next to the result counts the builders
    that were called. *)
Fixpoint runBuilders (E : Env) (builders : list (PrinterBuilder E))
  (f : TemplatePrintFlags) (called : nat)
  : result (option (ResourcePrinter E)) * nat :=
  match builders with
  | [] => (Err (Errorf "no printers matched current flag values" []), called)
  | builder :: rest =>
      match builder f with
      | (_, false, _) => runBuilders E rest f (S called)
      | (_, true, Some err) => (Err err, S called)
      | (p, true, None) => (Ok p, S called)
      end
  end.

(** [TemplatePrintFlags.ToPrinter]: the flags as the call leaves them,
    the returned pair, and the number of builders called. *)
Definition TemplatePrintFlags_ToPrinter (E : Env)
  (builders : list (PrinterBuilder E)) (f : TemplatePrintFlags)
  (outputFormat : string)
  : TemplatePrintFlags * (result (option (ResourcePrinter E)) * nat) :=
  let f := prepareFlags f outputFormat in
  (f, runBuilders E builders f 0).

End Printers.

(** ** Package util/errors *)

(** Modelled from the spec: [utilerrors.NewAggregate] is not among the
    sources.  It returns the aggregate of the collected errors; an empty
    collection is success (nil). *)
Definition NewAggregate (errlist : list error) : option error :=
  match errlist with
  | [] => None
  | _ :: _ => Some (Aggregate errlist)
  end.

(** ** kubectl get: [pkg/kubectl/cmd/resource/get.go] *)

Module Get.

Inductive Writer : Type := Out | ErrOut | TabWriter.

(** [metav1beta1.Table], as far as [Run] looks at it. *)
Record Table : Type := { Rows : list (list string) }.

Record GroupVersionKind : Type := {
  Group : string;
  Version : string;
  Kind : string
}.

Record GroupVersion : Type := {
  gv_Group : string;
  gv_Version : string
}.

Definition GroupVersionKind_eqb (a b : GroupVersionKind) : bool :=
  (Group a =? Group b)%string && (Version a =? Version b)%string
  && (Kind a =? Kind b)%string.

Definition APIVersionInternal : string := "__internal".

(** A [runtime.Object]: a pointer to a [metav1beta1.Table] or a value of
    any other dynamic type. *)
Inductive Object (Raw : Type) : Type :=
| TableObject (table : Table)
| Dynamic (o : Raw).
Arguments TableObject {Raw} table.
Arguments Dynamic {Raw} o.

(** [meta.RESTMapping], which is also the [runtime.ObjectConvertor] and
    carries the [MetadataAccessor] that [watch] uses. *)
Record RESTMapping (Raw : Type) : Type := {
  Resource : string;
  mapping_GroupVersionKind : GroupVersionKind;
  ResourceVersion : Object Raw -> result string;
  ConvertToVersion : Object Raw -> GroupVersion -> result (Object Raw)
}.
Arguments Resource {Raw} r.
Arguments mapping_GroupVersionKind {Raw} r.
Arguments ResourceVersion {Raw} r _.
Arguments ConvertToVersion {Raw} r _ _.

(** [resource.Info]. *)
Record Info (Raw : Type) : Type := {
  info_Object : Object Raw;
  Mapping : RESTMapping Raw
}.
Arguments info_Object {Raw} i.
Arguments Mapping {Raw} i.

(** [watch.Event]. *)
Record Event (Raw : Type) : Type := {
  ev_Type : string;
  ev_Object : Object Raw
}.
Arguments ev_Type {Raw} e.
Arguments ev_Object {Raw} e.

(** [resource.Result], the answer of the builder: what its methods
    return.  The stream of [Watch] is the list of events it delivers
    before it is closed or stopped by the interrupt handler. *)
Record BuilderResult (Raw : Type) : Type := {
  r_Err : option error;
  r_Infos : list (Info Raw) * option error;
  r_Object : result (Object Raw);
  r_Watch : string -> result (list (Event Raw));
  r_IntoSingleItemImplied : bool * (list (Info Raw) * option error)
}.
Arguments r_Err {Raw} b.
Arguments r_Infos {Raw} b.
Arguments r_Object {Raw} b.
Arguments r_Watch {Raw} b _.
Arguments r_IntoSingleItemImplied {Raw} b.

(** The collaborators reached through [cmdutil.Factory] and the imported
    packages.  [PS] is the state that printers keep between calls; a
    [ResourcePrinter] is its [PrintObj] method.  [composeList] is the
    round trip through [json.Marshal] and [runtime.Decode] that makes one
    list of several items, [displayList] the [UnstructuredList] built for
    display, [rawStream] the body of a raw request together with the
    error [io.Copy] ends with; [Flatten] and [Reduce] are those of
    [k8s.io/apimachinery/pkg/util/errors]. *)
Record Factory : Type := {
  Raw : Type;
  PS : Type;
  DoGet : BuilderResult Raw;
  DoWatch : BuilderResult Raw;
  IgnoreErrors : BuilderResult Raw -> BuilderResult Raw;
  PrinterForOptions : result (PS -> Object Raw -> PS * option error);
  objectKind : Object Raw -> string;
  Encode : Object Raw -> result string;
  Unmarshal : string -> result Table;
  SortObjects : list (Object Raw) -> string -> result (nat -> nat);
  IsListType : Object Raw -> bool;
  ExtractList : Object Raw -> list (Object Raw) * option error;
  composeList : list (Object Raw) -> result (Object Raw);
  displayList : Object Raw -> list (Object Raw) -> outcome (Object Raw);
  rawStream : string -> result (string * option error);
  Flatten : option error -> option error;
  Reduce : option error -> option error
}.

Definition ResourcePrinter (f : Factory) : Type :=
  PS f -> Object (Raw f) -> PS f * option error.

Record GetOptions (f : Factory) : Type := {
  opt_Raw : string;
  Watch : bool;
  WatchOnly : bool;
  ServerPrint : bool;
  PrintObj : PS f -> Object (Raw f) -> Info (Raw f) -> PS f * option error;
  SortBy : string;
  GenericPrinter : bool;
  IgnoreNotFound : bool
}.
Arguments opt_Raw {f} g.
Arguments Watch {f} g.
Arguments WatchOnly {f} g.
Arguments ServerPrint {f} g.
Arguments PrintObj {f} g _ _ _.
Arguments SortBy {f} g.
Arguments GenericPrinter {f} g.
Arguments IgnoreNotFound {f} g.

(** *** What a run does to the outside *)

(** The calls that leave the command, in the order they are made; a
    [PrintObj] call is logged with the object it receives, the writer it
    is given and the error it returns. *)
Inductive Effect (f : Factory) : Type :=
| CallPrintObj (obj : Object (Raw f)) (w : Writer) (err : option error)
| Flush
| Fprintln (w : Writer) (line : string)
| Copy (w : Writer) (data : string)
| OpenWatch (resourceVersion : string).
Arguments CallPrintObj {f} obj w err.
Arguments Flush {f}.
Arguments Fprintln {f} w line.
Arguments Copy {f} w data.
Arguments OpenWatch {f} resourceVersion.

Record St (f : Factory) : Type := {
  printerState : PS f;
  log : list (Effect f)
}.
Arguments printerState {f} s.
Arguments log {f} s.

(** State and error monad of the command. *)
Definition M (f : Factory) (A : Type) : Type := St f -> St f * outcome A.

Definition ret {f : Factory} {A : Type} (a : A) : M f A :=
  fun st => (st, Ret a).

Definition fail {f : Factory} {A : Type} (e : error) : M f A :=
  fun st => (st, Fail e).

Definition panic {f : Factory} {A : Type} : M f A :=
  fun st => (st, Panic).

Definition bind {f : Factory} {A B : Type} (m : M f A) (k : A -> M f B) : M f B :=
  fun st =>
    match m st with
    | (st', Ret a) => k a st'
    | (st', Fail e) => (st', Fail e)
    | (st', Panic) => (st', Panic)
    end.

Notation "x <- m ;; k" := (bind m (fun x => k))
  (at level 61, m at next level, right associativity).
Notation "' pat <- m ;; k" :=
  (bind m (fun x => match x with pat => k end))
  (at level 61, pat pattern, m at next level, right associativity).
Notation "m ;;; k" := (bind m (fun _ => k))
  (at level 61, right associativity).

Definition emit {f : Factory} (e : Effect f) : M f unit :=
  fun st => ({| printerState := printerState st; log := (log st ++ [e])%list |}, Ret tt).

(** [if err != nil { return err }], for a Go function that returns only
    an error. *)
Definition returnError {f : Factory} (err : option error) : M f unit :=
  match err with
  | Some e => fail e
  | None => ret tt
  end.

(** [x, err := call; if err != nil { return err }]. *)
Definition orReturn {f : Factory} {A : Type} (r : result A) : M f A :=
  match r with
  | Ok a => ret a
  | Err e => fail e
  end.

(** One call [p.PrintObj(obj, w)], with the state the previous calls
    left. *)
Definition callPrinter {f : Factory}
  (p : PS f -> Object (Raw f) -> PS f * option error) (obj : Object (Raw f))
  (w : Writer) : M f (option error) :=
  fun st =>
    let '(ps', err) := p (printerState st) obj in
    ({| printerState := ps'; log := (log st ++ [CallPrintObj obj w err])%list |}, Ret err).

(** The objects handed to [PrintObj], oldest first. *)
Definition printed {f : Factory} (l : list (Effect f)) : list (Object (Raw f)) :=
  flat_map (fun e => match e with CallPrintObj obj _ _ => [obj] | _ => [] end) l.

(** The errors that the [PrintObj] calls returned, oldest first. *)
Definition printErrors {f : Factory} (l : list (Effect f)) : list error :=
  flat_map (fun e => match e with CallPrintObj _ _ (Some err) => [err] | _ => [] end) l.

Definition start {f : Factory} (ps : PS f) : St f :=
  {| printerState := ps; log := [] |}.

(** *** One-shot print session *)

(** The sentinel [io.EOF], which is [errors.New("EOF")]. *)
Definition io_EOF : error := Errorf "EOF" [].

(** [err == io.EOF]. *)
Definition is_io_EOF (err : error) : bool :=
  match err with
  | Errorf format [] => (format =? "EOF")%string
  | _ => false
  end.

(** [GetOptions.raw]: the error of the copy is returned unless it is nil
    or [io.EOF]. *)
Definition raw (f : Factory) (options : GetOptions f) : M f unit :=
  '(body, err) <- orReturn (rawStream f (opt_Raw options)) ;;
  emit (Copy Out body) ;;;
  match err with
  | Some e => if negb (is_io_EOF e) then fail e else ret tt
  | None => ret tt
  end.

(** [GetOptions.decodeIntoTable]. *)
Definition decodeIntoTable (f : Factory) (obj : Object (Raw f))
  : result (Object (Raw f)) :=
  if negb (objectKind f obj =? "Table")%string then
    Err (Errorf "attempt to decode non-Table object into a v1beta1.Table" [])
  else
    match Encode f obj with
    | Err err => Err err
    | Ok b =>
        match Unmarshal f b with
        | Err err => Err err
        | Ok table => Ok (TableObject table)
        end
    end.

(** The first loop of [Run]: with server-side printing, an object that
    decodes into a table is replaced by the table. *)
Definition decodeInfos (f : Factory) (options : GetOptions f)
  (infos : list (Info (Raw f))) : list (Info (Raw f)) :=
  map (fun info =>
         if ServerPrint options then
           match decodeIntoTable f (info_Object info) with
           | Ok table => {| info_Object := table; Mapping := Mapping info |}
           | Err _ => info
           end
         else info) infos.

(** The type assertion of [info.Object] to a table pointer, with
    [len(table.Rows) == 0]. *)
Definition isEmptyTable {R : Type} (obj : Object R) : bool :=
  match obj with
  | TableObject table => Nat.eqb (List.length (Rows table)) 0
  | Dynamic _ => false
  end.

(** The info that iteration [ix] of the print loop looks at; [None] is
    an index out of range. *)
Definition displayed {R : Type} (infos : list (Info R))
  (sorter : option (nat -> nat)) : list (option (Info R)) :=
  map (fun ix =>
         match sorter with
         | Some OriginalPosition => nth_error infos (OriginalPosition ix)
         | None => nth_error infos ix
         end) (seq 0 (List.length infos)).

(** The print loop of [Run] with its two accumulators. *)
Fixpoint printLoop {f : Factory} (options : GetOptions f)
  (items : list (option (Info (Raw f)))) (allErrs : list error)
  (nonEmptyObjCount : nat) : M f (list error * nat) :=
  match items with
  | [] => ret (allErrs, nonEmptyObjCount)
  | None :: _ => panic
  | Some info :: rest =>
      if isEmptyTable (info_Object info) then
        printLoop options rest allErrs nonEmptyObjCount
      else
        emit Flush ;;;
        err <- callPrinter (fun ps obj => PrintObj options ps obj info)
                 (info_Object info) TabWriter ;;
        match err with
        | Some e => printLoop options rest (allErrs ++ [e])%list (S nonEmptyObjCount)
        | None => printLoop options rest allErrs (S nonEmptyObjCount)
        end
  end.

(** [Run] from the print loop to its return. *)
Definition printSession {f : Factory} (options : GetOptions f)
  (items : list (option (Info (Raw f)))) : M f unit :=
  '(allErrs, nonEmptyObjCount) <- printLoop options items [] 0 ;;
  emit Flush ;;;
  (if Nat.eqb nonEmptyObjCount 0 && negb (IgnoreNotFound options)
   then emit (Fprintln ErrOut "No resources found.")
   else ret tt) ;;;
  returnError (NewAggregate allErrs).

(** [GetOptions.printGeneric]. *)
Definition printGeneric (f : Factory) (options : GetOptions f)
  (r : BuilderResult (Raw f)) : M f unit :=
  printer <- orReturn (PrinterForOptions f) ;;
  let '(singleItemImplied, (infos, err)) := r_IntoSingleItemImplied r in
  errs <- match err with
          | Some e => if singleItemImplied then fail e else ret [e]
          | None => ret []
          end ;;
  if Nat.eqb (List.length infos) 0 && IgnoreNotFound options then
    returnError (Reduce f (Flatten f (NewAggregate errs)))
  else
    obj <- (if negb singleItemImplied || Nat.ltb 1 (List.length infos) then
              orReturn (composeList f (map info_Object infos))
            else
              match infos with
              | info :: _ => ret (info_Object info)
              | [] => panic
              end) ;;
    if IsListType f obj then
      match ExtractList f obj with
      | (_, Some e) => fail e
      | (items, None) =>
          match displayList f obj items with
          | Panic => panic
          | Fail e => fail e
          | Ret list =>
              err <- callPrinter printer list Out ;;
              let errs := match err with Some e => (errs ++ [e])%list | None => errs end in
              returnError (Reduce f (Flatten f (NewAggregate errs)))
          end
      end
    else
      printErr <- callPrinter printer obj Out ;;
      let errs := match printErr with Some e => (errs ++ [e])%list | None => errs end in
      returnError (Reduce f (Flatten f (NewAggregate errs))).

(** *** Watch *)

(** [attemptToConvertToInternal]: the converted object, or the original
    when the conversion fails. *)
Definition attemptToConvertToInternal {R : Type} (obj : Object R)
  (converter : RESTMapping R) (targetVersion : GroupVersion) : Object R :=
  match ConvertToVersion converter obj targetVersion with
  | Err _ => obj
  | Ok internalObject => internalObject
  end.

(** [mapping.GroupVersionKind.GroupKind().WithVersion(runtime.APIVersionInternal).GroupVersion()]. *)
Definition internalGVOf {R : Type} (mapping : RESTMapping R) : GroupVersion :=
  {| gv_Group := Group (mapping_GroupVersionKind mapping);
     gv_Version := APIVersionInternal |}.

(** The counting loop over [infos]: one more for every info whose kind
    differs from [gvk]. *)
Definition countGVKs {R : Type} (gvk : GroupVersionKind) (infos : list (Info R))
  : nat :=
  fold_left
    (fun uniqueGVKs info =>
       if negb (GroupVersionKind_eqb (mapping_GroupVersionKind (Mapping info)) gvk)
       then S uniqueGVKs else uniqueGVKs)
    infos 1.

(** The check of the fetched infos at the start of [watch]. *)
Definition checkSingleKind {f : Factory} (infos : list (Info (Raw f))) : M f unit :=
  if Nat.ltb 1 (List.length infos) then
    match infos with
    | [] => panic
    | info0 :: _ =>
        let gvk := mapping_GroupVersionKind (Mapping info0) in
        let uniqueGVKs := countGVKs gvk infos in
        if Nat.ltb 1 uniqueGVKs then
          fail (Errorf "watch is only supported on individual resources and resource collections - %d resources were found"
                  [ArgInt uniqueGVKs])
        else ret tt
    end
  else ret tt.

(** The loop that prints the current object or the items of the current
    list; the first print error ends [watch]. *)
Fixpoint printCurrent {f : Factory} (printer : ResourcePrinter f)
  (mapping : RESTMapping (Raw f)) (objsToPrint : list (Object (Raw f)))
  : M f unit :=
  match objsToPrint with
  | [] => ret tt
  | objToPrint :: rest =>
      let internalGV := internalGVOf mapping in
      let obj := attemptToConvertToInternal objToPrint mapping internalGV in
      err <- callPrinter printer obj TabWriter ;;
      match err with
      | Some e => fail (Errorf "unable to output the provided object: %v" [ArgError e])
      | None => printCurrent printer mapping rest
      end
  end.

(** A [watch.ConditionFunc] that closes over a variable of type [C]: it
    answers [(done, err)] and leaves the variable updated. *)
Definition ConditionFunc (f : Factory) (C : Type) : Type :=
  C -> Event (Raw f) -> M f (C * (bool * option error)).

Definition ErrWatchClosed : error :=
  Errorf "watch closed before Until timeout" [].

(** Modelled from the spec: [watch.Until] of
    [k8s.io/apimachinery/pkg/watch] is not among the sources.  Without a
    timeout and with one condition it hands the events of the stream to
    the condition in delivery order, one at a time, and ends when the
    condition reports done or an error, or when the stream is closed.  It
    returns the last event seen and the error. *)
Fixpoint Until {f : Factory} {C : Type} (condition : ConditionFunc f C)
  (c : C) (ch : list (Event (Raw f))) (lastEvent : option (Event (Raw f)))
  : M f (option (Event (Raw f)) * option error) :=
  match ch with
  | [] => ret (lastEvent, Some ErrWatchClosed)
  | event :: rest =>
      '(c', (done, err)) <- condition c event ;;
      match err with
      | Some e => ret (Some event, Some e)
      | None =>
          if done then ret (Some event, None)
          else Until condition c' rest (Some event)
      end
  end.

(** The function literal given to [watch.Until]; the closed-over variable
    is [first]. *)
Definition watchCondition {f : Factory} (isList : bool)
  (printer : ResourcePrinter f) (mapping : RESTMapping (Raw f))
  : ConditionFunc f bool :=
  fun first e =>
    if negb isList && first then
      ret (false, (false, None))
    else
      let internalGV := internalGVOf mapping in
      let obj := attemptToConvertToInternal (ev_Object e) mapping internalGV in
      err <- callPrinter printer obj Out ;;
      match err with
      | Some e' => ret (first, (false, Some e'))
      | None => ret (first, (false, None))
      end.

(** [GetOptions.watch] from [info := infos[0]] on.  The value of
    [intr.Run] is dropped and the function ends with [return nil]. *)
Definition watchInfos (f : Factory) (options : GetOptions f)
  (r : BuilderResult (Raw f)) (infos : list (Info (Raw f))) : M f unit :=
  match infos with
  | [] => panic
  | info :: _ =>
      let mapping := Mapping info in
      printer <- orReturn (PrinterForOptions f) ;;
      obj <- orReturn (r_Object r) ;;
      let isList := IsListType f obj in
      rv <- (if isList then orReturn (ResourceVersion mapping obj) else ret "0") ;;
      (if negb (WatchOnly options) then
         let objsToPrint := if isList then fst (ExtractList f obj) else [obj] in
         printCurrent printer mapping objsToPrint ;;;
         emit Flush
       else ret tt) ;;;
      emit (OpenWatch rv) ;;;
      w <- orReturn (r_Watch r rv) ;;
      _ <- Until (watchCondition isList printer mapping) true w None ;;
      ret tt
  end.

(** [GetOptions.watch]: the fetch and the check of the fetched infos,
    then the rest. *)
Definition watch (f : Factory) (options : GetOptions f) : M f unit :=
  let r := DoWatch f in
  returnError (r_Err r) ;;;
  let '(infos, err) := r_Infos r in
  returnError err ;;;
  checkSingleKind infos ;;;
  watchInfos f options r infos.

(** [GetOptions.Run]. *)
Definition Run (f : Factory) (options : GetOptions f) : M f unit :=
  if Nat.ltb 0 (String.length (opt_Raw options)) then raw f options
  else if Watch options || WatchOnly options then watch f options
  else
    let r := DoGet f in
    let r := if IgnoreNotFound options then IgnoreErrors f r else r in
    returnError (r_Err r) ;;;
    if GenericPrinter options then printGeneric f options r
    else
      let '(infos, err) := r_Infos r in
      returnError err ;;;
      let infos := decodeInfos f options infos in
      let objs := map info_Object infos in
      sorter <- (if Nat.ltb 0 (String.length (SortBy options))
                    && Nat.ltb 1 (List.length objs)
                 then
                   sorter <- orReturn (SortObjects f objs (SortBy options)) ;;
                   ret (Some sorter)
                 else ret None) ;;
      printSession options (displayed infos sorter).

End Get.

(** ** Vocabulary of the statements *)

Module PrintersSpec.

Import Printers.

Definition notRecognized (format : string) : error :=
  Errorf "output format %q not recognized" [ArgString format].

(** The format types that the design document lists. *)
Definition documentedFormats : list string :=
  ["json"; "yaml"; "name"; "wide"; ""; "go-template"; "go-template-file";
   "template"; "jsonpath"; "jsonpath-file"; "custom-columns";
   "custom-columns-file"].

(** The cases of the switch in [GetStandardPrinter]. *)
Definition switchCases : list string :=
  ["json"; "yaml"; "name"; "templatefile"; "go-template-file";
   "jsonpath-file"; "template"; "go-template"; "jsonpath"; "custom-columns";
   "custom-columns-file"; "wide"; ""].

(** A builder that reports no match on the flags [f]. *)
Definition declinesAt (E : Env) (f : TemplatePrintFlags) (b : PrinterBuilder E)
  : Prop :=
  snd (fst (b f)) = false.

End PrintersSpec.

Module GetSpec.

Import Get.

(** [writes P m]: whatever the state, [m] only appends to the log, and
    every appended effect satisfies [P]. *)
Definition writes {f : Factory} {A : Type} (P : Effect f -> Prop) (m : M f A)
  : Prop :=
  forall st, exists l, log (fst (m st)) = (log st ++ l)%list /\ Forall P l.

Definition noResourcesFound {f : Factory} : Effect f :=
  Fprintln ErrOut "No resources found.".

(** The effects of the print loop: flushes and [PrintObj] calls. *)
Definition isLoopEffect {f : Factory} (e : Effect f) : Prop :=
  match e with
  | Flush | CallPrintObj _ _ _ => True
  | _ => False
  end.

Definition notFprintln {f : Factory} (e : Effect f) : Prop :=
  match e with
  | Fprintln _ _ => False
  | _ => True
  end.

Definition nonEmpty {R : Type} (info : Info R) : bool :=
  negb (isEmptyTable (info_Object info)).

(** The builder result that [Run] reads. *)
Definition fetched (f : Factory) (options : GetOptions f) : BuilderResult (Raw f) :=
  if IgnoreNotFound options then IgnoreErrors f (DoGet f) else DoGet f.

(** The sorter that [Run] uses for the decoded infos, if sorting is asked
    for and there is more than one object. *)
Definition sorterFor (f : Factory) (options : GetOptions f)
  (infos : list (Info (Raw f))) : result (option (nat -> nat)) :=
  if Nat.ltb 0 (String.length (SortBy options))
     && Nat.ltb 1 (List.length (map info_Object infos))
  then
    match SortObjects f (map info_Object infos) (SortBy options) with
    | Ok sorter => Ok (Some sorter)
    | Err e => Err e
    end
  else Ok None.

(** [Run] is a one-shot print session over [items]: no raw request, no
    watch, no generic printer, a fetch without error, and [items] is the
    sequence that the print loop walks through. *)
Inductive OneShot (f : Factory) (options : GetOptions f)
  : list (option (Info (Raw f))) -> Prop :=
| one_shot (infos : list (Info (Raw f))) (sorter : option (nat -> nat)) :
    opt_Raw options = "" ->
    Watch options = false ->
    WatchOnly options = false ->
    GenericPrinter options = false ->
    r_Err (fetched f options) = None ->
    r_Infos (fetched f options) = (infos, None) ->
    sorterFor f options (decodeInfos f options infos) = Ok sorter ->
    OneShot f options (displayed (decodeInfos f options infos) sorter).

(** An effect of [watch]: a flush, the opening of the stream, or a
    [PrintObj] call on an object that went through
    [attemptToConvertToInternal] with [mapping]. *)
Definition converted {f : Factory} (mapping : RESTMapping (Raw f))
  (e : Effect f) : Prop :=
  match e with
  | CallPrintObj x _ _ =>
      exists obj, x = attemptToConvertToInternal obj mapping (internalGVOf mapping)
  | Flush | OpenWatch _ => True
  | _ => False
  end.

(** [m], started in [st], returns [a] and leaves [st']. *)
Definition runs {f : Factory} {A : Type} (m : M f A) (st : St f) (a : A)
  (st' : St f) : Prop :=
  m st = (st', Ret a).

(** The printer state after printing [objs] in turn. *)
Definition printerAfter {f : Factory} (printer : ResourcePrinter f)
  (ps : PS f) (objs : list (Object (Raw f))) : PS f :=
  fold_left (fun ps obj => fst (printer ps obj)) objs ps.

(** The printer, started in [ps], prints every object of [objs] without
    error. *)
Fixpoint printsAll {f : Factory} (printer : ResourcePrinter f) (ps : PS f)
  (objs : list (Object (Raw f))) : Prop :=
  match objs with
  | [] => True
  | obj :: rest =>
      snd (printer ps obj) = None /\ printsAll printer (fst (printer ps obj)) rest
  end.

(** The objects of [objs] that are handed to the printer when they are
    printed in turn, starting in [ps], and printing stops after the first
    call that returns an error: the objects up to and including that
    one. *)
Fixpoint rendered {f : Factory} (printer : ResourcePrinter f) (ps : PS f)
  (objs : list (Object (Raw f))) : list (Object (Raw f)) :=
  match objs with
  | [] => []
  | obj :: rest =>
      obj :: match snd (printer ps obj) with
             | None => rendered printer (fst (printer ps obj)) rest
             | Some _ => []
             end
  end.

(** The object that [watch] hands to the printer for [obj]. *)
Definition toInternal {R : Type} (mapping : RESTMapping R) (obj : Object R)
  : Object R :=
  attemptToConvertToInternal obj mapping (internalGVOf mapping).

(** The current objects that [watch] prints before it opens the stream. *)
Definition snapshot (f : Factory) (options : GetOptions f) (obj : Object (Raw f))
  : list (Object (Raw f)) :=
  if WatchOnly options then []
  else if IsListType f obj then fst (ExtractList f obj) else [obj].

(** The objects of the delivered events that [watch] prints: all of them
    for a list, all but the first for a single object. *)
Definition streamed (f : Factory) (obj : Object (Raw f))
  (w : list (Event (Raw f))) : list (Object (Raw f)) :=
  map ev_Object (if IsListType f obj then w else tl w).

(** A [PrintObj] call that returned nil. *)
Definition printedTo {f : Factory} (w : Writer) (obj : Object (Raw f)) : Effect f :=
  CallPrintObj obj w None.

(** [watch] gets as far as the stream: the fetch answers with infos of one
    kind, a printer is found, the fetched object is [obj], and the stream
    opened at [rv] delivers the events [w]. *)
Inductive Streaming (f : Factory)
  : RESTMapping (Raw f) -> ResourcePrinter f -> Object (Raw f) -> string ->
    list (Event (Raw f)) -> Prop :=
| streaming (info : Info (Raw f)) (infos : list (Info (Raw f)))
    (printer : ResourcePrinter f) (obj : Object (Raw f)) (rv : string)
    (w : list (Event (Raw f))) :
    r_Err (DoWatch f) = None ->
    r_Infos (DoWatch f) = (info :: infos, None) ->
    Forall (fun i => mapping_GroupVersionKind (Mapping i)
                     = mapping_GroupVersionKind (Mapping info)) infos ->
    PrinterForOptions f = Ok printer ->
    r_Object (DoWatch f) = Ok obj ->
    (if IsListType f obj then ResourceVersion (Mapping info) obj else Ok "0")
    = Ok rv ->
    r_Watch (DoWatch f) rv = Ok w ->
    Streaming f (Mapping info) printer obj rv w.

(** The error of [watch] for infos of more than one kind. *)
Definition mixedKinds (uniqueGVKs : nat) : error :=
  Errorf "watch is only supported on individual resources and resource collections - %d resources were found"
    [ArgInt uniqueGVKs].

Definition gvkOf {R : Type} (info : Info R) : GroupVersionKind :=
  mapping_GroupVersionKind (Mapping info).

End GetSpec.

(** ** Concrete environments and inputs *)

Module Samples.

Import Printers.

(** A file system with one readable template file. *)
Definition sampleEnv : Env := {|
  File := string;
  Column := string;
  ReadFile := fun path =>
    if (path =? "tpl.txt")%string then Ok "{{.metadata.name}}"
    else Err (Errorf "open %s: no such file or directory" [ArgString path]);
  Open := fun path =>
    if (path =? "cols.txt")%string then Ok "NAME .metadata.name"
    else Err (Errorf "open %s: no such file or directory" [ArgString path]);
  parseGoTemplate := fun _ => None;
  parseJSONPath := fun _ => None;
  parseColumnsSpec := fun spec => Ok [spec];
  parseColumnsTemplate := fun file => Ok [file]
|}.

Definition sampleOptions (format argument : string) : PrintOptions := {|
  OutputFormatType := format;
  OutputFormatArgument := argument;
  AllowMissingKeys := true;
  NoHeaders := false;
  WithNamespace := false;
  WithKind := false;
  Wide := false;
  ShowAll := true;
  ShowLabels := false;
  AbsoluteTimestamps := false;
  Kind := "";
  ColumnLabels := [];
  SortBy := ""
|}.

Definition sampleFlags : TemplatePrintFlags := {|
  tpf_AllowMissingKeys := Some true;
  tpf_TemplateArgument := Some "";
  tpf_OutputFormat := ""
|}.

Definition declines : PrinterBuilder sampleEnv :=
  fun _ => (None, false, None).

Definition failsToBuild : PrinterBuilder sampleEnv :=
  fun _ => (None, true, Some (Errorf "template: unexpected EOF" [])).

Definition buildsJSON : PrinterBuilder sampleEnv :=
  fun _ => (Some JSONPrinter, true, None).

Import Get.

Definition podGVK : GroupVersionKind :=
  {| Group := ""; Version := "v1"; Kind := "Pod" |}.

Definition serviceGVK : GroupVersionKind :=
  {| Group := ""; Version := "v1"; Kind := "Service" |}.

(** A mapping whose converter marks the object as internal, or fails on
    every object when [convertible] is false. *)
Definition sampleMapping (gvk : GroupVersionKind) (convertible : bool)
  : RESTMapping string := {|
  Resource := "pods";
  mapping_GroupVersionKind := gvk;
  ResourceVersion := fun _ => Ok "42";
  ConvertToVersion := fun obj _ =>
    if convertible then
      match obj with
      | Dynamic name => Ok (Dynamic (name ++ "@internal"))
      | TableObject t => Ok (TableObject t)
      end
    else Err (Errorf "converting (%s) to (%s): unknown conversion" [])
|}.

Definition podInfo (name : string) (convertible : bool) : Info string :=
  {| info_Object := Dynamic name; Mapping := sampleMapping podGVK convertible |}.

Definition item (name : string) : Info string := podInfo name true.

Definition emptyTable : Info string :=
  {| info_Object := TableObject {| Rows := [] |};
     Mapping := sampleMapping podGVK true |}.

Definition unknownType : error := Errorf "unknown type" [].

(** A printer that counts its calls and fails on the objects whose name
    starts with broken. *)
Definition samplePrinter (ps : nat) (obj : Object string) : nat * option error :=
  (S ps,
   match obj with
   | Dynamic name => if HasPrefix name "broken" then Some unknownType else None
   | TableObject _ => None
   end).

Definition sampleResult (infos : list (Info string)) (obj : Object string)
  (events : list (Event string)) : BuilderResult string := {|
  r_Err := None;
  r_Infos := (infos, None);
  r_Object := Ok obj;
  r_Watch := fun _ => Ok events;
  r_IntoSingleItemImplied := (false, (infos, None))
|}.

(** A factory whose builder answers with [infos] and the object [obj],
    which is a list of [items] when [isList] is set, and whose watch
    delivers [events]. *)
Definition sampleFactory (infos : list (Info string)) (obj : Object string)
  (isList : bool) (items : list (Object string)) (events : list (Event string))
  : Factory := {|
  Raw := string;
  PS := nat;
  DoGet := sampleResult infos obj events;
  DoWatch := sampleResult infos obj events;
  IgnoreErrors := fun r => r;
  PrinterForOptions := Ok samplePrinter;
  objectKind := fun o =>
    match o with TableObject _ => "Table" | Dynamic _ => "Pod" end;
  Encode := fun _ => Ok "{}";
  Unmarshal := fun _ => Ok {| Rows := [] |};
  SortObjects := fun _ _ => Ok (fun ix => ix);
  IsListType := fun _ => isList;
  ExtractList := fun _ => (items, None);
  composeList := fun _ => Ok obj;
  displayList := fun o _ => Ret o;
  rawStream := fun _ => Ok ("", None);
  Flatten := fun e => e;
  Reduce := fun e => e
|}.

(** A logged [PrintObj] call of a sample run. *)
Definition printCall {infos : list (Info string)} {obj : Object string}
  {isList : bool} {items : list (Object string)} {events : list (Event string)}
  (x : Object string) (w : Writer) (err : option error)
  : Effect (sampleFactory infos obj isList items events) :=
  @CallPrintObj (sampleFactory infos obj isList items events) x w err.

Definition sampleGetOptions (f : Factory)
  (printObj : PS f -> Object (Raw f) -> Info (Raw f) -> PS f * option error)
  (watchOnly ignoreNotFound : bool) : GetOptions f := {|
  opt_Raw := "";
  Watch := false;
  WatchOnly := watchOnly;
  ServerPrint := false;
  PrintObj := printObj;
  SortBy := "";
  GenericPrinter := false;
  IgnoreNotFound := ignoreNotFound
|}.

(** A one-shot session over [infos] with the sample printer. *)
Definition sessionFactory (infos : list (Info string)) : Factory :=
  sampleFactory infos (Dynamic "pod-a") false [] [].

Definition sessionOptions (infos : list (Info string)) (ignoreNotFound : bool)
  : GetOptions (sessionFactory infos) :=
  sampleGetOptions (sessionFactory infos)
    (fun ps obj _ => samplePrinter ps obj) false ignoreNotFound.

(** A printer that answers each call with an aggregate of its own. *)
Definition nestingOptions (infos : list (Info string))
  : GetOptions (sessionFactory infos) :=
  sampleGetOptions (sessionFactory infos)
    (fun ps _ _ => (S ps, Some (Aggregate [unknownType]))) false false.

(** The run of that session from a fresh printer. *)
Definition sessionRun (infos : list (Info string)) (ignoreNotFound : bool)
  : St (sessionFactory infos) * outcome unit :=
  Run (sessionFactory infos) (sessionOptions infos ignoreNotFound)
    (@start (sessionFactory infos) 0).

Definition threeItems : list (Info string) :=
  [item "pod-a"; emptyTable; item "pod-b"].

Definition oneBroken : list (Info string) :=
  [item "broken-1"; item "pod-b"].

Definition event (name : string) : Event string :=
  {| ev_Type := "MODIFIED"; ev_Object := Dynamic name |}.

Definition service (name : string) : Info string :=
  {| info_Object := Dynamic name; Mapping := sampleMapping serviceGVK true |}.

Definition threeEvents : list (Event string) :=
  [event "pod-a-1"; event "pod-a-2"; event "pod-a-3"].

Definition twoEvents : list (Event string) :=
  [event "pod-c"; event "pod-a-1"].

(** The options of a watch with the sample printer. *)
Definition watchOptions (infos : list (Info string)) (obj : Object string)
  (isList : bool) (items : list (Object string)) (events : list (Event string))
  (watchOnly : bool) : GetOptions (sampleFactory infos obj isList items events) :=
  sampleGetOptions (sampleFactory infos obj isList items events)
    (fun ps obj _ => samplePrinter ps obj) watchOnly false.

(** The state before a sample watch: a fresh printer and an empty log. *)
Definition fresh (infos : list (Info string)) (obj : Object string)
  (isList : bool) (items : list (Object string)) (events : list (Event string))
  : St (sampleFactory infos obj isList items events) :=
  @start (sampleFactory infos obj isList items events) 0.

(** The run of [watch] from a fresh printer: the builder answers with
    [infos] and [obj], a list of [items] when [isList] is set, and the
    stream delivers [events]. *)
Definition watchRun (infos : list (Info string)) (obj : Object string)
  (isList : bool) (items : list (Object string)) (events : list (Event string))
  (watchOnly : bool)
  : St (sampleFactory infos obj isList items events) * outcome unit :=
  watch (sampleFactory infos obj isList items events)
    (watchOptions infos obj isList items events watchOnly)
    (fresh infos obj isList items events).

End Samples.

(** ** More of package printers *)

(** [strings.SplitN(s, "=", 2)], as the text before and after the first
    [=]; [None] when [s] holds no [=] (the slice then has one element). *)
Fixpoint cutEq (s : string) : option (string * string) :=
  match s with
  | EmptyString => None
  | String c s' =>
      if Ascii.eqb c "="%char then Some (EmptyString, s')
      else
        match cutEq s' with
        | Some (before, after) => Some (String c before, after)
        | None => None
        end
  end.

Definition SplitN2 (s : string) : list string :=
  match cutEq s with
  | Some (before, after) => [before; after]
  | None => [s]
  end.

(** [s] holds no [=]. *)
Fixpoint noEq (s : string) : bool :=
  match s with
  | EmptyString => true
  | String c s' => negb (Ascii.eqb c "="%char) && noEq s'
  end.

(** The template flags of the single-struct variant of the package:
    [TemplatePrintFlags] with its [Validate] and [ToPrinter]. *)
Module TemplateFlagsV.

Import Printers.

(** [TemplatePrintFlags.Validate]. *)
Definition Validate (f : TemplateFlags) : option error :=
  match tf_TemplateArgument f with
  | None => Some (Errorf "missing --template value" [])
  | Some arg =>
      if Nat.eqb (String.length arg) 0
      then Some (Errorf "missing --template value" [])
      else None
  end.

(** Modelled from the spec: [NewTemplatePrinter] is not among the sources;
    the template is compiled once at construction and a syntax error fails
    the construction.  Its printer is the Go template printer. *)
Definition NewTemplatePrinter (E : Env) (tmpl : string)
  : result (bool -> ResourcePrinter E) :=
  match parseGoTemplate E tmpl with
  | Some e => Err e
  | None => Ok (GoTemplatePrinter tmpl)
  end.

(** [TemplatePrintFlags.ToPrinter], the variant that returns
    [(ResourcePrinter, bool, error)]. *)
Definition ToPrinter (E : Env) (f : TemplateFlags) (outputFormat : string)
  : matchResult E :=
  match tf_TemplateArgument f with
  | None => (None, true, Some (Errorf "missing --template argument" []))
  | Some templateArg =>
      let outputFormat :=
        if Nat.eqb (String.length outputFormat) 0
           && Nat.ltb 0 (String.length templateArg)
        then "go-template" else outputFormat in
      let templateFormats :=
        ["go-template"; "go-template-file"; "jsonpath"; "jsonpath-file"] in
      let '(templateArg, outputFormat) :=
        stripFormatPrefix templateFormats templateArg outputFormat in
      if negb (mem_string outputFormat templateFormats)
         && negb (outputFormat =? "template")%string
      then (None, false, None)
      else
        match NewTemplatePrinter E templateArg with
        | Err err => (None, true, Some err)
        | Ok p => (Some (p (allowMissingKeysOf f)), true, None)
        end
  end.

End TemplateFlagsV.

(** [HumanPrintFlags] and its [ToPrinter]. *)
Module HumanFlags.

Import Printers.

Record HumanPrintFlags : Type := {
  hf_NoHeaders : option bool;
  hf_WithNamespace : option bool;
  hf_Wide : option bool;
  hf_ShowAll : option bool;
  hf_ShowLabels : option bool;
  hf_AbsoluteTimestamps : option bool;
  hf_ColumnLabels : option (list string);
  hf_SortBy : option string;
  hf_Kind : string
}.

(** The methods that [ToPrinter] calls on the printer it makes. *)
Inductive HumanCall : Type :=
| EnsurePrintHeaders
| EnsurePrintNamespace
| EnsurePrintLabels
| EnsureAbsoluteTimestamps
| EnsureWideOutput
| EnsurePrintWithKind (kind : string)
| EnsurePrintWithColumnLabels (columnLabels : list string).

(** The printer made by [NewHumanReadablePrinter(encoder, decoder)],
    with the method calls made on it, oldest first. *)
Record HumanReadablePrinter : Type := {
  hp_encoder : Encoder;
  hp_decoder : Decoder;
  hp_calls : list HumanCall
}.

Definition isSet (b : option bool) : bool :=
  match b with
  | Some true => true
  | _ => false
  end.

(** The calls of [ToPrinter], in the order of the source. *)
Definition configure (f : HumanPrintFlags) : list HumanCall :=
  ((match hf_NoHeaders f with
    | Some noHeaders => if negb noHeaders then [EnsurePrintHeaders] else []
    | None => []
    end)
   ++ (if isSet (hf_WithNamespace f) then [EnsurePrintNamespace] else [])
   ++ (if isSet (hf_ShowLabels f) then [EnsurePrintLabels] else [])
   ++ (if isSet (hf_AbsoluteTimestamps f) then [EnsureAbsoluteTimestamps] else [])
   ++ (if isSet (hf_Wide f) then [EnsureWideOutput] else [])
   ++ (if Nat.ltb 0 (String.length (hf_Kind f))
       then [EnsurePrintWithKind (hf_Kind f)] else [])
   ++ (match hf_ColumnLabels f with
       | Some columnLabels =>
           if Nat.ltb 0 (List.length columnLabels)
           then [EnsurePrintWithColumnLabels columnLabels] else []
       | None => []
       end))%list.

(** [HumanPrintFlags.ToPrinter]; the encoder and the decoder are
    interface values that may be nil. *)
Definition ToPrinter (f : HumanPrintFlags) (outputFormat : string)
  (encoder : option Encoder) (decoder : option Decoder)
  : option HumanReadablePrinter * bool * option error :=
  if Nat.ltb 0 (String.length outputFormat)
     && negb (outputFormat =? "wide")%string
  then (None, false, None)
  else
    match encoder, decoder with
    | Some enc, Some dec =>
        (Some {| hp_encoder := enc; hp_decoder := dec; hp_calls := configure f |},
         true, None)
    | _, _ =>
        (None, false,
         Some (Errorf "both an encoder and decoder must be specified for this printer" []))
    end.

End HumanFlags.

(** ** More of get.go *)

Module GetMore.

Import Get.

(** [outputOptsFromStr]: the print options as the call leaves them and
    the returned flag. *)
Definition outputOptsFromStr (columnStr : string)
  (printOpts : Printers.PrintOptions) : bool * Printers.PrintOptions :=
  if (columnStr =? "")%string then (false, printOpts)
  else
    match SplitN2 columnStr with
    | part0 :: part1 :: _ =>
        (true,
         {| Printers.OutputFormatType := part0;
            Printers.OutputFormatArgument := part1;
            Printers.AllowMissingKeys := true;
            Printers.NoHeaders := Printers.NoHeaders printOpts;
            Printers.WithNamespace := Printers.WithNamespace printOpts;
            Printers.WithKind := Printers.WithKind printOpts;
            Printers.Wide := Printers.Wide printOpts;
            Printers.ShowAll := Printers.ShowAll printOpts;
            Printers.ShowLabels := Printers.ShowLabels printOpts;
            Printers.AbsoluteTimestamps := Printers.AbsoluteTimestamps printOpts;
            Printers.Kind := Printers.Kind printOpts;
            Printers.ColumnLabels := Printers.ColumnLabels printOpts;
            Printers.SortBy := Printers.SortBy printOpts |})
    | _ => (false, printOpts)
    end.

(** The OpenAPI collaborators of [updatePrintOptionsForOpenAPI]:
    [f.OpenAPISchema()], [api.LookupResource] and
    [openapi.GetPrintColumns(schema.GetExtensions())]. *)
Record OpenAPI : Type := {
  Resources : Type;
  Schema : Type;
  OpenAPISchema : result Resources;
  LookupResource : Resources -> GroupVersionKind -> option Schema;
  GetPrintColumns : Schema -> option string
}.

(** [updatePrintOptionsForOpenAPI]. *)
Definition updatePrintOptionsForOpenAPI (api : OpenAPI)
  (gvk : GroupVersionKind) (printOpts : Printers.PrintOptions)
  : bool * Printers.PrintOptions :=
  match OpenAPISchema api with
  | Err _ => (false, printOpts)
  | Ok resources =>
      match LookupResource api resources gvk with
      | None => (false, printOpts)
      | Some schema =>
          match GetPrintColumns api schema with
          | None => (false, printOpts)
          | Some columns => outputOptsFromStr columns printOpts
          end
      end
  end.

(** What [Validate] reads besides the options that [Run] reads: two more
    fields of [GetOptions], the flags [output] and [show-labels] of the
    command, and the collaborators [cmdutil.UsageErrorf] and
    [url.ParseRequestURI]. *)
Record ValidateInput : Type := {
  LabelSelector : string;
  Export : bool;
  flag_output : string;
  flag_show_labels : bool;
  UsageErrorf : string -> list fmtArg -> error;
  ParseRequestURI : string -> option error
}.

(** [GetOptions.Validate]. *)
Definition Validate {f : Factory} (options : GetOptions f) (cmd : ValidateInput)
  : option error :=
  let rawCheck :=
    if Nat.ltb 0 (String.length (opt_Raw options)) then
      if Watch options || WatchOnly options
         || Nat.ltb 0 (String.length (LabelSelector cmd)) || Export cmd
      then Some (Errorf "--raw may not be specified with other flags that filter the server request or alter the output" [])
      else if Nat.ltb 0 (String.length (flag_output cmd))
      then Some (UsageErrorf cmd "--raw and --output are mutually exclusive" [])
      else
        match ParseRequestURI cmd (opt_Raw options) with
        | Some err =>
            Some (UsageErrorf cmd "--raw must be a valid URL path: %v" [ArgError err])
        | None => None
        end
    else None in
  match rawCheck with
  | Some err => Some err
  | None =>
      if flag_show_labels cmd then
        let outputOption := flag_output cmd in
        if negb (outputOption =? "")%string && negb (outputOption =? "wide")%string
        then Some (Errorf "--show-labels option cannot be used with %s printer"
                     [ArgString outputOption])
        else None
      else None
  end.

(** [shouldGetNewPrinterForMapping]; the three pointers may be nil. *)
Definition shouldGetNewPrinterForMapping {P R : Type} (printer : option P)
  (lastMapping mapping : option (RESTMapping R)) : bool :=
  match printer, lastMapping, mapping with
  | Some _, Some lastMapping, Some mapping =>
      negb (Resource mapping =? Resource lastMapping)%string
  | _, _, _ => true
  end.

(** A [*resource.Info] as the function literal of [Complete] sees it:
    the mapping may be nil; [AsInternal] is what the method of that name
    returns. *)
Record InfoRef (R : Type) : Type := {
  ir_Mapping : option (RESTMapping R);
  ir_AsInternal : Object R
}.
Arguments ir_Mapping {R} i.
Arguments ir_AsInternal {R} i.

(** What the function literal does with the printer: for a human-readable
    printer, an optional [EnsurePrintWithKind(kind)] and then [PrintObj]
    on the internal object; for any other printer, [PrintObj] on the
    object it was given. *)
Inductive PrintCall (R : Type) : Type :=
| HumanPrintObj (ensuredKind : option string) (obj : Object R)
| PlainPrintObj (obj : Object R).
Arguments HumanPrintObj {R} ensuredKind obj.
Arguments PlainPrintObj {R} obj.

(** The function literal that [Complete] stores in [options.PrintObj].
    [isHuman] is the type assertion of the printer, [info] may be nil,
    [ResourceShortFormFor] is the function of package kubectl. *)
Definition completePrintObj {R : Type} (isHuman : bool) (ShowKind : bool)
  (ResourceShortFormFor : string -> option string)
  (obj : Object R) (info : option (InfoRef R)) : outcome (PrintCall R) :=
  match isHuman, info with
  | true, Some info =>
      if ShowKind then
        let kind := "none" in
        let kind :=
          match ir_Mapping info with
          | Some mapping => Resource mapping
          | None => kind
          end in
        match ir_Mapping info with
        | None => Panic
        | Some mapping =>
            let kind :=
              match ResourceShortFormFor (Resource mapping) with
              | Some alias => alias
              | None => kind
              end in
            Ret (HumanPrintObj (Some kind) (ir_AsInternal info))
        end
      else Ret (HumanPrintObj None (ir_AsInternal info))
  | _, _ => Ret (PlainPrintObj obj)
  end.

End GetMore.

(** ** Vocabulary of the further statements *)

Module MoreSpec.

Import Printers.

(** A result [(printer, matched, err)] whose printer is non-nil exactly
    when it is matched without error. *)
Definition wellFormed {P : Type} (r : option P * bool * option error) : Prop :=
  match r with
  | (p, matched, err) => p <> None <-> (matched = true /\ err = None)
  end.

(** [printOpts] with the format type, the format argument and
    [AllowMissingKeys] that [outputOptsFromStr] sets. *)
Definition withFormat (printOpts : PrintOptions) (formatType argument : string)
  : PrintOptions :=
  {| OutputFormatType := formatType;
     OutputFormatArgument := argument;
     AllowMissingKeys := true;
     NoHeaders := NoHeaders printOpts;
     WithNamespace := WithNamespace printOpts;
     WithKind := WithKind printOpts;
     Wide := Wide printOpts;
     ShowAll := ShowAll printOpts;
     ShowLabels := ShowLabels printOpts;
     AbsoluteTimestamps := AbsoluteTimestamps printOpts;
     Kind := Kind printOpts;
     ColumnLabels := ColumnLabels printOpts;
     SortBy := SortBy printOpts |}.

(** The kinds whose [kind=] prefix [TemplatePrintFlags.ToPrinter] splits
    off. *)
Definition splitKinds : list string :=
  ["go-template"; "go-template-file"; "jsonpath"; "jsonpath-file";
   "custom-columns"; "custom-columns-file"].

(** The flags with the output format stored, defaulted to template when
    it is empty and a template argument is given. *)
Definition storedFormat (f : TemplatePrintFlags) (outputFormat : string)
  : TemplatePrintFlags :=
  {| tpf_AllowMissingKeys := tpf_AllowMissingKeys f;
     tpf_TemplateArgument := tpf_TemplateArgument f;
     tpf_OutputFormat :=
       match tpf_TemplateArgument f with
       | Some arg =>
           if Nat.eqb (String.length outputFormat) 0
              && negb (Nat.eqb (String.length arg) 0)
           then "template" else outputFormat
       | None => outputFormat
       end |}.

(** What a template printer construction answers for the template [tpl]. *)
Definition goTemplateResult (E : Env) (tpl : string) (allow : bool)
  : matchResult E :=
  match parseGoTemplate E tpl with
  | Some e => (None, true, Some e)
  | None => (Some (GoTemplatePrinter tpl allow), true, None)
  end.

Definition jsonPathResult (E : Env) (tpl : string) (allow : bool)
  : matchResult E :=
  match parseJSONPath E tpl with
  | Some e => (None, true, Some e)
  | None => (Some (JSONPathPrinter tpl allow), true, None)
  end.

Import Get.

(** A log made of pairs: a flush, then a [PrintObj] call on the tab
    writer. *)
Fixpoint flushedCalls {f : Factory} (l : list (Effect f)) : Prop :=
  match l with
  | [] => True
  | Flush :: CallPrintObj _ TabWriter _ :: rest => flushedCalls rest
  | _ => False
  end.

(** A [PrintObj] call whose writer is [w]. *)
Definition isCallTo {f : Factory} (w : Writer) (e : Effect f) : Prop :=
  match e with
  | CallPrintObj _ w' _ => w' = w
  | _ => False
  end.

(** The infos whose group, version and kind are not those of [info]. *)
Definition otherKinds {R : Type} (info : Info R) (infos : list (Info R))
  : list (Info R) :=
  filter (fun i => negb (GroupVersionKind_eqb (mapping_GroupVersionKind (Mapping i))
                           (mapping_GroupVersionKind (Mapping info)))) infos.

(** [m] appends nothing, or one [PrintObj] call on the output. *)
Definition atMostOneCall {f : Factory} {A : Type} (m : M f A) : Prop :=
  forall st, exists l,
    log (fst (m st)) = (log st ++ l)%list
    /\ (l = [] \/ exists obj err, l = [CallPrintObj obj Out err]).

(** The error of [watch] for a current object that the printer rejects. *)
Definition unableToOutput (e : error) : error :=
  Errorf "unable to output the provided object: %v" [ArgError e].

End MoreSpec.

(** ** Further sample inputs *)

Module MoreSamples.

Import Printers Samples.

(** Template flags whose template value is set. *)
Definition inlineFlags : TemplateFlags := {|
  tf_AllowMissingKeys := Some false;
  tf_TemplateArgument := Some "{{.a}}"
|}.

(** Template flags whose template pointer refers to the empty string. *)
Definition emptyTemplateFlags : TemplateFlags := {|
  tf_AllowMissingKeys := None;
  tf_TemplateArgument := Some ""
|}.

(** Human-readable flags that ask for the wide columns and leave the
    headers flag unset. *)
Definition wideFlags : HumanFlags.HumanPrintFlags := {|
  HumanFlags.hf_NoHeaders := None;
  HumanFlags.hf_WithNamespace := Some true;
  HumanFlags.hf_Wide := Some true;
  HumanFlags.hf_ShowAll := None;
  HumanFlags.hf_ShowLabels := Some false;
  HumanFlags.hf_AbsoluteTimestamps := None;
  HumanFlags.hf_ColumnLabels := Some ["app"];
  HumanFlags.hf_SortBy := None;
  HumanFlags.hf_Kind := "pod"
|}.

Import Get GetMore.

(** A schema that holds print columns for pods only. *)
Definition sampleOpenAPI : OpenAPI := {|
  Resources := unit;
  Schema := string;
  OpenAPISchema := Ok tt;
  LookupResource := fun _ gvk =>
    if (Get.Kind gvk =? "Pod")%string
    then Some "custom-columns=NAME:.metadata.name" else None;
  GetPrintColumns := fun columns => Some columns
|}.

(** The command line [--raw=/api --show-labels -o wide ...]. *)
Definition sampleValidateInput (output : string) (showLabels : bool)
  : ValidateInput := {|
  LabelSelector := "";
  Export := false;
  flag_output := output;
  flag_show_labels := showLabels;
  UsageErrorf := fun format args => Errorf format args;
  ParseRequestURI := fun raw =>
    if HasPrefix raw "/" then None
    else Some (Errorf "parse %s: invalid URI for request" [ArgString raw])
|}.

(** An info whose mapping pointer is nil. *)
Definition unmappedInfo : InfoRef string := {|
  ir_Mapping := None;
  ir_AsInternal := Dynamic "pod-a@internal"
|}.

(** A factory as [Samples.sampleFactory] whose sorter reverses the
    objects. *)
Definition reversingFactory (infos : list (Info string)) : Factory := {|
  Raw := string;
  PS := nat;
  DoGet := Samples.sampleResult infos (Dynamic "pod-a") [];
  DoWatch := Samples.sampleResult infos (Dynamic "pod-a") [];
  IgnoreErrors := fun r => r;
  PrinterForOptions := Ok Samples.samplePrinter;
  objectKind := fun o =>
    match o with TableObject _ => "Table" | Dynamic _ => "Pod" end;
  Encode := fun _ => Ok "{}";
  Unmarshal := fun _ => Ok {| Rows := [] |};
  SortObjects := fun objs _ => Ok (fun ix => List.length objs - 1 - ix);
  IsListType := fun _ => false;
  ExtractList := fun _ => ([], None);
  composeList := fun _ => Ok (Dynamic "pod-a");
  displayList := fun o _ => Ret o;
  rawStream := fun path =>
    if (path =? "/eof")%string then Ok ("{}", Some io_EOF)
    else if (path =? "/reset")%string
         then Ok ("{", Some (Errorf "connection reset by peer" []))
         else if HasPrefix path "/" then Ok ("{}", None)
              else Err (Errorf "invalid request URI" []);
  Flatten := fun e => e;
  Reduce := fun e => e
|}.

(** Options that ask for sorting by name, with the raw path and the
    watch flag given. *)
Definition sortedOptions (infos : list (Info string)) (raw : string)
  (watch : bool) : GetOptions (reversingFactory infos) :=
  @Build_GetOptions (reversingFactory infos) raw watch false false
    (fun ps obj _ => Samples.samplePrinter ps obj)
    ".metadata.name" false false.

(** A factory as [Samples.sampleFactory] for server-side printing: the
    objects whose name starts with table are of kind Table, an object
    encodes as its name, and the bytes decode into a table with one row,
    or do not decode when they start with table-broken. *)
Definition serverPrintFactory (infos : list (Info string)) : Factory := {|
  Raw := string;
  PS := nat;
  DoGet := Samples.sampleResult infos (Dynamic "pod-a") [];
  DoWatch := Samples.sampleResult infos (Dynamic "pod-a") [];
  IgnoreErrors := fun r => r;
  PrinterForOptions := Ok Samples.samplePrinter;
  objectKind := fun o =>
    match o with
    | TableObject _ => "Table"
    | Dynamic name => if HasPrefix name "table" then "Table" else "Pod"
    end;
  Encode := fun o =>
    match o with
    | TableObject _ => Ok "{}"
    | Dynamic name => Ok name
    end;
  Unmarshal := fun b =>
    if HasPrefix b "table-broken"
    then Err (Errorf "invalid character" [])
    else Ok {| Rows := [[b]] |};
  SortObjects := fun _ _ => Ok (fun ix => ix);
  IsListType := fun _ => false;
  ExtractList := fun _ => ([], None);
  composeList := fun _ => Ok (Dynamic "pod-a");
  displayList := fun o _ => Ret o;
  rawStream := fun _ => Ok ("", None);
  Flatten := fun e => e;
  Reduce := fun e => e
|}.

Definition serverPrintOptions (infos : list (Info string))
  : GetOptions (serverPrintFactory infos) :=
  @Build_GetOptions (serverPrintFactory infos) "" false false true
    (fun ps obj _ => Samples.samplePrinter ps obj) "" false false.

(** A table of the server, a pod, and a table that does not decode. *)
Definition serverItems : list (Info string) :=
  [Samples.item "table-pods"; Samples.item "pod-a";
   Samples.item "table-broken"].

(** A stream whose second event the sample printer rejects. *)
Definition brokenEvents : list (Event string) :=
  [Samples.event "pod-a-1"; Samples.event "broken-2"; Samples.event "pod-a-3"].

(** A builder result that implies a single item and holds none. *)
Definition impliedEmpty : BuilderResult string := {|
  r_Err := None;
  r_Infos := ([], None);
  r_Object := Ok (Dynamic "pod-a");
  r_Watch := fun _ => Ok [];
  r_IntoSingleItemImplied := (true, ([], None))
|}.

End MoreSamples.

(** * Properties *)

(** ** Printer resolution *)

Module PrintersFacts.

Import Printers PrintersSpec.

Lemma mem_string_false (s : string) (l : list string) :
  ~ In s l -> mem_string s l = false.
Proof.
  unfold mem_string.
  induction l as [|x l IH]; simpl; intro H; [reflexivity|].
  destruct (String.eqb_spec s x) as [-> | _].
  - exfalso. apply H. now left.
  - apply IH. intro Hin. apply H. now right.
Qed.

Lemma eqb_false_of_not_in (s x : string) (l : list string) :
  ~ In s l -> In x l -> (s =? x)%string = false.
Proof.
  intros Hs Hx. destruct (String.eqb_spec s x) as [-> | _]; [contradiction|reflexivity].
Qed.

Lemma length_eqb_0 (s : string) :
  s <> "" -> Nat.eqb (String.length s) 0 = false.
Proof. destruct s; [congruence|reflexivity]. Qed.

Section Builders.

Variable E : Env.

Lemma runBuilders_skip (pre rest : list (PrinterBuilder E))
  (f : TemplatePrintFlags) (called : nat) :
  Forall (declinesAt E f) pre ->
  runBuilders E (pre ++ rest) f called
  = runBuilders E rest f (List.length pre + called).
Proof.
  intro H. revert called.
  induction H as [|b pre Hb _ IH]; intro called; simpl; [reflexivity|].
  unfold declinesAt in Hb.
  destruct (b f) as [[p m] e]. simpl in Hb. subst m.
  rewrite IH. f_equal. lia.
Qed.

(** C3.  In [TemplatePrintFlags.ToPrinter] the builders are tried in the
    order of the list.  When the builders in front of [b] all decline,
    [b], if it reports a match, decides the call: its construction error
    is returned, or else its printer, and exactly the builders up to [b]
    have been called, none behind it.  When every builder of the list
    declines, the call returns the one error that no printer matched. *)
Theorem ToPrinter_first_match_decides
  (pre post : list (PrinterBuilder E)) (b : PrinterBuilder E)
  (f : TemplatePrintFlags) (outputFormat : string) :
  Forall (declinesAt E (prepareFlags f outputFormat)) pre ->
  (forall p err,
      b (prepareFlags f outputFormat) = (p, true, err) ->
      TemplatePrintFlags_ToPrinter E (pre ++ b :: post) f outputFormat
      = (prepareFlags f outputFormat,
         (match err with Some e => Err e | None => Ok p end,
          S (List.length pre))))
  /\ TemplatePrintFlags_ToPrinter E pre f outputFormat
     = (prepareFlags f outputFormat,
        (Err (Errorf "no printers matched current flag values" []),
         List.length pre)).
Proof.
  intro Hpre. unfold TemplatePrintFlags_ToPrinter. split.
  - intros p err Hb.
    rewrite (runBuilders_skip pre (b :: post) _ 0 Hpre).
    simpl. rewrite Hb. rewrite Nat.add_0_r.
    destruct err; reflexivity.
  - rewrite <- (app_nil_r pre) at 1.
    rewrite (runBuilders_skip pre [] _ 0 Hpre).
    simpl. now rewrite Nat.add_0_r.
Qed.

End Builders.

Lemma ToPrinter_first_match_decides_witness :
  TemplatePrintFlags_ToPrinter Samples.sampleEnv
    [Samples.declines; Samples.failsToBuild; Samples.buildsJSON]
    Samples.sampleFlags "go-template={{.x}}"
  = ({| tpf_AllowMissingKeys := Some true;
        tpf_TemplateArgument := Some "{{.x}}";
        tpf_OutputFormat := "go-template" |},
     (Err (Errorf "template: unexpected EOF" []), 2)).
Proof.
  assert (Hpre : Forall (declinesAt Samples.sampleEnv
                           (prepareFlags Samples.sampleFlags "go-template={{.x}}"))
                   [Samples.declines])
    by (constructor; [reflexivity | constructor]).
  apply (proj1 (ToPrinter_first_match_decides Samples.sampleEnv
                  [Samples.declines] [Samples.buildsJSON] Samples.failsToBuild
                  Samples.sampleFlags "go-template={{.x}}" Hpre)
           None (Some (Errorf "template: unexpected EOF" []))).
  reflexivity.
Defined.


(** C2, as the claim states it, fails: templatefile is not among the
    documented format types, yet [GetStandardPrinter] has a case for it;
    without an argument it answers that no template file was given, which
    is not the error of an unrecognized format. *)
Lemma GetStandardPrinter_templatefile_is_recognized :
  ~ In "templatefile" documentedFormats
  /\ GetStandardPrinter Samples.sampleEnv (typer 0) (encoder 0) [decoder 0]
       (Samples.sampleOptions "templatefile" "")
     = Fail (Errorf "%s format specified but no template file given"
               [ArgString "templatefile"])
  /\ GetStandardPrinter Samples.sampleEnv (typer 0) (encoder 0) [decoder 0]
       (Samples.sampleOptions "templatefile" "")
     <> Fail (notRecognized "templatefile")
  /\ GetStandardPrinter Samples.sampleEnv (typer 0) (encoder 0) [decoder 0]
       (Samples.sampleOptions "templatefile" "tpl.txt")
     = Ret (Some (GoTemplatePrinter "{{.metadata.name}}" true)).
Proof.
  split; [|split; [|split]].
  - simpl. intuition discriminate.
  - reflexivity.
  - discriminate.
  - reflexivity.
Qed.

Section Resolution.

Variable E : Env.
Variables (typer : ObjectTyper) (encoder : Encoder).
Variables (d : Decoder) (ds : list Decoder).
Variable options : PrintOptions.

Lemma templateCase_go (fmt tmpl : string) (allow : bool) :
  fmt = "template" \/ fmt = "go-template"
  \/ fmt = "go-template-file" \/ fmt = "templatefile" ->
  tmpl <> "" ->
  parseGoTemplate E tmpl = None ->
  templateCase E fmt tmpl allow = Ret (Some (GoTemplatePrinter tmpl allow)).
Proof.
  intros Hfmt Hne Hparse.
  unfold templateCase, KubeTemplatePrintFlags_ToPrinter,
    JSONPathPrintFlags_ToPrinter, GoTemplatePrintFlags_ToPrinter,
    NewGoTemplatePrinter.
  cbn [tf_TemplateArgument tf_AllowMissingKeys JSONPathPrintFlags
       GoTemplatePrintFlags allowMissingKeysOf].
  rewrite (length_eqb_0 tmpl Hne).
  destruct Hfmt as [-> | [-> | [-> | ->]]]; cbn; rewrite Hparse; reflexivity.
Qed.

Lemma templateCase_jsonpath (fmt tmpl : string) (allow : bool) :
  fmt = "jsonpath" \/ fmt = "jsonpath-file" ->
  tmpl <> "" ->
  parseJSONPath E tmpl = None ->
  templateCase E fmt tmpl allow = Ret (Some (JSONPathPrinter tmpl allow)).
Proof.
  intros Hfmt Hne Hparse.
  unfold templateCase, KubeTemplatePrintFlags_ToPrinter,
    JSONPathPrintFlags_ToPrinter, NewJSONPathPrinter.
  cbn [tf_TemplateArgument tf_AllowMissingKeys JSONPathPrintFlags
       GoTemplatePrintFlags allowMissingKeysOf].
  rewrite (length_eqb_0 tmpl Hne).
  destruct Hfmt as [-> | ->]; cbn; rewrite Hparse; reflexivity.
Qed.

(** C2, amended.  [GetStandardPrinter] receives the format type and the
    format argument separately and, given at least one decoder: json,
    yaml and name give the JSON, YAML and name printers; wide and the
    empty type give the human-readable table printer; template and
    go-template give the Go template printer and jsonpath the JSONPath
    printer, when the argument is not empty and compiles; go-template-file
    and jsonpath-file (and the undocumented templatefile) do the same with
    the contents of the file named by the argument; custom-columns and
    custom-columns-file give the custom-columns printer when the columns
    parse; and every format type that is not a case of the switch gives
    the error that the output format is not recognized, naming it. *)
Theorem GetStandardPrinter_resolution :
  (OutputFormatType options = "json" ->
   GetStandardPrinter E typer encoder (d :: ds) options = Ret (Some JSONPrinter))
  /\ (OutputFormatType options = "yaml" ->
      GetStandardPrinter E typer encoder (d :: ds) options
      = Ret (Some YAMLPrinter))
  /\ (OutputFormatType options = "name" ->
      GetStandardPrinter E typer encoder (d :: ds) options
      = Ret (Some (NamePrinter typer (d :: ds))))
  /\ (OutputFormatType options = "wide" \/ OutputFormatType options = "" ->
      GetStandardPrinter E typer encoder (d :: ds) options
      = Ret (Some (HumanReadablePrinter encoder d options)))
  /\ (OutputFormatType options = "template"
      \/ OutputFormatType options = "go-template" ->
      OutputFormatArgument options <> "" ->
      parseGoTemplate E (OutputFormatArgument options) = None ->
      GetStandardPrinter E typer encoder (d :: ds) options
      = Ret (Some (GoTemplatePrinter (OutputFormatArgument options)
                     (AllowMissingKeys options))))
  /\ (OutputFormatType options = "jsonpath" ->
      OutputFormatArgument options <> "" ->
      parseJSONPath E (OutputFormatArgument options) = None ->
      GetStandardPrinter E typer encoder (d :: ds) options
      = Ret (Some (JSONPathPrinter (OutputFormatArgument options)
                     (AllowMissingKeys options))))
  /\ (OutputFormatType options = "go-template-file"
      \/ OutputFormatType options = "templatefile" ->
      forall data,
        OutputFormatArgument options <> "" ->
        ReadFile E (OutputFormatArgument options) = Ok data ->
        data <> "" -> parseGoTemplate E data = None ->
        GetStandardPrinter E typer encoder (d :: ds) options
        = Ret (Some (GoTemplatePrinter data (AllowMissingKeys options))))
  /\ (OutputFormatType options = "jsonpath-file" ->
      forall data,
        OutputFormatArgument options <> "" ->
        ReadFile E (OutputFormatArgument options) = Ok data ->
        data <> "" -> parseJSONPath E data = None ->
        GetStandardPrinter E typer encoder (d :: ds) options
        = Ret (Some (JSONPathPrinter data (AllowMissingKeys options))))
  /\ (OutputFormatType options = "custom-columns" ->
      forall cols,
        parseColumnsSpec E (OutputFormatArgument options) = Ok cols ->
        GetStandardPrinter E typer encoder (d :: ds) options
        = Ret (Some (CustomColumnsPrinter cols d (NoHeaders options))))
  /\ (OutputFormatType options = "custom-columns-file" ->
      forall file cols,
        Open E (OutputFormatArgument options) = Ok file ->
        parseColumnsTemplate E file = Ok cols ->
        GetStandardPrinter E typer encoder (d :: ds) options
        = Ret (Some (CustomColumnsPrinter cols d false)))
  /\ (~ In (OutputFormatType options) switchCases ->
      GetStandardPrinter E typer encoder (d :: ds) options
      = Fail (notRecognized (OutputFormatType options))).
Proof.
  unfold GetStandardPrinter. cbv zeta.
  generalize (OutputFormatArgument options) as argument.
  generalize (OutputFormatType options) as format.
  intros format argument.
  repeat split.
  - intros ->. reflexivity.
  - intros ->. reflexivity.
  - intros ->. reflexivity.
  - intros [-> | ->]; reflexivity.
  - intros Hf Hne Hparse.
    rewrite (templateCase_go format argument _ (ltac:(tauto)) Hne Hparse).
    destruct Hf as [-> | ->]; reflexivity.
  - intros Hf Hne Hparse.
    rewrite (templateCase_jsonpath format argument _ (or_introl Hf) Hne Hparse).
    rewrite Hf. reflexivity.
  - intros Hf data Hne Hread Hdata Hparse.
    rewrite Hread, (length_eqb_0 argument Hne).
    rewrite (templateCase_go format data _ (ltac:(tauto)) Hdata Hparse).
    destruct Hf as [-> | ->]; reflexivity.
  - intros Hf data Hne Hread Hdata Hparse.
    rewrite Hread, (length_eqb_0 argument Hne).
    rewrite (templateCase_jsonpath format data _ (or_intror Hf) Hdata Hparse).
    rewrite Hf. reflexivity.
  - intros -> cols Hcols. cbn.
    unfold NewCustomColumnsPrinterFromSpec. rewrite Hcols. reflexivity.
  - intros -> file cols Hopen Hcols. cbn. rewrite Hopen.
    unfold NewCustomColumnsPrinterFromTemplate. rewrite Hcols. reflexivity.
  - intro Hnot.
    rewrite !mem_string_false.
    + rewrite !(eqb_false_of_not_in format _ switchCases Hnot); simpl; tauto.
    + intro H. apply Hnot. simpl in *. tauto.
    + intro H. apply Hnot. simpl in *. tauto.
    + intro H. apply Hnot. simpl in *. tauto.
    + intro H. apply Hnot. simpl in *. tauto.
Qed.

End Resolution.

Lemma GetStandardPrinter_resolution_witness :
  GetStandardPrinter Samples.sampleEnv (typer 0) (encoder 0) [decoder 0]
    (Samples.sampleOptions "go-template" "{{.x}}")
  = Ret (Some (GoTemplatePrinter "{{.x}}" true))
  /\ GetStandardPrinter Samples.sampleEnv (typer 0) (encoder 0) [decoder 0]
       (Samples.sampleOptions "jsonpath-file" "tpl.txt")
     = Ret (Some (JSONPathPrinter "{{.metadata.name}}" true))
  /\ GetStandardPrinter Samples.sampleEnv (typer 0) (encoder 0) [decoder 0]
       (Samples.sampleOptions "custom-columns-file" "cols.txt")
     = Ret (Some (@CustomColumnsPrinter Samples.sampleEnv
                    ["NAME .metadata.name"] (decoder 0) false))
  /\ GetStandardPrinter Samples.sampleEnv (typer 0) (encoder 0) [decoder 0]
       (Samples.sampleOptions "xml" "")
     = Fail (notRecognized "xml").
Proof.
  split; [|split; [|split]].
  - destruct (GetStandardPrinter_resolution Samples.sampleEnv (typer 0)
                (encoder 0) (decoder 0) []
                (Samples.sampleOptions "go-template" "{{.x}}"))
      as (_ & _ & _ & _ & H & _).
    apply H; [now right | discriminate | reflexivity].
  - destruct (GetStandardPrinter_resolution Samples.sampleEnv (typer 0)
                (encoder 0) (decoder 0) []
                (Samples.sampleOptions "jsonpath-file" "tpl.txt"))
      as (_ & _ & _ & _ & _ & _ & _ & H & _).
    apply H; [reflexivity | discriminate | reflexivity | discriminate | reflexivity].
  - destruct (GetStandardPrinter_resolution Samples.sampleEnv (typer 0)
                (encoder 0) (decoder 0) []
                (Samples.sampleOptions "custom-columns-file" "cols.txt"))
      as (_ & _ & _ & _ & _ & _ & _ & _ & _ & H & _).
    apply (H eq_refl "NAME .metadata.name"); reflexivity.
  - destruct (GetStandardPrinter_resolution Samples.sampleEnv (typer 0)
                (encoder 0) (decoder 0) []
                (Samples.sampleOptions "xml" ""))
      as (_ & _ & _ & _ & _ & _ & _ & _ & _ & _ & H).
    apply H. simpl. intuition discriminate.
Defined.

End PrintersFacts.

(** ** The command: print session and watch *)

Module GetFacts.

Import Get GetSpec.

(** *** A small logic of appended effects *)

Section Writes.

Context {f : Factory}.
Variable P : Effect f -> Prop.

Lemma writes_ret {A : Type} (a : A) : writes P (ret a).
Proof. intro st. exists []. simpl. now rewrite app_nil_r. Qed.

Lemma writes_fail {A : Type} (e : error) : writes P (@fail f A e).
Proof. intro st. exists []. simpl. now rewrite app_nil_r. Qed.

Lemma writes_panic {A : Type} : writes P (@panic f A).
Proof. intro st. exists []. simpl. now rewrite app_nil_r. Qed.

Lemma writes_emit (e : Effect f) : P e -> writes P (emit e).
Proof. intros He st. exists [e]. simpl. split; [reflexivity|]. now constructor. Qed.

Lemma writes_orReturn {A : Type} (r : result A) : writes P (orReturn r).
Proof. destruct r; [apply writes_ret | apply writes_fail]. Qed.

Lemma writes_returnError (err : option error) : writes P (returnError err).
Proof. destruct err; [apply writes_fail | apply writes_ret]. Qed.

Lemma writes_callPrinter (p : PS f -> Object (Raw f) -> PS f * option error)
  (obj : Object (Raw f)) (w : Writer) :
  (forall err, P (CallPrintObj obj w err)) -> writes P (callPrinter p obj w).
Proof.
  intros Hp st. unfold callPrinter.
  destruct (p (printerState st) obj) as [ps' err].
  exists [CallPrintObj obj w err]. simpl. split; [reflexivity|].
  constructor; [apply Hp | constructor].
Qed.

Lemma writes_bind {A B : Type} (m : M f A) (k : A -> M f B) :
  writes P m -> (forall a, writes P (k a)) -> writes P (bind m k).
Proof.
  intros Hm Hk st. unfold bind.
  destruct (Hm st) as [l1 [E1 F1]].
  destruct (m st) as [st1 [a | e | ]]; simpl in E1.
  - destruct (Hk a st1) as [l2 [E2 F2]].
    exists (l1 ++ l2)%list. rewrite E2, E1, app_assoc. split; [reflexivity|].
    apply Forall_app. now split.
  - exists l1. now split.
  - exists l1. now split.
Qed.

End Writes.

Create HintDb writes.
#[local] Hint Resolve writes_ret writes_fail writes_panic writes_emit
  writes_orReturn writes_returnError writes_callPrinter : writes.

Ltac writes_step :=
  first [ solve [auto with writes] | apply writes_bind; [|intro] ].

(** *** Lists of effects *)

Lemma printed_app {f : Factory} (l1 l2 : list (Effect f)) :
  printed (l1 ++ l2) = (printed l1 ++ printed l2)%list.
Proof. unfold printed. apply flat_map_app. Qed.

Lemma printErrors_app {f : Factory} (l1 l2 : list (Effect f)) :
  printErrors (l1 ++ l2) = (printErrors l1 ++ printErrors l2)%list.
Proof. unfold printErrors. apply flat_map_app. Qed.

Lemma Forall_notFprintln_not_In {f : Factory} (l : list (Effect f)) w line :
  Forall notFprintln l -> ~ In (Fprintln w line) l.
Proof.
  intros H Hin. rewrite Forall_forall in H. exact (H _ Hin).
Qed.

(** *** The print loop *)

Section PrintLoop.

Context {f : Factory}.
Variable options : GetOptions f.

(** An item that is a table without rows leaves the loop as it was. *)
Lemma printLoop_skip (xs ys : list (option (Info (Raw f)))) (info : Info (Raw f))
  (allErrs : list error) (n : nat) (st : St f) :
  isEmptyTable (info_Object info) = true ->
  printLoop options (xs ++ Some info :: ys) allErrs n st
  = printLoop options (xs ++ ys) allErrs n st.
Proof.
  intro Hempty. revert allErrs n st.
  induction xs as [|x xs IH]; intros allErrs n st; simpl.
  - now rewrite Hempty.
  - destruct x as [i|]; [|reflexivity].
    destruct (isEmptyTable (info_Object i)); [apply IH|].
    unfold bind. simpl. unfold callPrinter.
    destruct (PrintObj options _ _ _) as [ps' [e|]]; simpl; apply IH.
Qed.

(** What the loop appends, and how its accumulators follow the log: the
    counter counts the [PrintObj] calls and the error list collects the
    errors they returned. *)
Lemma printLoop_log (items : list (option (Info (Raw f))))
  (allErrs : list error) (n : nat) (st : St f) :
  exists l,
    log (fst (printLoop options items allErrs n st)) = (log st ++ l)%list
    /\ Forall isLoopEffect l
    /\ forall allErrs' n',
         snd (printLoop options items allErrs n st) = Ret (allErrs', n') ->
         n' = n + List.length (printed l)
         /\ allErrs' = (allErrs ++ printErrors l)%list.
Proof.
  revert allErrs n st.
  induction items as [|x items IH]; intros allErrs n st; simpl.
  - exists []. rewrite !app_nil_r. simpl. repeat split; try constructor.
    + inversion H. lia.
    + now inversion H.
  - destruct x as [info|].
    2:{ exists []. rewrite app_nil_r. simpl. repeat split; try constructor; discriminate. }
    destruct (isEmptyTable (info_Object info)); [apply IH|].
    unfold bind. simpl. unfold callPrinter. simpl.
    destruct (PrintObj options _ _ _) as [ps' [e|]]; simpl.
    + match goal with |- context [printLoop options items ?a ?m ?s] =>
        destruct (IH a m s) as [l [E [F R]]] end.
      exists (Flush :: CallPrintObj (info_Object info) TabWriter (Some e) :: l).
      split; [rewrite E; simpl; now rewrite <- !app_assoc|].
      split; [repeat constructor; assumption|].
      intros allErrs' n' H. destruct (R _ _ H) as [-> ->].
      simpl. split; [lia|]. now rewrite <- app_assoc.
    + match goal with |- context [printLoop options items ?a ?m ?s] =>
        destruct (IH a m s) as [l [E [F R]]] end.
      exists (Flush :: CallPrintObj (info_Object info) TabWriter None :: l).
      split; [rewrite E; simpl; now rewrite <- !app_assoc|].
      split; [repeat constructor; assumption|].
      intros allErrs' n' H. destruct (R _ _ H) as [-> ->].
      simpl. split; [lia|reflexivity].
Qed.

(** Every item that is not a table without rows is handed to
    [PrintObj], whatever the earlier calls returned. *)
Lemma printLoop_printed (items : list (Info (Raw f)))
  (allErrs : list error) (n : nat) (st : St f) :
  printed (log (fst (printLoop options (map Some items) allErrs n st)))
  = (printed (log st) ++ map info_Object (filter nonEmpty items))%list
  /\ exists allErrs' n',
       snd (printLoop options (map Some items) allErrs n st) = Ret (allErrs', n').
Proof.
  revert allErrs n st.
  induction items as [|info items IH]; intros allErrs n st; simpl.
  - rewrite app_nil_r. split; [reflexivity|]. now exists allErrs, n.
  - unfold nonEmpty at 1.
    destruct (isEmptyTable (info_Object info)); simpl; [apply IH|].
    unfold bind. simpl. unfold callPrinter. simpl.
    destruct (PrintObj options _ _ _) as [ps' [e|]]; simpl;
      match goal with |- context [printLoop options (map Some items) ?a ?m ?s] =>
        destruct (IH a m s) as [E R] end;
      (split; [|exact R]);
      rewrite E; simpl; rewrite !printed_app; simpl;
      now rewrite <- !app_assoc.
Qed.

End PrintLoop.


(** *** From [Run] to the print session *)

Section OneShotRun.

Variable f : Factory.
Variable options : GetOptions f.

Lemma Run_printSession (items : list (option (Info (Raw f)))) (st : St f) :
  OneShot f options items -> Run f options st = printSession options items st.
Proof.
  intros [infos sorter Hraw Hw Hwo Hg Herr Hinfos Hsort].
  unfold Run. rewrite Hraw, Hw, Hwo, Hg. simpl.
  fold (fetched f options). rewrite Herr, Hinfos.
  unfold bind at 1. simpl. unfold bind at 1. simpl.
  unfold sorterFor in Hsort. unfold bind at 1.
  destruct (Nat.ltb 0 (String.length (SortBy options))
            && Nat.ltb 1 (List.length (map info_Object (decodeInfos f options infos)))).
  - destruct (SortObjects f _ _) as [s|e]; [|discriminate].
    inversion Hsort. subst sorter. reflexivity.
  - inversion Hsort. subst sorter. reflexivity.
Qed.

Lemma printSession_skip (xs ys : list (option (Info (Raw f))))
  (info : Info (Raw f)) (st : St f) :
  isEmptyTable (info_Object info) = true ->
  printSession options (xs ++ Some info :: ys) st
  = printSession options (xs ++ ys) st.
Proof.
  intro Hempty. unfold printSession, bind.
  now rewrite (printLoop_skip options xs ys info [] 0 st Hempty).
Qed.

(** What the session does after the loop. *)
Lemma printSession_after_loop (items : list (option (Info (Raw f))))
  (st st1 : St f) (allErrs : list error) (n : nat) :
  printLoop options items [] 0 st = (st1, Ret (allErrs, n)) ->
  printSession options items st
  = ({| printerState := printerState st1;
        log := (log st1
                ++ Flush :: (if Nat.eqb n 0 && negb (IgnoreNotFound options)
                             then [noResourcesFound] else []))%list |},
     match NewAggregate allErrs with
     | Some e => Fail e
     | None => Ret tt
     end).
Proof.
  intro Hloop. unfold printSession, bind. rewrite Hloop. simpl.
  destruct (Nat.eqb n 0 && negb (IgnoreNotFound options)); simpl;
    rewrite <- ?app_assoc; simpl;
    destruct (NewAggregate allErrs); reflexivity.
Qed.

(** A loop over tables without rows does nothing. *)
Lemma printLoop_all_empty (items : list (option (Info (Raw f)))) (st : St f) :
  Forall (fun it => exists info,
              it = Some info /\ isEmptyTable (info_Object info) = true) items ->
  printLoop options items [] 0 st = (st, Ret ([], 0)).
Proof.
  induction 1 as [|it items [info [-> Hempty]] _ IH]; simpl; [reflexivity|].
  now rewrite Hempty.
Qed.

End OneShotRun.


(** *** What the branches of [Run] may append *)

Section Appended.

Variable f : Factory.
Variable options : GetOptions f.

Lemma writes_raw (P : Effect f -> Prop) :
  (forall w data, P (Copy w data)) -> writes P (raw f options).
Proof.
  intro HP. unfold raw.
  apply writes_bind; [apply writes_orReturn|]. intros [body err].
  apply writes_bind; [apply writes_emit, HP|]. intros _.
  destruct err as [e|]; [|apply writes_ret].
  destruct (negb (is_io_EOF e)); [apply writes_fail | apply writes_ret].
Qed.

Lemma writes_printGeneric (P : Effect f -> Prop) (r : BuilderResult (Raw f)) :
  (forall obj w err, P (CallPrintObj obj w err)) ->
  writes P (printGeneric f options r).
Proof.
  intro HP. unfold printGeneric.
  apply writes_bind; [apply writes_orReturn|]. intro printer.
  destruct (r_IntoSingleItemImplied r) as [singleItemImplied [infos err]].
  apply writes_bind.
  { destruct err; [destruct singleItemImplied|]; repeat writes_step. }
  intro errs.
  destruct (Nat.eqb (List.length infos) 0 && IgnoreNotFound options);
    [apply writes_returnError|].
  apply writes_bind.
  { destruct (negb singleItemImplied || Nat.ltb 1 (List.length infos));
      [apply writes_orReturn|]. destruct infos; repeat writes_step. }
  intro obj.
  destruct (IsListType f obj).
  - destruct (ExtractList f obj) as [items [e|]]; [apply writes_fail|].
    destruct (displayList f obj items) as [lst | e | ];
      [|apply writes_fail|apply writes_panic].
    apply writes_bind; [apply writes_callPrinter; intro; apply HP|].
    intro. apply writes_returnError.
  - apply writes_bind; [apply writes_callPrinter; intro; apply HP|].
    intro. apply writes_returnError.
Qed.

Lemma writes_checkSingleKind (P : Effect f -> Prop) (infos : list (Info (Raw f))) :
  writes P (checkSingleKind infos).
Proof.
  unfold checkSingleKind.
  destruct (Nat.ltb 1 (List.length infos)); [|apply writes_ret].
  destruct infos; [apply writes_panic|].
  destruct (Nat.ltb 1 _); [apply writes_fail | apply writes_ret].
Qed.

Lemma writes_printCurrent (printer : ResourcePrinter f)
  (mapping : RESTMapping (Raw f)) (objs : list (Object (Raw f))) :
  writes (converted mapping) (printCurrent printer mapping objs).
Proof.
  induction objs as [|obj objs IH]; simpl; [apply writes_ret|].
  apply writes_bind.
  - apply writes_callPrinter. intro err. simpl. now exists obj.
  - intros [e|]; [apply writes_fail | exact IH].
Qed.

Lemma writes_Until (isList : bool) (printer : ResourcePrinter f)
  (mapping : RESTMapping (Raw f)) (w : list (Event (Raw f)))
  (first : bool) (lastEvent : option (Event (Raw f))) :
  writes (converted mapping)
    (Until (watchCondition isList printer mapping) first w lastEvent).
Proof.
  revert first lastEvent.
  induction w as [|event w IH]; intros first lastEvent; simpl;
    [apply writes_ret|].
  apply writes_bind.
  - unfold watchCondition.
    destruct (negb isList && first); [apply writes_ret|].
    apply writes_bind.
    + apply writes_callPrinter. intro err. simpl. now exists (ev_Object event).
    + intros [e|]; apply writes_ret.
  - intros [c' [done [e|]]]; [apply writes_ret|].
    destruct done; [apply writes_ret | apply IH].
Qed.

Lemma writes_weaken {A : Type} (P Q : Effect f -> Prop) (m : M f A) :
  (forall e, P e -> Q e) -> writes P m -> writes Q m.
Proof.
  intros HPQ Hm st. destruct (Hm st) as [l [E F]].
  exists l. split; [exact E|]. eapply Forall_impl; eauto.
Qed.

Lemma writes_watch :
  writes (fun e => exists info infos err,
              r_Infos (DoWatch f) = (info :: infos, err)
              /\ converted (Mapping info) e)
    (watch f options).
Proof.
  unfold watch.
  apply writes_bind; [apply writes_returnError|]. intros _.
  destruct (r_Infos (DoWatch f)) as [infos err].
  apply writes_bind; [apply writes_returnError|]. intros _.
  apply writes_bind; [apply writes_checkSingleKind|]. intros _.
  unfold watchInfos.
  destruct infos as [|info infos]; [apply writes_panic|].
  apply (writes_weaken (converted (Mapping info)));
    [intros e He; now exists info, infos, err|].
  apply writes_bind; [apply writes_orReturn|]. intro printer.
  apply writes_bind; [apply writes_orReturn|]. intro obj.
  apply writes_bind.
  { destruct (IsListType f obj); [apply writes_orReturn | apply writes_ret]. }
  intro rv.
  apply writes_bind.
  { destruct (negb (WatchOnly options)); [|apply writes_ret].
    apply writes_bind; [apply writes_printCurrent|]. intros _.
    now apply writes_emit. }
  intros _.
  apply writes_bind; [now apply writes_emit|]. intros _.
  apply writes_bind; [apply writes_orReturn|]. intro w.
  apply writes_bind; [apply writes_Until|]. intros _.
  apply writes_ret.
Qed.

Lemma printSession_no_spurious_line (items : list (option (Info (Raw f))))
  (st : St f) :
  exists l,
    log (fst (printSession options items st)) = (log st ++ l)%list
    /\ (printed l <> [] -> ~ In noResourcesFound l).
Proof.
  destruct (printLoop_log options items [] 0 st) as [l [E [F R]]].
  assert (Hl : ~ In noResourcesFound l).
  { intro Hin. rewrite Forall_forall in F. exact (F _ Hin). }
  unfold printSession, bind.
  destruct (printLoop options items [] 0 st) as [st1 [[allErrs n] | e | ]];
    simpl in *; try (exists l; split; [exact E | intros _; exact Hl]).
  destruct (R allErrs n eq_refl) as [Hn _]. simpl in Hn.
  destruct (Nat.eqb_spec n 0) as [H0 | H0]; simpl.
  - assert (Hnil : printed l = []).
    { destruct (printed l); [reflexivity | simpl in Hn; lia]. }
    exists (l ++ Flush :: (if negb (IgnoreNotFound options)
                           then [noResourcesFound] else []))%list.
    split.
    + destruct (negb (IgnoreNotFound options)); simpl;
        destruct (NewAggregate allErrs); simpl;
        rewrite E, <- ?app_assoc; reflexivity.
    + intro Hp. exfalso. apply Hp. rewrite printed_app, Hnil.
      destruct (negb (IgnoreNotFound options)); reflexivity.
  - exists (l ++ [Flush])%list. split.
    + destruct (NewAggregate allErrs); simpl; rewrite E, <- ?app_assoc; reflexivity.
    + intros _ Hin. apply in_app_or in Hin. destruct Hin as [Hin | [Hin | []]];
        [exact (Hl Hin) | discriminate].
Qed.

Lemma Run_no_spurious_line (st : St f) :
  exists l,
    log (fst (Run f options st)) = (log st ++ l)%list
    /\ (printed l <> [] -> ~ In noResourcesFound l).
Proof.
  assert (Hw : forall (m : M f unit), writes notFprintln m ->
             exists l, log (fst (m st)) = (log st ++ l)%list
                       /\ (printed l <> [] -> ~ In noResourcesFound l)).
  { intros m Hm. destruct (Hm st) as [l [E F]]. exists l. split; [exact E|].
    intros _. now apply Forall_notFprintln_not_In. }
  assert (Hnil : exists l : list (Effect f),
             log st = (log st ++ l)%list
             /\ (printed l <> [] -> ~ In noResourcesFound l)).
  { exists []. rewrite app_nil_r. split; [reflexivity|]. intros _ []. }
  unfold Run.
  destruct (Nat.ltb 0 (String.length (opt_Raw options))).
  { apply Hw, writes_raw. intros; exact I. }
  destruct (Watch options || WatchOnly options).
  { apply Hw. eapply writes_weaken; [|apply writes_watch].
    intros e [info [infos [err [_ He]]]]. destruct e; simpl in *; tauto. }
  fold (fetched f options). unfold bind at 1.
  destruct (r_Err (fetched f options)); simpl; [apply Hnil|].
  destruct (GenericPrinter options).
  { apply Hw, writes_printGeneric. intros; exact I. }
  destruct (r_Infos (fetched f options)) as [infos [e|]];
    unfold bind at 1; simpl; [apply Hnil|].
  unfold bind at 1.
  destruct (Nat.ltb 0 (String.length (SortBy options)) && _); simpl.
  - unfold bind at 1. destruct (SortObjects f _ _); simpl; [|apply Hnil].
    apply printSession_no_spurious_line.
  - apply printSession_no_spurious_line.
Qed.

End Appended.


(** *** The one-shot print session *)

Section PrintSession.

Variable f : Factory.
Variable options : GetOptions f.

(** C4.  In a one-shot print session an item that is a table without
    rows is skipped entirely: the run is the session over the sequence
    without that item, so the item causes no flush, no [PrintObj] call
    and no line, and it is not counted.  And whenever a run hands at
    least one object to [PrintObj], it does not write the line
    No resources found. *)
Theorem empty_table_is_skipped :
  (forall xs ys info st,
      OneShot f options (xs ++ Some info :: ys) ->
      isEmptyTable (info_Object info) = true ->
      Run f options st = printSession options (xs ++ ys) st)
  /\ (forall st, exists l,
         log (fst (Run f options st)) = (log st ++ l)%list
         /\ (printed l <> [] -> ~ In noResourcesFound l)).
Proof.
  split.
  - intros xs ys info st Hone Hempty.
    rewrite (Run_printSession f options _ st Hone).
    now apply printSession_skip.
  - apply Run_no_spurious_line.
Qed.

(** C5.  After the loop of a one-shot session the sink is flushed; the
    line No resources found. is written to the error writer exactly when
    the counter of printed objects is zero and ignore-not-found is not
    set; and the run returns the aggregate of the collected errors, nil
    when there is none.  In particular, when nothing is printed (there is
    no item, or every item is a table without rows) the run writes that
    one line and returns nil, and with ignore-not-found set it writes
    nothing and returns nil. *)
Theorem no_resources_found (items : list (option (Info (Raw f)))) (st : St f) :
  OneShot f options items ->
  (forall st1 allErrs n,
      printLoop options items [] 0 st = (st1, Ret (allErrs, n)) ->
      Run f options st
      = ({| printerState := printerState st1;
            log := (log st1
                    ++ Flush :: (if Nat.eqb n 0 && negb (IgnoreNotFound options)
                                 then [Fprintln ErrOut "No resources found."]
                                 else []))%list |},
         match NewAggregate allErrs with
         | Some e => Fail e
         | None => Ret tt
         end))
  /\ (Forall (fun it => exists info,
                  it = Some info /\ isEmptyTable (info_Object info) = true) items ->
      Run f options st
      = ({| printerState := printerState st;
            log := (log st
                    ++ Flush :: (if IgnoreNotFound options then []
                                 else [Fprintln ErrOut "No resources found."]))%list |},
         Ret tt))
  /\ NewAggregate [] = None.
Proof.
  intro Hone. split; [|split; [|reflexivity]].
  - intros st1 allErrs n Hloop.
    rewrite (Run_printSession f options _ st Hone).
    now apply printSession_after_loop.
  - intro Hall.
    rewrite (Run_printSession f options _ st Hone).
    rewrite (printSession_after_loop f options items st st [] 0
               (printLoop_all_empty f options items st Hall)).
    simpl. now destruct (IgnoreNotFound options).
Qed.

(** C6.  In a one-shot print session a render error does not end the
    run: every item of the sequence that is not a table without rows is
    handed to [PrintObj], in order, whatever the earlier calls returned,
    and the run returns the aggregate of all the errors that these calls
    returned, in the order of the calls. *)
Theorem render_errors_are_collected (items : list (Info (Raw f))) (st : St f) :
  OneShot f options (map Some items) ->
  exists l,
    log (fst (Run f options st)) = (log st ++ l)%list
    /\ printed l = map info_Object (filter nonEmpty items)
    /\ snd (Run f options st)
       = match NewAggregate (printErrors l) with
         | Some e => Fail e
         | None => Ret tt
         end.
Proof.
  intro Hone.
  rewrite (Run_printSession f options _ st Hone).
  destruct (printLoop_log options (map Some items) [] 0 st) as [l [E [_ R]]].
  destruct (printLoop_printed options items [] 0 st) as [Hp [allErrs [n Hr]]].
  destruct (R _ _ Hr) as [_ Herrs]. simpl in Herrs.
  destruct (printLoop options (map Some items) [] 0 st) as [st1 o] eqn:Hloop.
  simpl in E, Hp, Hr. subst o.
  rewrite (printSession_after_loop f options _ st st1 allErrs n Hloop).
  simpl. rewrite E.
  exists (l ++ Flush :: (if Nat.eqb n 0 && negb (IgnoreNotFound options)
                         then [noResourcesFound] else []))%list.
  rewrite app_assoc. split; [reflexivity|].
  rewrite E, printed_app in Hp. apply app_inv_head in Hp.
  split.
  - rewrite printed_app, Hp.
    destruct (Nat.eqb n 0 && negb (IgnoreNotFound options)); simpl;
      now rewrite app_nil_r.
  - rewrite printErrors_app, <- Herrs.
    destruct (Nat.eqb n 0 && negb (IgnoreNotFound options)); simpl;
      now rewrite app_nil_r.
Qed.

End PrintSession.

Lemma OneShot_session (infos : list (Info string)) (ignoreNotFound : bool) :
  OneShot (Samples.sessionFactory infos)
    (Samples.sessionOptions infos ignoreNotFound)
    (displayed infos None).
Proof.
  assert (Hd : decodeInfos (Samples.sessionFactory infos)
                 (Samples.sessionOptions infos ignoreNotFound) infos = infos)
    by (unfold decodeInfos; simpl; apply map_id).
  replace (displayed infos None)
    with (displayed (decodeInfos (Samples.sessionFactory infos)
                       (Samples.sessionOptions infos ignoreNotFound) infos) None)
    by (now rewrite Hd).
  apply one_shot; try reflexivity;
    unfold fetched; simpl; now destruct ignoreNotFound.
Qed.

Lemma empty_table_is_skipped_witness :
  log (fst (Samples.sessionRun Samples.threeItems false))
  = [Flush; Samples.printCall (Dynamic "pod-a") TabWriter None;
     Flush; Samples.printCall (Dynamic "pod-b") TabWriter None;
     Flush].
Proof.
  unfold Samples.sessionRun.
  rewrite (proj1 (empty_table_is_skipped
                    (Samples.sessionFactory Samples.threeItems)
                    (Samples.sessionOptions Samples.threeItems false))
             [Some (Samples.item "pod-a")] [Some (Samples.item "pod-b")]
             Samples.emptyTable _
             (OneShot_session Samples.threeItems false) eq_refl).
  reflexivity.
Defined.

Lemma no_resources_found_witness :
  log (fst (Samples.sessionRun [Samples.emptyTable] false))
  = [Flush; Fprintln ErrOut "No resources found."]
  /\ snd (Samples.sessionRun [Samples.emptyTable] false) = Ret tt.
Proof.
  unfold Samples.sessionRun.
  rewrite (proj1 (proj2 (no_resources_found
                           (Samples.sessionFactory [Samples.emptyTable])
                           (Samples.sessionOptions [Samples.emptyTable] false)
                           _ _
                           (OneShot_session [Samples.emptyTable] false)))).
  - split; reflexivity.
  - repeat constructor. exists Samples.emptyTable. now split.
Defined.

Lemma render_errors_are_collected_witness :
  exists l,
    log (fst (Samples.sessionRun Samples.oneBroken false)) = ([] ++ l)%list
    /\ printed l = [Dynamic "broken-1"; Dynamic "pod-b"]
    /\ snd (Samples.sessionRun Samples.oneBroken false)
       = match NewAggregate (printErrors l) with
         | Some e => Fail e
         | None => Ret tt
         end.
Proof.
  exact (render_errors_are_collected
           (Samples.sessionFactory Samples.oneBroken)
           (Samples.sessionOptions Samples.oneBroken false)
           Samples.oneBroken
           (@start (Samples.sessionFactory Samples.oneBroken) 0)
           (OneShot_session Samples.oneBroken false)).
Defined.

(** The generic path, for one item that is not a list: the error of the
    print call goes through [Flatten] and [Reduce] before it is
    returned. *)
Lemma printGeneric_reduces (f : Factory) (options : GetOptions f)
  (r : BuilderResult (Raw f)) (printer : ResourcePrinter f)
  (info : Info (Raw f)) (st : St f) :
  PrinterForOptions f = Ok printer ->
  r_IntoSingleItemImplied r = (true, ([info], None)) ->
  IsListType f (info_Object info) = false ->
  snd (printGeneric f options r st)
  = match Reduce f (Flatten f (NewAggregate
            match snd (printer (printerState st) (info_Object info)) with
            | Some e => [e]
            | None => []
            end)) with
    | Some e => Fail e
    | None => Ret tt
    end.
Proof.
  intros Hprinter Hinfos Hlist.
  unfold printGeneric. rewrite Hprinter, Hinfos.
  unfold bind at 1. simpl. unfold bind at 1. simpl. unfold bind at 1. simpl.
  rewrite Hlist. unfold bind, callPrinter.
  destruct (printer (printerState st) (info_Object info)) as [ps' [e|]]; simpl;
    match goal with |- context [Reduce f ?x] => destruct (Reduce f x) end;
    reflexivity.
Qed.

(** C7 fails on the table path of [Run]: the collected errors are
    returned as [NewAggregate] makes them, without [Flatten] or
    [Reduce], unlike the three returns of [printGeneric].  Two objects
    that fail with the same error give an aggregate that holds the error
    twice, and an aggregate returned by [PrintObj] stays nested. *)
Theorem Run_returns_unflattened_aggregate :
  snd (Samples.sessionRun
         [Samples.item "broken-1"; Samples.item "broken-2"] false)
  = Fail (Aggregate [Samples.unknownType; Samples.unknownType])
  /\ snd (Run (Samples.sessionFactory [Samples.item "pod-a"])
            (Samples.nestingOptions [Samples.item "pod-a"])
            (@start (Samples.sessionFactory [Samples.item "pod-a"]) 0))
     = Fail (Aggregate [Aggregate [Samples.unknownType]]).
Proof. split; reflexivity. Qed.


(** *** The watch *)

Section WatchFacts.

Variable f : Factory.
Variable options : GetOptions f.

Lemma printerAfter_app (printer : ResourcePrinter f) (ps : PS f)
  (l1 l2 : list (Object (Raw f))) :
  printerAfter printer ps (l1 ++ l2)
  = printerAfter printer (printerAfter printer ps l1) l2.
Proof. unfold printerAfter. apply fold_left_app. Qed.

Lemma printsAll_app (printer : ResourcePrinter f) (ps : PS f)
  (l1 l2 : list (Object (Raw f))) :
  printsAll printer ps (l1 ++ l2) <->
  printsAll printer ps l1 /\ printsAll printer (printerAfter printer ps l1) l2.
Proof.
  revert ps. induction l1 as [|x l1 IH]; intro ps; simpl.
  - tauto.
  - rewrite IH. tauto.
Qed.

Lemma GroupVersionKind_eqb_eq (a b : GroupVersionKind) :
  GroupVersionKind_eqb a b = true <-> a = b.
Proof.
  destruct a as [g1 v1 k1], b as [g2 v2 k2]. unfold GroupVersionKind_eqb. simpl.
  rewrite !andb_true_iff, !String.eqb_eq. split.
  - intros [[-> ->] ->]. reflexivity.
  - intro H. inversion H. auto.
Qed.

(** The counter of [watch] never goes down, and goes up at an info of
    another kind. *)
Lemma countGVKs_fold (gvk : GroupVersionKind) (infos : list (Info (Raw f)))
  (n : nat) :
  let count :=
    fold_left
      (fun uniqueGVKs info =>
         if negb (GroupVersionKind_eqb (gvkOf info) gvk)
         then S uniqueGVKs else uniqueGVKs) infos n in
  n <= count
  /\ (Forall (fun i => gvkOf i = gvk) infos -> count = n)
  /\ ((exists i, In i infos /\ gvkOf i <> gvk) -> n < count).
Proof.
  revert n. induction infos as [|info infos IH]; intro n; simpl.
  - split; [lia|]. split; [reflexivity|]. intros [i [[] _]].
  - destruct (GroupVersionKind_eqb (gvkOf info) gvk) eqn:Heq; simpl.
    + apply GroupVersionKind_eqb_eq in Heq.
      destruct (IH n) as [H1 [H2 H3]].
      split; [exact H1|]. split.
      * intro Hall. inversion Hall. auto.
      * intros [i [[<- | Hin] Hne]]; [contradiction|]. apply H3. now exists i.
    + destruct (IH (S n)) as [H1 [H2 H3]].
      split; [lia|]. split.
      * intro Hall. inversion Hall as [|? ? Hhead Htail].
        apply GroupVersionKind_eqb_eq in Hhead. congruence.
      * intros _. lia.
Qed.

Lemma checkSingleKind_same (info : Info (Raw f)) (infos : list (Info (Raw f)))
  (st : St f) :
  Forall (fun i => gvkOf i = gvkOf info) infos ->
  checkSingleKind (info :: infos) st = (st, Ret tt).
Proof.
  intro Hall. unfold checkSingleKind.
  destruct (Nat.ltb 1 (List.length (info :: infos))); [|reflexivity].
  unfold countGVKs.
  destruct (countGVKs_fold (gvkOf info) (info :: infos) 1) as [_ [H _]].
  unfold gvkOf in *. rewrite H; [reflexivity|].
  constructor; [reflexivity | exact Hall].
Qed.

Lemma checkSingleKind_mixed (infos : list (Info (Raw f))) (st : St f) :
  (exists a b, In a infos /\ In b infos /\ gvkOf a <> gvkOf b) ->
  exists n, 1 < n /\ checkSingleKind infos st = (st, Fail (mixedKinds n)).
Proof.
  intros [a [b [Ha [Hb Hne]]]].
  destruct infos as [|i1 [|i2 rest]].
  - destruct Ha.
  - destruct Ha as [<- | []], Hb as [<- | []]. congruence.
  - unfold checkSingleKind.
    change (Nat.ltb 1 (List.length (i1 :: i2 :: rest))) with true.
    cbv iota.
    destruct (countGVKs_fold (gvkOf i1) (i1 :: i2 :: rest) 1) as [_ [_ H]].
    assert (Hlt : 1 < countGVKs (gvkOf i1) (i1 :: i2 :: rest)).
    { apply H. destruct (GroupVersionKind_eqb (gvkOf a) (gvkOf i1)) eqn:Heq.
      - apply GroupVersionKind_eqb_eq in Heq. exists b. split; [exact Hb|].
        congruence.
      - exists a. split; [exact Ha|]. intro Hc.
        apply GroupVersionKind_eqb_eq in Hc. congruence. }
    exists (countGVKs (gvkOf i1) (i1 :: i2 :: rest)). split; [exact Hlt|].
    unfold gvkOf in *.
    apply Nat.ltb_lt in Hlt. rewrite Hlt. reflexivity.
Qed.

(** One successful call of the printer. *)
Lemma callPrinter_ok (printer : ResourcePrinter f) (obj : Object (Raw f))
  (w : Writer) (st : St f) :
  snd (printer (printerState st) obj) = None ->
  callPrinter printer obj w st
  = ({| printerState := fst (printer (printerState st) obj);
        log := (log st ++ [printedTo w obj])%list |}, Ret None).
Proof.
  unfold callPrinter, printedTo.
  destruct (printer (printerState st) obj) as [ps' err]. simpl.
  now intros ->.
Qed.

Lemma printCurrent_all (printer : ResourcePrinter f)
  (mapping : RESTMapping (Raw f)) (objs : list (Object (Raw f))) (st : St f) :
  printsAll printer (printerState st) (map (toInternal mapping) objs) ->
  runs (printCurrent printer mapping objs) st tt
    {| printerState :=
         printerAfter printer (printerState st) (map (toInternal mapping) objs);
       log := (log st
               ++ map (printedTo TabWriter) (map (toInternal mapping) objs))%list |}.
Proof.
  unfold runs. revert st.
  induction objs as [|obj objs IH]; intros st Hall; simpl.
  - rewrite app_nil_r. now destruct st.
  - destruct Hall as [Hok Hrest]. unfold bind.
    fold (toInternal mapping obj).
    rewrite (callPrinter_ok printer _ TabWriter st Hok).
    rewrite IH by exact Hrest. simpl.
    now rewrite <- app_assoc.
Qed.

(** The condition of [watch] on an event that is not dropped. *)
Lemma watchCondition_prints (isList : bool) (printer : ResourcePrinter f)
  (mapping : RESTMapping (Raw f)) (first : bool) (e : Event (Raw f))
  (st : St f) :
  negb isList && first = false ->
  snd (printer (printerState st) (toInternal mapping (ev_Object e))) = None ->
  watchCondition isList printer mapping first e st
  = ({| printerState :=
          fst (printer (printerState st) (toInternal mapping (ev_Object e)));
        log := (log st ++ [printedTo Out (toInternal mapping (ev_Object e))])%list |},
     Ret (first, (false, None))).
Proof.
  intros Hno Hok. unfold watchCondition. rewrite Hno. unfold bind.
  fold (toInternal mapping (ev_Object e)).
  now rewrite (callPrinter_ok printer _ Out st Hok).
Qed.

(** Once nothing is left to suppress, [watch.Until] hands every event to
    the printer. *)
Lemma Until_all (isList : bool) (printer : ResourcePrinter f)
  (mapping : RESTMapping (Raw f)) (w : list (Event (Raw f))) (first : bool)
  (lastEvent : option (Event (Raw f))) (st : St f) :
  negb isList && first = false ->
  printsAll printer (printerState st)
    (map (toInternal mapping) (map ev_Object w)) ->
  exists r,
    runs (Until (watchCondition isList printer mapping) first w lastEvent) st r
      {| printerState :=
           printerAfter printer (printerState st)
             (map (toInternal mapping) (map ev_Object w));
         log := (log st
                 ++ map (printedTo Out)
                      (map (toInternal mapping) (map ev_Object w)))%list |}.
Proof.
  intro Hno. unfold runs. revert lastEvent st.
  induction w as [|event w IH]; intros lastEvent st Hall; simpl.
  - exists (lastEvent, Some ErrWatchClosed). rewrite app_nil_r. now destruct st.
  - destruct Hall as [Hok Hrest]. unfold bind at 1.
    rewrite (watchCondition_prints isList printer mapping first event st Hno Hok).
    cbv iota beta.
    match goal with |- context [Until _ first w (Some event) ?s] =>
      destruct (IH (Some event) s Hrest) as [r Hr]
    end.
    exists r. rewrite Hr. simpl. now rewrite <- app_assoc.
Qed.

(** From the start of the stream: the first event of a single object is
    dropped, the events that [streamed] lists are printed. *)
Lemma Until_streamed (printer : ResourcePrinter f)
  (mapping : RESTMapping (Raw f)) (obj : Object (Raw f))
  (w : list (Event (Raw f))) (st : St f) :
  printsAll printer (printerState st)
    (map (toInternal mapping) (streamed f obj w)) ->
  exists r,
    runs (Until (watchCondition (IsListType f obj) printer mapping) true w None)
      st r
      {| printerState :=
           printerAfter printer (printerState st)
             (map (toInternal mapping) (streamed f obj w));
         log := (log st
                 ++ map (printedTo Out)
                      (map (toInternal mapping) (streamed f obj w)))%list |}.
Proof.
  unfold streamed. destruct (IsListType f obj).
  - intro Hall. now apply Until_all.
  - destruct w as [|event w]; intro Hall.
    + exists (None, Some ErrWatchClosed). unfold runs. simpl.
      rewrite app_nil_r. now destruct st.
    + destruct (Until_all false printer mapping w false (Some event) st
                  eq_refl Hall) as [r Hr].
      exists r. unfold runs in *. simpl. unfold bind. simpl. exact Hr.
Qed.

(** The run of [watch] when it gets as far as the stream and the printer
    prints every object: the current objects go to the tab writer, which
    is flushed, the stream is opened, and the events that are not dropped
    go to the output, each once and in the order of delivery. *)
Lemma watch_runs (mapping : RESTMapping (Raw f)) (printer : ResourcePrinter f)
  (obj : Object (Raw f)) (rv : string) (w : list (Event (Raw f))) (st : St f) :
  Streaming f mapping printer obj rv w ->
  printsAll printer (printerState st)
    (map (toInternal mapping) (snapshot f options obj ++ streamed f obj w)) ->
  runs (watch f options) st tt
    {| printerState :=
         printerAfter printer (printerState st)
           (map (toInternal mapping) (snapshot f options obj ++ streamed f obj w));
       log := (log st
               ++ map (printedTo TabWriter)
                    (map (toInternal mapping) (snapshot f options obj))
               ++ (if WatchOnly options then [] else [Flush])
               ++ OpenWatch rv
                  :: map (printedTo Out)
                       (map (toInternal mapping) (streamed f obj w)))%list |}.
Proof.
  intros Hs Hall.
  destruct Hs as [info infos printer obj rv w Herr Hinfos Hkind Hprinter Hobj Hrv Hw].
  rewrite map_app in Hall. apply printsAll_app in Hall. destruct Hall as [Hsnap Hstream].
  unfold runs, watch. rewrite Herr, Hinfos.
  unfold bind at 1. simpl. unfold bind at 1. simpl. unfold bind at 1.
  rewrite (checkSingleKind_same info infos st Hkind).
  unfold watchInfos. rewrite Hprinter, Hobj.
  unfold bind at 1. simpl. unfold bind at 1. simpl. unfold bind at 1.
  assert (Hrv' : (if IsListType f obj
                  then orReturn (ResourceVersion (Mapping info) obj)
                  else ret "0") st = (st, Ret rv)).
  { destruct (IsListType f obj); [rewrite Hrv|]; simpl; [reflexivity|].
    now inversion Hrv. }
  rewrite Hrv'. clear Hrv'.
  unfold snapshot in *.
  destruct (WatchOnly options); simpl.
  - unfold bind at 1. simpl. unfold bind at 1. simpl. rewrite Hw.
    unfold bind at 1. simpl. unfold bind at 1.
    destruct (Until_streamed printer (Mapping info) obj w
                {| printerState := printerState st;
                   log := (log st ++ [OpenWatch rv])%list |} Hstream) as [r Hr].
    unfold runs in Hr. rewrite Hr. simpl.
    now rewrite <- app_assoc.
  - unfold bind at 1. unfold bind at 1. unfold bind at 1.
    rewrite (printCurrent_all printer (Mapping info) _ st Hsnap).
    simpl. unfold bind at 1. simpl. rewrite Hw.
    simpl. unfold bind at 1.
    match goal with |- context [Until _ true w None ?s] =>
      destruct (Until_streamed printer (Mapping info) obj w s Hstream) as [r Hr]
    end.
    unfold runs in Hr. rewrite Hr. simpl. unfold ret.
    rewrite map_app, printerAfter_app.
    f_equal. f_equal. rewrite <- !app_assoc. reflexivity.
Qed.

Lemma printed_printedTo (w : Writer) (objs : list (Object (Raw f))) :
  printed (map (printedTo w) objs) = objs.
Proof.
  induction objs as [|obj objs IH]; simpl; [reflexivity|]. now rewrite IH.
Qed.


(** *** What the watch prints when the printer may fail *)

Lemma printsAll_dec (printer : ResourcePrinter f) (ps : PS f)
  (objs : list (Object (Raw f))) :
  printsAll printer ps objs \/ ~ printsAll printer ps objs.
Proof.
  revert ps. induction objs as [|obj objs IH]; intro ps; simpl; [now left|].
  destruct (snd (printer ps obj)) as [e|].
  - right. intros [H _]. discriminate.
  - destruct (IH (fst (printer ps obj))) as [H | H].
    + left. now split.
    + right. intros [_ H']. contradiction.
Qed.

Lemma rendered_printsAll (printer : ResourcePrinter f) (ps : PS f)
  (objs : list (Object (Raw f))) :
  printsAll printer ps objs -> rendered printer ps objs = objs.
Proof.
  revert ps. induction objs as [|obj objs IH]; intros ps H; simpl;
    [reflexivity|].
  destruct H as [H1 H2]. rewrite H1. now rewrite IH.
Qed.

(** Printing goes on into a second list exactly when every object of the
    first one is printed. *)
Lemma rendered_app (printer : ResourcePrinter f) (ps : PS f)
  (l1 l2 : list (Object (Raw f))) :
  (printsAll printer ps l1 ->
   rendered printer ps (l1 ++ l2)
   = (l1 ++ rendered printer (printerAfter printer ps l1) l2)%list)
  /\ (~ printsAll printer ps l1 ->
      rendered printer ps (l1 ++ l2) = rendered printer ps l1).
Proof.
  revert ps. induction l1 as [|obj l1 IH]; intro ps; simpl.
  - split; [reflexivity|]. intro H. now destruct H.
  - destruct (snd (printer ps obj)) as [e|] eqn:He.
    + split; [intros [H _]; discriminate | reflexivity].
    + destruct (IH (fst (printer ps obj))) as [IH1 IH2]. split.
      * intros [_ H]. now rewrite IH1.
      * intro H. rewrite IH2; [reflexivity|]. intro H'. apply H. now split.
Qed.

(** A failed call is the last one. *)
Lemma rendered_stops (printer : ResourcePrinter f) (ps : PS f)
  (pre post : list (Object (Raw f))) (x : Object (Raw f)) :
  printsAll printer ps pre ->
  snd (printer (printerAfter printer ps pre) x) <> None ->
  rendered printer ps (pre ++ x :: post) = (pre ++ [x])%list.
Proof.
  intros Hpre Hx.
  rewrite (proj1 (rendered_app printer ps pre (x :: post)) Hpre). simpl.
  now destruct (snd (printer (printerAfter printer ps pre) x)).
Qed.

Lemma rendered_length (printer : ResourcePrinter f) (ps : PS f)
  (objs : list (Object (Raw f))) :
  List.length (rendered printer ps objs) <= List.length objs.
Proof.
  revert ps. induction objs as [|obj objs IH]; intro ps; simpl; [lia|].
  destruct (snd (printer ps obj)); simpl; [lia|].
  specialize (IH (fst (printer ps obj))). lia.
Qed.

(** The loop over the current objects hands them to the printer until a
    call fails, and then returns an error. *)
Lemma printCurrent_rendered (printer : ResourcePrinter f)
  (mapping : RESTMapping (Raw f)) (objs : list (Object (Raw f))) (st : St f) :
  printed (log (fst (printCurrent printer mapping objs st)))
  = (printed (log st)
     ++ rendered printer (printerState st) (map (toInternal mapping) objs))%list
  /\ (~ printsAll printer (printerState st) (map (toInternal mapping) objs) ->
      exists e, snd (printCurrent printer mapping objs st) = Fail e).
Proof.
  revert st. induction objs as [|obj objs IH]; intro st; simpl.
  - rewrite app_nil_r. split; [reflexivity|]. intro H. now destruct H.
  - unfold bind, callPrinter. fold (toInternal mapping obj).
    destruct (printer (printerState st) (toInternal mapping obj))
      as [ps' [e|]] eqn:Hp; simpl.
    + split; [now rewrite printed_app | intros; eexists; reflexivity].
    + match goal with |- context [printCurrent printer mapping objs ?s] =>
        destruct (IH s) as [Hr Hf]
      end.
      split.
      * rewrite Hr. simpl. rewrite printed_app. simpl.
        now rewrite <- app_assoc.
      * intro Hnot. apply Hf. simpl. intro H. apply Hnot. now split.
Qed.

(** The loop over the stream hands the events to the printer until a
    call fails. *)
Lemma Until_rendered (isList : bool) (printer : ResourcePrinter f)
  (mapping : RESTMapping (Raw f)) (w : list (Event (Raw f))) (first : bool)
  (lastEvent : option (Event (Raw f))) (st : St f) :
  negb isList && first = false ->
  printed (log (fst (Until (watchCondition isList printer mapping)
                      first w lastEvent st)))
  = (printed (log st)
     ++ rendered printer (printerState st)
          (map (toInternal mapping) (map ev_Object w)))%list.
Proof.
  intro Hno. revert lastEvent st.
  induction w as [|event w IH]; intros lastEvent st; simpl.
  - now rewrite app_nil_r.
  - unfold bind at 1. unfold watchCondition at 1. rewrite Hno.
    unfold bind at 1, callPrinter. fold (toInternal mapping (ev_Object event)).
    destruct (printer (printerState st) (toInternal mapping (ev_Object event)))
      as [ps' [e|]]; simpl.
    + now rewrite printed_app.
    + rewrite IH. simpl. rewrite printed_app. simpl.
      now rewrite <- app_assoc.
Qed.

Lemma Until_streamed_rendered (printer : ResourcePrinter f)
  (mapping : RESTMapping (Raw f)) (obj : Object (Raw f))
  (w : list (Event (Raw f))) (st : St f) :
  printed (log (fst (Until (watchCondition (IsListType f obj) printer mapping)
                      true w None st)))
  = (printed (log st)
     ++ rendered printer (printerState st)
          (map (toInternal mapping) (streamed f obj w)))%list.
Proof.
  unfold streamed. destruct (IsListType f obj).
  - now apply Until_rendered.
  - destruct w as [|event w].
    + simpl. now rewrite app_nil_r.
    + simpl. unfold bind. simpl.
      exact (Until_rendered false printer mapping w false (Some event) st eq_refl).
Qed.

(** Whatever the printer returns, the objects that a watch hands to it
    are the current objects followed by the events that are not dropped,
    in that order, up to and including the first one it rejects. *)
Lemma watch_rendered (mapping : RESTMapping (Raw f)) (printer : ResourcePrinter f)
  (obj : Object (Raw f)) (rv : string) (w : list (Event (Raw f))) (st : St f) :
  Streaming f mapping printer obj rv w ->
  exists l,
    log (fst (watch f options st)) = (log st ++ l)%list
    /\ printed l
       = rendered printer (printerState st)
           (map (toInternal mapping)
              (snapshot f options obj ++ streamed f obj w)).
Proof.
  intro Hs.
  assert (Hp : printed (log (fst (watch f options st)))
               = (printed (log st)
                  ++ rendered printer (printerState st)
                       (map (toInternal mapping)
                          (snapshot f options obj ++ streamed f obj w)))%list).
  { destruct Hs as [info infos printer obj rv w Herr Hinfos Hkind Hprinter Hobj Hrv Hw].
    unfold watch. rewrite Herr, Hinfos.
    unfold bind at 1. simpl. unfold bind at 1. simpl. unfold bind at 1.
    rewrite (checkSingleKind_same info infos st Hkind).
    unfold watchInfos. rewrite Hprinter, Hobj.
    unfold bind at 1. simpl. unfold bind at 1. simpl. unfold bind at 1.
    assert (Hrv' : (if IsListType f obj
                    then orReturn (ResourceVersion (Mapping info) obj)
                    else ret "0") st = (st, Ret rv)).
    { destruct (IsListType f obj); [rewrite Hrv|]; simpl; [reflexivity|].
      now inversion Hrv. }
    rewrite Hrv'. clear Hrv'.
    rewrite map_app. unfold snapshot.
    destruct (WatchOnly options); simpl.
    - unfold bind at 1. simpl. unfold bind at 1. simpl. rewrite Hw.
      unfold bind at 1. simpl. unfold bind at 1.
      match goal with |- context [Until _ true w None ?s] =>
        pose proof (Until_streamed_rendered printer (Mapping info) obj w s) as Hk
      end.
      destruct (Until _ true w None _) as [st2 [r | e | ]]; simpl in *;
        rewrite Hk, printed_app; simpl; now rewrite app_nil_r.
    - match goal with
      | |- context [printCurrent printer (Mapping info) ?objs] =>
          set (current := objs)
      end.
      destruct (printsAll_dec printer (printerState st)
                  (map (toInternal (Mapping info)) current)) as [Hall | Hnot].
      + rewrite (proj1 (rendered_app printer (printerState st) _ _) Hall).
        unfold bind at 1. unfold bind at 1. unfold bind at 1.
        rewrite (printCurrent_all printer (Mapping info) current st Hall).
        simpl. unfold bind at 1. simpl. rewrite Hw.
        simpl. unfold bind at 1.
        match goal with |- context [Until _ true w None ?s] =>
          pose proof (Until_streamed_rendered printer (Mapping info) obj w s) as Hk
        end.
        destruct (Until _ true w None _) as [st2 [r | e | ]]; simpl in *;
          rewrite Hk, !printed_app, printed_printedTo; simpl;
          now rewrite !app_nil_r, <- app_assoc.
      + rewrite (proj2 (rendered_app printer (printerState st) _ _) Hnot).
        destruct (printCurrent_rendered printer (Mapping info) current st)
          as [Hr Hf].
        destruct (Hf Hnot) as [e He].
        unfold bind at 1. unfold bind at 1. unfold bind at 1.
        destruct (printCurrent printer (Mapping info) current st) as [st1 o].
        simpl in He, Hr. subst o. simpl. exact Hr. }
  destruct (writes_watch f options st) as [l [E _]].
  exists l. split; [exact E|].
  rewrite E, printed_app in Hp. now apply app_inv_head in Hp.
Qed.

(** In a watch-only watch the stream is opened first, and what follows
    in the log are the events handed to the printer. *)
Lemma watch_only_log (mapping : RESTMapping (Raw f)) (printer : ResourcePrinter f)
  (obj : Object (Raw f)) (rv : string) (w : list (Event (Raw f))) (st : St f) :
  Streaming f mapping printer obj rv w ->
  WatchOnly options = true ->
  exists l,
    log (fst (watch f options st)) = (log st ++ OpenWatch rv :: l)%list
    /\ printed l
       = rendered printer (printerState st)
           (map (toInternal mapping) (streamed f obj w)).
Proof.
  intros Hs Hwo.
  destruct Hs as [info infos printer obj rv w Herr Hinfos Hkind Hprinter Hobj Hrv Hw].
  unfold watch. rewrite Herr, Hinfos.
  unfold bind at 1. simpl. unfold bind at 1. simpl. unfold bind at 1.
  rewrite (checkSingleKind_same info infos st Hkind).
  unfold watchInfos. rewrite Hprinter, Hobj.
  unfold bind at 1. simpl. unfold bind at 1. simpl. unfold bind at 1.
  assert (Hrv' : (if IsListType f obj
                  then orReturn (ResourceVersion (Mapping info) obj)
                  else ret "0") st = (st, Ret rv)).
  { destruct (IsListType f obj); [rewrite Hrv|]; simpl; [reflexivity|].
    now inversion Hrv. }
  rewrite Hrv'. clear Hrv'. rewrite Hwo. simpl.
  unfold bind at 1. simpl. unfold bind at 1. simpl. rewrite Hw.
  unfold bind at 1. simpl. unfold bind at 1.
  match goal with |- context [Until _ true w None ?s] =>
    pose proof (Until_streamed_rendered printer (Mapping info) obj w s) as Hk;
    destruct (writes_Until f (IsListType f obj) printer (Mapping info) w true
                None s) as [l [E _]]
  end.
  exists l.
  destruct (Until _ true w None _) as [st2 [r | e | ]]; simpl in *;
    rewrite E in *; rewrite <- app_assoc; (split; [reflexivity|]);
    rewrite !printed_app in Hk; simpl in Hk;
    rewrite app_nil_r in Hk; now apply app_inv_head in Hk.
Qed.

(** C1.  When [watch] gets as far as the stream and is not watch-only,
    the objects it hands to the printer are: the current object or list
    items, then the objects of the delivered events in the order of
    delivery, without the first event when the target is a single object;
    each once, and up to and including the first one for which [PrintObj]
    returns an error, after which nothing more is rendered.  When
    [PrintObj] returns no error, the log of the run is exactly the calls
    for the current objects, a flush, the opening of the stream, and one
    call for each of these events.  A single object and a stream of [n]
    events then give [1 + (n - 1)] calls; a list of [k] items gives
    [k + n]. *)
Theorem first_event_is_dropped (mapping : RESTMapping (Raw f))
  (printer : ResourcePrinter f) (obj : Object (Raw f)) (rv : string)
  (w : list (Event (Raw f))) (st : St f) :
  Streaming f mapping printer obj rv w ->
  WatchOnly options = false ->
  let current := if IsListType f obj then fst (ExtractList f obj) else [obj] in
  let events := map ev_Object (if IsListType f obj then w else tl w) in
  (exists l,
      log (fst (watch f options st)) = (log st ++ l)%list
      /\ printed l
         = rendered printer (printerState st)
             (map (toInternal mapping) (current ++ events))
      /\ (forall pre x post,
             map (toInternal mapping) (current ++ events)
             = (pre ++ x :: post)%list ->
             printsAll printer (printerState st) pre ->
             snd (printer (printerAfter printer (printerState st) pre) x)
             <> None ->
             printed l = (pre ++ [x])%list))
  /\ (printsAll printer (printerState st)
        (map (toInternal mapping) (current ++ events)) ->
      exists l,
        log (fst (watch f options st)) = (log st ++ l)%list
        /\ snd (watch f options st) = Ret tt
        /\ l = (map (printedTo TabWriter) (map (toInternal mapping) current)
                ++ Flush :: OpenWatch rv
                   :: map (printedTo Out) (map (toInternal mapping) events))%list
        /\ List.length (printed l)
           = if IsListType f obj
             then List.length (fst (ExtractList f obj)) + List.length w
             else 1 + (List.length w - 1)).
Proof.
  intros Hs Hwo current events.
  assert (Hcur : snapshot f options obj = current)
    by (unfold snapshot; now rewrite Hwo).
  assert (Hev : streamed f obj w = events) by reflexivity.
  split.
  - destruct (watch_rendered mapping printer obj rv w st Hs) as [l [E Hp]].
    rewrite Hcur, Hev in Hp.
    exists l. split; [exact E|]. split; [exact Hp|].
    intros pre x post Hsplit Hpre Hx. rewrite Hp, Hsplit.
    now apply rendered_stops.
  - intro Hall. rewrite <- Hcur, <- Hev in Hall.
    pose proof (watch_runs mapping printer obj rv w st Hs Hall) as Hrun.
    unfold runs in Hrun. rewrite Hrun. simpl.
    rewrite Hwo, Hcur, Hev.
    eexists. split; [reflexivity|]. split; [reflexivity|]. split; [reflexivity|].
    rewrite printed_app. simpl. rewrite !printed_printedTo.
    rewrite length_app. simpl. unfold current, events. rewrite !length_map.
    destruct (IsListType f obj); simpl; [reflexivity|].
    destruct w; simpl; lia.
Qed.

(** C10.  A watch-only watch of a single object prints no current object,
    opens the stream at version 0 and still drops the first event that
    the stream delivers: the objects it hands to the printer are those of
    the later events, in the order of delivery, each once, up to and
    including the first one for which [PrintObj] returns an error; of [n]
    delivered events at most [n - 1] are rendered.  When [PrintObj]
    returns no error, the log is the opening of the stream followed by one
    call for each of them, so that the last [n - 1] events are
    rendered. *)
Theorem watch_only_drops_first_event (mapping : RESTMapping (Raw f))
  (printer : ResourcePrinter f) (obj : Object (Raw f)) (rv : string)
  (w : list (Event (Raw f))) (st : St f) :
  Streaming f mapping printer obj rv w ->
  WatchOnly options = true ->
  IsListType f obj = false ->
  (rv = "0"
   /\ exists l,
       log (fst (watch f options st)) = (log st ++ OpenWatch "0" :: l)%list
       /\ printed l
          = rendered printer (printerState st)
              (map (toInternal mapping) (map ev_Object (tl w)))
       /\ List.length (printed l) <= List.length w - 1
       /\ (forall initial changes,
              w = initial :: changes ->
              printed l
              = rendered printer (printerState st)
                  (map (toInternal mapping) (map ev_Object changes))))
  /\ (printsAll printer (printerState st)
        (map (toInternal mapping) (map ev_Object (tl w))) ->
      exists l,
        log (fst (watch f options st)) = (log st ++ l)%list
        /\ snd (watch f options st) = Ret tt
        /\ l = OpenWatch "0"
               :: map (printedTo Out)
                    (map (toInternal mapping) (map ev_Object (tl w)))
        /\ printed l = map (toInternal mapping) (map ev_Object (tl w))
        /\ List.length (printed l) = List.length w - 1).
Proof.
  intros Hs Hwo Hsingle.
  assert (Hrv : rv = "0").
  { destruct Hs as [info infos printer obj rv w _ _ _ _ _ Hrv _].
    rewrite Hsingle in Hrv. now inversion Hrv. }
  subst rv.
  assert (Hobjs : (snapshot f options obj ++ streamed f obj w)%list
                  = map ev_Object (tl w)).
  { unfold snapshot, streamed. now rewrite Hwo, Hsingle. }
  split.
  - split; [reflexivity|].
    destruct (watch_only_log mapping printer obj "0" w st Hs Hwo) as [l [E Hp]].
    unfold streamed in Hp. rewrite Hsingle in Hp.
    exists l. split; [exact E|]. split; [exact Hp|]. split.
    + rewrite Hp.
      etransitivity; [apply rendered_length|].
      rewrite !length_map. destruct w; simpl; lia.
    + intros initial changes ->. exact Hp.
  - intro Hall. rewrite <- Hobjs in Hall.
    pose proof (watch_runs mapping printer obj "0" w st Hs Hall) as Hrun.
    unfold runs in Hrun. rewrite Hrun. simpl.
    unfold snapshot, streamed. rewrite Hwo, Hsingle. simpl.
    eexists. split; [reflexivity|]. split; [reflexivity|]. split; [reflexivity|].
    simpl. rewrite printed_printedTo. split; [reflexivity|].
    rewrite !length_map. destruct w; simpl; lia.
Qed.

(** C8.  After a fetch without error, [watch] checks the kinds of the
    fetched infos.  If two of them differ in group, version or kind, it
    returns the validation error and leaves the state as it found it:
    nothing is printed and no stream is opened.  If all of them have the
    same group-version-kind, however many there are, the check passes
    and [watch] goes on with the rest of its work. *)
Theorem watch_checks_kinds (infos : list (Info (Raw f))) (st : St f) :
  r_Err (DoWatch f) = None ->
  r_Infos (DoWatch f) = (infos, None) ->
  ((exists a b, In a infos /\ In b infos /\ gvkOf a <> gvkOf b) ->
   exists n, 1 < n /\ watch f options st = (st, Fail (mixedKinds n)))
  /\ ((forall a b, In a infos -> In b infos -> gvkOf a = gvkOf b) ->
      checkSingleKind infos st = (st, Ret tt)
      /\ watch f options st = watchInfos f options (DoWatch f) infos st).
Proof.
  intros Herr Hinfos.
  assert (Hw : watch f options st
               = match checkSingleKind infos st with
                 | (st', Ret _) => watchInfos f options (DoWatch f) infos st'
                 | (st', Fail e) => (st', Fail e)
                 | (st', Panic) => (st', Panic)
                 end).
  { unfold watch. rewrite Herr, Hinfos. reflexivity. }
  rewrite Hw. split.
  - intro Hmixed.
    destruct (checkSingleKind_mixed infos st Hmixed) as [n [Hn Hc]].
    exists n. split; [exact Hn|]. now rewrite Hc.
  - intro Hsame.
    assert (Hc : checkSingleKind infos st = (st, Ret tt)).
    { destruct infos as [|info infos]; [reflexivity|].
      apply checkSingleKind_same. apply Forall_forall.
      intros i Hi. apply Hsame; [now right | now left]. }
    split; [exact Hc|]. now rewrite Hc.
Qed.


End WatchFacts.

(** The sample watches get as far as the stream. *)
Lemma Streaming_sample (name : string) (convertible : bool)
  (obj : Object string) (isList : bool) (items : list (Object string))
  (events : list (Event string)) :
  Streaming
    (Samples.sampleFactory [Samples.podInfo name convertible] obj isList items events)
    (Samples.sampleMapping Samples.podGVK convertible)
    Samples.samplePrinter obj (if isList then "42" else "0") events.
Proof.
  apply (streaming
           (Samples.sampleFactory [Samples.podInfo name convertible] obj isList
              items events)
           (Samples.podInfo name convertible) [] Samples.samplePrinter obj
           (if isList then "42" else "0") events);
    try reflexivity.
  - constructor.
  - simpl. now destruct isList.
Qed.

Lemma first_event_is_dropped_witness :
  ((exists l,
      log (fst (Samples.watchRun [Samples.item "pod-a"] (Dynamic "pod-a")
                  false [] Samples.threeEvents false))
      = ([] ++ l)%list
      /\ snd (Samples.watchRun [Samples.item "pod-a"] (Dynamic "pod-a")
                false [] Samples.threeEvents false) = Ret tt
      /\ l = [Samples.printCall (Dynamic "pod-a@internal") TabWriter None;
              Flush; OpenWatch "0";
              Samples.printCall (Dynamic "pod-a-2@internal") Out None;
              Samples.printCall (Dynamic "pod-a-3@internal") Out None]
      /\ List.length (printed l) = 1 + 2)
  /\ (exists l,
         log (fst (Samples.watchRun [Samples.item "pods"] (Dynamic "pods")
                     true [Dynamic "pod-a"; Dynamic "pod-b"]
                     Samples.twoEvents false))
         = ([] ++ l)%list
         /\ snd (Samples.watchRun [Samples.item "pods"] (Dynamic "pods")
                   true [Dynamic "pod-a"; Dynamic "pod-b"]
                   Samples.twoEvents false) = Ret tt
         /\ l = [Samples.printCall (Dynamic "pod-a@internal") TabWriter None;
                 Samples.printCall (Dynamic "pod-b@internal") TabWriter None;
                 Flush; OpenWatch "42";
                 Samples.printCall (Dynamic "pod-c@internal") Out None;
                 Samples.printCall (Dynamic "pod-a-1@internal") Out None]
         /\ List.length (printed l) = 2 + 2))
  /\ (exists l,
         log (fst (Samples.watchRun [Samples.item "pod-a"] (Dynamic "pod-a")
                     false [] MoreSamples.brokenEvents false))
         = ([] ++ l)%list
         /\ printed l
            = [Dynamic "pod-a@internal"; Dynamic "broken-2@internal"]).
Proof.
  split; [split|].
  - refine (proj2 (first_event_is_dropped
              (Samples.sampleFactory [Samples.item "pod-a"]
                 (Dynamic "pod-a") false [] Samples.threeEvents)
              (Samples.watchOptions [Samples.item "pod-a"] (Dynamic "pod-a")
                 false [] Samples.threeEvents false)
              _ _ _ _ _
              (Samples.fresh [Samples.item "pod-a"] (Dynamic "pod-a") false []
                 Samples.threeEvents)
              (Streaming_sample "pod-a" true (Dynamic "pod-a") false []
                 Samples.threeEvents)
              eq_refl) _).
    simpl. repeat split.
  - refine (proj2 (first_event_is_dropped
              (Samples.sampleFactory [Samples.item "pods"]
                 (Dynamic "pods") true [Dynamic "pod-a"; Dynamic "pod-b"]
                 Samples.twoEvents)
              (Samples.watchOptions [Samples.item "pods"] (Dynamic "pods") true
                 [Dynamic "pod-a"; Dynamic "pod-b"] Samples.twoEvents false)
              _ _ _ _ _
              (Samples.fresh [Samples.item "pods"] (Dynamic "pods") true
                 [Dynamic "pod-a"; Dynamic "pod-b"] Samples.twoEvents)
              (Streaming_sample "pods" true (Dynamic "pods") true
                 [Dynamic "pod-a"; Dynamic "pod-b"] Samples.twoEvents)
              eq_refl) _).
    simpl. repeat split.
  - destruct (proj1 (first_event_is_dropped
                      (Samples.sampleFactory [Samples.item "pod-a"]
                         (Dynamic "pod-a") false [] MoreSamples.brokenEvents)
                      (Samples.watchOptions [Samples.item "pod-a"]
                         (Dynamic "pod-a") false [] MoreSamples.brokenEvents
                         false)
                      _ _ _ _ _
                      (Samples.fresh [Samples.item "pod-a"] (Dynamic "pod-a")
                         false [] MoreSamples.brokenEvents)
                      (Streaming_sample "pod-a" true (Dynamic "pod-a") false []
                         MoreSamples.brokenEvents)
                      eq_refl)) as [l [E [Hp _]]].
    exists l. split; [exact E|]. rewrite Hp. reflexivity.
Defined.

Lemma watch_only_drops_first_event_witness :
  (exists l,
    log (fst (Samples.watchRun [Samples.item "pod-a"] (Dynamic "pod-a")
                false [] Samples.threeEvents true))
    = ([] ++ l)%list
    /\ snd (Samples.watchRun [Samples.item "pod-a"] (Dynamic "pod-a")
              false [] Samples.threeEvents true) = Ret tt
    /\ l = [OpenWatch "0";
            Samples.printCall (Dynamic "pod-a-2@internal") Out None;
            Samples.printCall (Dynamic "pod-a-3@internal") Out None]
    /\ printed l = [Dynamic "pod-a-2@internal"; Dynamic "pod-a-3@internal"]
    /\ List.length (printed l) = 3 - 1)
  /\ (exists l,
         log (fst (Samples.watchRun [Samples.item "pod-a"] (Dynamic "pod-a")
                     false [] MoreSamples.brokenEvents true))
         = ([] ++ OpenWatch "0" :: l)%list
         /\ printed l = [Dynamic "broken-2@internal"]).
Proof.
  split.
  - refine (proj2 (watch_only_drops_first_event
              (Samples.sampleFactory [Samples.item "pod-a"]
                 (Dynamic "pod-a") false [] Samples.threeEvents)
              (Samples.watchOptions [Samples.item "pod-a"] (Dynamic "pod-a")
                 false [] Samples.threeEvents true)
              _ _ _ _ _
              (Samples.fresh [Samples.item "pod-a"] (Dynamic "pod-a") false []
                 Samples.threeEvents)
              (Streaming_sample "pod-a" true (Dynamic "pod-a") false []
                 Samples.threeEvents)
              eq_refl eq_refl) _).
    simpl. repeat split.
  - destruct (proj2 (proj1 (watch_only_drops_first_event
                              (Samples.sampleFactory [Samples.item "pod-a"]
                                 (Dynamic "pod-a") false []
                                 MoreSamples.brokenEvents)
                              (Samples.watchOptions [Samples.item "pod-a"]
                                 (Dynamic "pod-a") false []
                                 MoreSamples.brokenEvents true)
                              _ _ _ _ _
                              (Samples.fresh [Samples.item "pod-a"]
                                 (Dynamic "pod-a") false []
                                 MoreSamples.brokenEvents)
                              (Streaming_sample "pod-a" true (Dynamic "pod-a")
                                 false [] MoreSamples.brokenEvents)
                              eq_refl eq_refl))) as [l [E [Hp _]]].
    exists l. split; [exact E|]. rewrite Hp. reflexivity.
Defined.

(** A single pod and a stream of three events, the second of which the
    printer rejects: the current object and the second event are handed to
    the printer, the third event is not. *)
Lemma watch_stops_at_failed_render :
  printed (log (fst (Samples.watchRun [Samples.item "pod-a"] (Dynamic "pod-a")
                       false [] MoreSamples.brokenEvents false)))
  = [Dynamic "pod-a@internal"; Dynamic "broken-2@internal"]
  /\ ~ In (Dynamic "pod-a-3@internal")
         (printed (log (fst (Samples.watchRun [Samples.item "pod-a"]
                               (Dynamic "pod-a") false []
                               MoreSamples.brokenEvents false))))
  /\ List.length
       (printed (log (fst (Samples.watchRun [Samples.item "pod-a"]
                             (Dynamic "pod-a") false []
                             MoreSamples.brokenEvents false))))
     <> 1 + (List.length MoreSamples.brokenEvents - 1).
Proof.
  split; [reflexivity|]. split.
  - intro H. vm_compute in H. intuition discriminate.
  - vm_compute. discriminate.
Qed.

(** The same stream watched with watch-only: of three events one is
    handed to the printer, not two.  And when the first event of the
    stream opened at version 0 is the initial event for the current
    object, the first change that follows it is rendered. *)
Lemma watch_only_stops_at_failed_render :
  (printed (log (fst (Samples.watchRun [Samples.item "pod-a"] (Dynamic "pod-a")
                        false [] MoreSamples.brokenEvents true)))
   = [Dynamic "broken-2@internal"]
   /\ List.length
        (printed (log (fst (Samples.watchRun [Samples.item "pod-a"]
                              (Dynamic "pod-a") false []
                              MoreSamples.brokenEvents true))))
      <> List.length MoreSamples.brokenEvents - 1)
  /\ printed (log (fst (Samples.watchRun [Samples.item "pod-a"]
                          (Dynamic "pod-a") false []
                          [Samples.event "pod-a"; Samples.event "pod-a-1"]
                          true)))
     = [Dynamic "pod-a-1@internal"].
Proof.
  split; [split|].
  - reflexivity.
  - vm_compute. discriminate.
  - reflexivity.
Qed.

Lemma watch_checks_kinds_witness :
  (exists n,
      1 < n
      /\ Samples.watchRun [Samples.item "pod-a"; Samples.service "svc-a"]
           (Dynamic "pod-a") false [] [] false
         = (Samples.fresh [Samples.item "pod-a"; Samples.service "svc-a"]
              (Dynamic "pod-a") false [] [],
            Fail (mixedKinds n)))
  /\ @checkSingleKind
       (Samples.sampleFactory [Samples.item "pod-1"; Samples.item "pod-2"]
          (Dynamic "pods") true [] [])
       [Samples.item "pod-1"; Samples.item "pod-2"]
       (Samples.fresh [Samples.item "pod-1"; Samples.item "pod-2"]
          (Dynamic "pods") true [] [])
     = (Samples.fresh [Samples.item "pod-1"; Samples.item "pod-2"]
          (Dynamic "pods") true [] [],
        Ret tt).
Proof.
  split.
  - refine (proj1 (watch_checks_kinds
                     (Samples.sampleFactory
                        [Samples.item "pod-a"; Samples.service "svc-a"]
                        (Dynamic "pod-a") false [] [])
                     (Samples.watchOptions
                        [Samples.item "pod-a"; Samples.service "svc-a"]
                        (Dynamic "pod-a") false [] [] false)
                     [Samples.item "pod-a"; Samples.service "svc-a"]
                     (Samples.fresh
                        [Samples.item "pod-a"; Samples.service "svc-a"]
                        (Dynamic "pod-a") false [] [])
                     eq_refl eq_refl) _).
    exists (Samples.item "pod-a"), (Samples.service "svc-a").
    split; [now left|]. split; [right; now left|]. discriminate.
  - refine (proj1 (proj2 (watch_checks_kinds
                     (Samples.sampleFactory
                        [Samples.item "pod-1"; Samples.item "pod-2"]
                        (Dynamic "pods") true [] [])
                     (Samples.watchOptions
                        [Samples.item "pod-1"; Samples.item "pod-2"]
                        (Dynamic "pods") true [] [] false)
                     [Samples.item "pod-1"; Samples.item "pod-2"]
                     (Samples.fresh
                        [Samples.item "pod-1"; Samples.item "pod-2"]
                        (Dynamic "pods") true [] [])
                     eq_refl eq_refl) _)).
    intros a b [<- | [<- | []]] [<- | [<- | []]]; reflexivity.
Defined.


End GetFacts.

(** ** Further properties of package printers *)

Module PrintersMoreFacts.

Import Printers PrintersSpec MoreSpec.

(** *** Strings and the first [=] *)

Lemma cutEq_app (g b : string) :
  noEq g = true -> cutEq (g ++ "=" ++ b) = Some (g, b).
Proof.
  induction g as [|c g IH]; simpl; intro H; [reflexivity|].
  apply andb_true_iff in H. destruct H as [Hc Hg].
  apply negb_true_iff in Hc. rewrite Hc.
  specialize (IH Hg). simpl in IH. now rewrite IH.
Qed.

Lemma cutEq_join (s a b : string) :
  cutEq s = Some (a, b) -> s = a ++ "=" ++ b /\ noEq a = true.
Proof.
  revert a b. induction s as [|c s IH]; simpl; intros a b H; [discriminate|].
  destruct (Ascii.eqb_spec c "="%char) as [-> | Hc].
  - inversion H. subst. now split.
  - destruct (cutEq s) as [[a' b']|]; [|discriminate].
    inversion H. subst. destruct (IH a' b eq_refl) as [-> Ha].
    split; [reflexivity|]. simpl. rewrite Ha.
    destruct (Ascii.eqb_spec c "="%char); [contradiction|reflexivity].
Qed.

Lemma cutEq_noEq (s : string) : noEq s = true -> cutEq s = None.
Proof.
  induction s as [|c s IH]; simpl; intro H; [reflexivity|].
  apply andb_true_iff in H. destruct H as [Hc Hs].
  apply negb_true_iff in Hc. rewrite Hc. now rewrite (IH Hs).
Qed.

Lemma prefix_cons (x c : ascii) (g o : string) :
  String.prefix (String x g) (String c o)
  = if Ascii.eqb x c then String.prefix g o else false.
Proof.
  change (String.prefix (String x g) (String c o))
    with (if ascii_dec x c then String.prefix g o else false).
  destruct (ascii_dec x c) as [-> | Hne].
  - now rewrite Ascii.eqb_refl.
  - destruct (Ascii.eqb_spec x c); [contradiction|reflexivity].
Qed.

(** [g=] is a prefix of [o] exactly when [g] is the text of [o] before
    its first [=]. *)
Lemma HasPrefix_cutEq (g o : string) :
  noEq g = true ->
  HasPrefix o (g ++ "=")
  = match cutEq o with
    | Some (a, _) => (a =? g)%string
    | None => false
    end.
Proof.
  unfold HasPrefix. revert o.
  induction g as [|x g IH]; intros o H.
  - change ("" ++ "=")%string with (String "="%char "").
    destruct o as [|c o]; [reflexivity|].
    rewrite prefix_cons. cbn [cutEq].
    rewrite (Ascii.eqb_sym "="%char c).
    destruct (Ascii.eqb c "="%char).
    + now destruct o.
    + destruct (cutEq o) as [[a b]|]; reflexivity.
  - cbn [noEq] in H. apply andb_true_iff in H. destruct H as [Hx Hg].
    apply negb_true_iff in Hx.
    change (String x g ++ "=")%string with (String x (g ++ "=")).
    destruct o as [|c o]; [reflexivity|].
    rewrite prefix_cons. cbn [cutEq].
    destruct (Ascii.eqb_spec c "="%char) as [-> | Hc].
    + rewrite Hx. reflexivity.
    + rewrite (IH o Hg).
      destruct (cutEq o) as [[a b]|].
      * cbn [String.eqb]. now rewrite (Ascii.eqb_sym c x).
      * now destruct (Ascii.eqb x c).
Qed.

Lemma string_drop_cutEq (o a b : string) :
  cutEq o = Some (a, b) -> string_drop (String.length (a ++ "=")) o = b.
Proof.
  revert a b. induction o as [|c o IH]; simpl; intros a b H; [discriminate|].
  destruct (Ascii.eqb c "="%char).
  - inversion H. subst. reflexivity.
  - destruct (cutEq o) as [[a' b']|]; [|discriminate].
    inversion H. subst. simpl. now apply IH.
Qed.

Lemma substring_kind (g : string) :
  substring 0 (String.length (g ++ "=") - 1) (g ++ "=") = g.
Proof.
  replace (String.length (g ++ "=") - 1) with (String.length g).
  - induction g as [|c g IH]; simpl; [reflexivity|]. now rewrite IH.
  - induction g as [|c g IH]; simpl; [reflexivity|].
    simpl in IH. rewrite Nat.sub_0_r in *. destruct g; simpl in *; lia.
Qed.

Lemma mem_string_Permutation (s : string) (l l' : list string) :
  Permutation l l' -> mem_string s l = mem_string s l'.
Proof.
  unfold mem_string. induction 1; simpl.
  - reflexivity.
  - now rewrite IHPermutation.
  - destruct (s =? y)%string, (s =? x)%string; reflexivity.
  - congruence.
Qed.

(** The loop over the map of formats in closed form: when the text
    before the first [=] of the output format is a key, it becomes the
    format and the text after it the template argument; otherwise nothing
    changes. *)
Lemma stripFormatPrefix_closed (formats : list string) (arg o : string) :
  Forall (fun g => noEq g = true) formats ->
  stripFormatPrefix formats arg o
  = match cutEq o with
    | Some (a, b) => if mem_string a formats then (b, a) else (arg, o)
    | None => (arg, o)
    end.
Proof.
  intro Hall. revert arg o.
  induction Hall as [|g formats Hg Hall IH]; intros arg o; simpl.
  - now destruct (cutEq o) as [[a b]|].
  - rewrite (HasPrefix_cutEq g o Hg).
    destruct (cutEq o) as [[a b]|] eqn:Hcut.
    + unfold mem_string. simpl.
      destruct (String.eqb_spec a g) as [-> | Hne]; simpl.
      * rewrite IH, substring_kind, (cutEq_noEq g Hg).
        now rewrite (string_drop_cutEq o g b Hcut).
      * rewrite IH, Hcut. reflexivity.
    + rewrite IH, Hcut. reflexivity.
Qed.

Lemma noEq_of_In (kind : string) (kinds : list string) :
  forallb noEq kinds = true -> In kind kinds -> noEq kind = true.
Proof.
  intros H Hin. rewrite forallb_forall in H. now apply H.
Qed.

Lemma Forall_noEq (kinds : list string) :
  forallb noEq kinds = true -> Forall (fun g => noEq g = true) kinds.
Proof.
  intro H. rewrite forallb_forall in H. now apply Forall_forall.
Qed.

Lemma mem_string_In (kind : string) (kinds : list string) :
  In kind kinds -> mem_string kind kinds = true.
Proof.
  intro H. unfold mem_string. apply existsb_exists.
  exists kind. split; [assumption | apply String.eqb_refl].
Qed.

Lemma In_mem_string (kind : string) (kinds : list string) :
  mem_string kind kinds = true -> In kind kinds.
Proof.
  unfold mem_string. intro H. apply existsb_exists in H.
  destruct H as [x [Hin Heq]]. apply String.eqb_eq in Heq. now subst.
Qed.

(** The loop applied to [kind=tpl] for a listed kind. *)
Lemma stripFormatPrefix_inline (formats : list string) (arg kind tpl : string) :
  forallb noEq formats = true -> In kind formats ->
  stripFormatPrefix formats arg (kind ++ "=" ++ tpl) = (tpl, kind).
Proof.
  intros Hall Hin.
  rewrite (stripFormatPrefix_closed formats arg _ (Forall_noEq _ Hall)).
  rewrite (cutEq_app kind tpl (noEq_of_In _ _ Hall Hin)).
  now rewrite (mem_string_In _ _ Hin).
Qed.

Lemma length_eqb_0_iff (s : string) :
  Nat.eqb (String.length s) 0 = true <-> s = "".
Proof.
  destruct s; simpl; split; intro H; try reflexivity; discriminate.
Qed.

(** X1 (the loops [for format := range formats] of the three template
    flag types).  The keys of the maps hold no [=]; for such keys the
    format and the template argument that the loop leaves do not depend
    on the order in which the keys are visited. *)
Theorem stripFormatPrefix_any_order (formats formats' : list string)
  (templateArg outputFormat : string) :
  Forall (fun g => noEq g = true) formats ->
  Permutation formats formats' ->
  stripFormatPrefix formats templateArg outputFormat
  = stripFormatPrefix formats' templateArg outputFormat.
Proof.
  intros Hall Hperm.
  rewrite (stripFormatPrefix_closed formats _ _ Hall).
  rewrite (stripFormatPrefix_closed formats').
  - destruct (cutEq outputFormat) as [[a b]|]; [|reflexivity].
    now rewrite (mem_string_Permutation a _ _ Hperm).
  - apply Forall_forall. intros g Hg.
    rewrite Forall_forall in Hall. apply Hall.
    apply Permutation_sym in Hperm. now apply (Permutation_in g Hperm).
Qed.

Lemma stripFormatPrefix_any_order_witness :
  stripFormatPrefix
    ["template"; "go-template"; "go-template-file"; "templatefile"]
    "{{.a}}" "go-template={{.b}}"
  = stripFormatPrefix
      ["templatefile"; "go-template-file"; "go-template"; "template"]
      "{{.a}}" "go-template={{.b}}".
Proof.
  apply stripFormatPrefix_any_order.
  - repeat constructor.
  - apply (Permutation_rev
             ["template"; "go-template"; "go-template-file"; "templatefile"]).
Defined.

(** X2 ([GoTemplatePrintFlags.ToPrinter] and
    [JSONPathPrintFlags.ToPrinter]).  When the template flag holds a
    non-empty value, an output format [kind=tpl] of a supported kind makes
    the printer from [tpl], not from the flag value, and always matches. *)
Theorem inline_template_overrides (E : Env) (f : TemplateFlags)
  (arg kind tpl : string) :
  tf_TemplateArgument f = Some arg -> arg <> "" ->
  (In kind ["template"; "go-template"; "go-template-file"; "templatefile"] ->
   GoTemplatePrintFlags_ToPrinter E f (kind ++ "=" ++ tpl)
   = goTemplateResult E tpl (allowMissingKeysOf f))
  /\ (In kind ["jsonpath"; "jsonpath-file"] ->
      JSONPathPrintFlags_ToPrinter E f (kind ++ "=" ++ tpl)
      = jsonPathResult E tpl (allowMissingKeysOf f)).
Proof.
  intros Harg Hne.
  assert (Hlen : Nat.eqb (String.length arg) 0 = false).
  { destruct (Nat.eqb (String.length arg) 0) eqn:H0; [|reflexivity].
    apply length_eqb_0_iff in H0. contradiction. }
  split; intro Hin.
  - unfold GoTemplatePrintFlags_ToPrinter. rewrite Harg, Hlen.
    rewrite stripFormatPrefix_inline; [|reflexivity|assumption].
    rewrite (mem_string_In _ _ Hin). cbn [negb].
    unfold NewGoTemplatePrinter, goTemplateResult.
    now destruct (parseGoTemplate E tpl).
  - unfold JSONPathPrintFlags_ToPrinter. rewrite Harg, Hlen.
    rewrite stripFormatPrefix_inline; [|reflexivity|assumption].
    rewrite (mem_string_In _ _ Hin). cbn [negb].
    unfold NewJSONPathPrinter, jsonPathResult.
    now destruct (parseJSONPath E tpl).
Qed.

Lemma inline_template_overrides_witness :
  GoTemplatePrintFlags_ToPrinter Samples.sampleEnv MoreSamples.inlineFlags
    "go-template={{.b}}"
  = (Some (GoTemplatePrinter "{{.b}}" false), true, None).
Proof.
  apply (proj1 (inline_template_overrides Samples.sampleEnv
                  MoreSamples.inlineFlags "{{.a}}" "go-template" "{{.b}}"
                  eq_refl ltac:(discriminate))).
  simpl. auto.
Defined.

(** X3 (the two variants of the Go template flags).  When the template
    pointer refers to the empty string, [GoTemplatePrintFlags.ToPrinter]
    answers an inline [go-template=tpl] with the missing-argument error and
    no match, while the [ToPrinter] that returns a match flag from the
    single-struct [TemplatePrintFlags] makes the printer from [tpl]. *)
Theorem inline_template_with_empty_flag (E : Env) (f : TemplateFlags)
  (kind tpl : string) :
  tf_TemplateArgument f = Some "" ->
  In kind ["go-template"; "go-template-file"] ->
  GoTemplatePrintFlags_ToPrinter E f (kind ++ "=" ++ tpl)
  = (None, false, Some (Errorf "missing --template argument" []))
  /\ TemplateFlagsV.ToPrinter E f (kind ++ "=" ++ tpl)
     = goTemplateResult E tpl (allowMissingKeysOf f).
Proof.
  intros Harg Hin. split.
  - unfold GoTemplatePrintFlags_ToPrinter. now rewrite Harg.
  - unfold TemplateFlagsV.ToPrinter. rewrite Harg.
    cbn [String.length Nat.ltb Nat.leb andb].
    rewrite andb_false_r.
    rewrite stripFormatPrefix_inline;
      [|reflexivity|simpl in *; tauto].
    rewrite mem_string_In by (simpl in *; tauto). cbn [negb andb].
    unfold TemplateFlagsV.NewTemplatePrinter, goTemplateResult.
    now destruct (parseGoTemplate E tpl).
Qed.

Lemma inline_template_with_empty_flag_witness :
  GoTemplatePrintFlags_ToPrinter Samples.sampleEnv
    MoreSamples.emptyTemplateFlags "go-template={{.b}}"
  = (None, false, Some (Errorf "missing --template argument" []))
  /\ TemplateFlagsV.ToPrinter Samples.sampleEnv
       MoreSamples.emptyTemplateFlags "go-template={{.b}}"
     = (Some (GoTemplatePrinter "{{.b}}" true), true, None).
Proof.
  apply (inline_template_with_empty_flag Samples.sampleEnv
           MoreSamples.emptyTemplateFlags "go-template" "{{.b}}" eq_refl).
  simpl. auto.
Defined.

(** X4 (the [ToPrinter] methods that return a match flag).  Each of them
    returns a non-nil printer exactly when it reports a match and no
    error. *)
Theorem ToPrinter_results_well_formed (E : Env) :
  (forall outputFormat,
      wellFormed (JSONYamlPrintFlags_ToPrinter E outputFormat))
  /\ (forall f outputFormat,
         wellFormed (GoTemplatePrintFlags_ToPrinter E f outputFormat))
  /\ (forall f outputFormat,
         wellFormed (JSONPathPrintFlags_ToPrinter E f outputFormat))
  /\ (forall f outputFormat,
         wellFormed (TemplateFlagsV.ToPrinter E f outputFormat))
  /\ (forall f outputFormat encoder decoder,
         wellFormed (HumanFlags.ToPrinter f outputFormat encoder decoder)).
Proof.
  assert (Hyes : forall (P : Type) (p : P),
             wellFormed (Some p, true, @None error)).
  { intros P p. simpl. split; [now split | discriminate]. }
  assert (Hno : forall (P : Type) m e,
             wellFormed (@None P, m, e) <-> (m = false \/ e <> None)).
  { intros P m e. simpl. split.
    - intros [_ H]. destruct m; [|now left]. right. intro He. now apply H.
    - intros [-> | He]; split; try congruence; intros [? ?]; congruence. }
  repeat split.
  - intro o. unfold JSONYamlPrintFlags_ToPrinter.
    destruct (Nat.eqb _ 0); [apply Hno; now left|].
    destruct (negb _ && negb _); [apply Hno; now left|].
    destruct (_ =? "json")%string; apply Hyes.
  - intros f o. unfold GoTemplatePrintFlags_ToPrinter.
    destruct (tf_TemplateArgument f) as [arg|]; [|apply Hno; now left].
    destruct (Nat.eqb _ 0); [apply Hno; now left|].
    destruct (stripFormatPrefix _ arg o) as [t o'].
    destruct (negb _); [apply Hno; now left|].
    destruct (NewGoTemplatePrinter E t); [apply Hyes|].
    apply Hno. right. discriminate.
  - intros f o. unfold JSONPathPrintFlags_ToPrinter.
    destruct (tf_TemplateArgument f) as [arg|]; [|apply Hno; now left].
    destruct (Nat.eqb _ 0); [apply Hno; now left|].
    destruct (stripFormatPrefix _ arg o) as [t o'].
    destruct (negb _); [apply Hno; now left|].
    destruct (NewJSONPathPrinter E t); [apply Hyes|].
    apply Hno. right. discriminate.
  - intros f o. unfold TemplateFlagsV.ToPrinter.
    destruct (tf_TemplateArgument f) as [arg|];
      [|apply Hno; right; discriminate].
    destruct (stripFormatPrefix _ arg _) as [t o'].
    destruct (negb _ && negb _); [apply Hno; now left|].
    destruct (TemplateFlagsV.NewTemplatePrinter E t); [apply Hyes|].
    apply Hno. right. discriminate.
  - intros f o enc dec. unfold HumanFlags.ToPrinter.
    destruct (Nat.ltb _ _ && negb _); [apply Hno; now left|].
    destruct enc, dec; try (apply Hno; now left). apply Hyes.
Qed.

Lemma templateCase_not_Panic (E : Env) (format arg : string) (allow : bool) :
  templateCase E format arg allow <> Panic.
Proof.
  unfold templateCase.
  destruct (KubeTemplatePrintFlags_ToPrinter E _ format) as [[p m] e].
  destruct m; [destruct e|]; discriminate.
Qed.

(** X5 ([GetStandardPrinter]).  The function indexes [decoders[0]] only
    for the table and custom-columns formats: with no decoder it panics
    exactly for the formats wide, empty and custom-columns, and for
    custom-columns-file once the file was opened; with at least one decoder
    it never panics. *)
Theorem GetStandardPrinter_panics_only_without_decoder (E : Env)
  (typer : ObjectTyper) (encoder : Encoder) (options : PrintOptions) :
  (forall d ds, GetStandardPrinter E typer encoder (d :: ds) options <> Panic)
  /\ (GetStandardPrinter E typer encoder [] options = Panic
      <-> (In (OutputFormatType options) ["wide"; ""; "custom-columns"]
           \/ (OutputFormatType options = "custom-columns-file"
               /\ exists file,
                   Open E (OutputFormatArgument options) = Ok file))).
Proof.
  destruct options as [format arg allow nh wn wk wide sa sl at_ kind cl sb].
  unfold GetStandardPrinter.
  cbn [OutputFormatType OutputFormatArgument AllowMissingKeys NoHeaders].
  split.
  - intros d ds.
    destruct (mem_string format ["json"; "yaml"]).
    { destruct (JSONYamlPrintFlags_ToPrinter E format) as [[p m] e].
      destruct m; [destruct e|]; discriminate. }
    destruct (format =? "name")%string; [discriminate|].
    destruct (mem_string format _).
    { destruct (Nat.eqb _ 0); [discriminate|].
      destruct (ReadFile E arg); [apply templateCase_not_Panic|discriminate]. }
    destruct (mem_string format _); [apply templateCase_not_Panic|].
    destruct (format =? "custom-columns")%string.
    { destruct (NewCustomColumnsPrinterFromSpec E arg d nh); discriminate. }
    destruct (format =? "custom-columns-file")%string.
    { destruct (Open E arg) as [file|]; [|discriminate].
      destruct (NewCustomColumnsPrinterFromTemplate E file d); discriminate. }
    destruct (mem_string format _); discriminate.
  - destruct (mem_string format ["json"; "yaml"]) eqn:H1.
    { apply In_mem_string in H1. split.
      - destruct (JSONYamlPrintFlags_ToPrinter E format) as [[p m] e].
        destruct m; [destruct e|]; discriminate.
      - simpl in H1.
        intros [Hin | [-> _]]; [simpl in Hin|];
          intuition (subst; discriminate). }
    destruct (String.eqb_spec format "name") as [-> | H2].
    { split; [discriminate|]. simpl.
      intros [Hin | [Heq _]]; intuition discriminate. }
    destruct (mem_string format ["templatefile"; "go-template-file"; "jsonpath-file"]) eqn:H3.
    { apply In_mem_string in H3. split.
      - destruct (Nat.eqb _ 0); [discriminate|].
        destruct (ReadFile E arg); [|discriminate].
        intro H. now apply templateCase_not_Panic in H.
      - simpl in H3.
        intros [Hin | [-> _]]; [simpl in Hin|];
          intuition (subst; discriminate). }
    destruct (mem_string format ["template"; "go-template"; "jsonpath"]) eqn:H4.
    { apply In_mem_string in H4. split.
      - intro H. now apply templateCase_not_Panic in H.
      - simpl in H4.
        intros [Hin | [-> _]]; [simpl in Hin|];
          intuition (subst; discriminate). }
    destruct (String.eqb_spec format "custom-columns") as [-> | H5].
    { split; [|reflexivity]. intros _. left. simpl. auto. }
    destruct (String.eqb_spec format "custom-columns-file") as [-> | H6].
    { destruct (Open E arg) as [file|err].
      - split; [|reflexivity]. intros _. right. split; [reflexivity|].
        now exists file.
      - split; [discriminate|].
        intros [Hin | [_ [file Hf]]]; [|discriminate].
        simpl in Hin. intuition discriminate. }
    destruct (mem_string format ["wide"; ""]) eqn:H7.
    { apply In_mem_string in H7. split; [|reflexivity].
      intros _. left. simpl in *. tauto. }
    split; [discriminate|].
    intros [Hin | [Heq _]]; [|contradiction].
    exfalso. simpl in Hin.
    destruct Hin as [<- | [<- | [<- | []]]];
      [discriminate H7 | discriminate H7 | now apply H5].
Qed.

(** X6 ([GetStandardPrinter], the file formats).  For the three template
    file formats an empty argument is an error that names the format, and
    a file that cannot be read is an error that names the path; for
    custom-columns-file a file that cannot be opened is an error that names
    the path.  Each is reported whatever the decoders are, an empty list
    included. *)
Theorem GetStandardPrinter_file_errors (E : Env) (typer : ObjectTyper)
  (encoder : Encoder) (decoders : list Decoder) (options : PrintOptions) :
  (In (OutputFormatType options)
      ["templatefile"; "go-template-file"; "jsonpath-file"] ->
   (OutputFormatArgument options = "" ->
    GetStandardPrinter E typer encoder decoders options
    = Fail (Errorf "%s format specified but no template file given"
              [ArgString (OutputFormatType options)]))
   /\ (forall err,
          OutputFormatArgument options <> "" ->
          ReadFile E (OutputFormatArgument options) = Err err ->
          GetStandardPrinter E typer encoder decoders options
          = Fail (Errorf "error reading --template %s, %v\n"
                    [ArgString (OutputFormatArgument options); ArgError err])))
  /\ (OutputFormatType options = "custom-columns-file" ->
      forall err,
        Open E (OutputFormatArgument options) = Err err ->
        GetStandardPrinter E typer encoder decoders options
        = Fail (Errorf "error reading template %s, %v\n"
                  [ArgString (OutputFormatArgument options); ArgError err])).
Proof.
  destruct options as [format arg allow nh wn wk wide sa sl at_ kind cl sb].
  unfold GetStandardPrinter.
  cbn [OutputFormatType OutputFormatArgument AllowMissingKeys NoHeaders].
  split.
  - intro Hin.
    assert (H1 : mem_string format ["json"; "yaml"] = false).
    { simpl in Hin. intuition (subst; reflexivity). }
    assert (H2 : (format =? "name")%string = false).
    { simpl in Hin. intuition (subst; reflexivity). }
    rewrite H1, H2, (mem_string_In _ _ Hin). split.
    + intros ->. reflexivity.
    + intros err Hne Hread.
      destruct (Nat.eqb (String.length arg) 0) eqn:H0.
      * apply length_eqb_0_iff in H0. contradiction.
      * now rewrite Hread.
  - intros -> err Hopen. cbn. now rewrite Hopen.
Qed.

Lemma GetStandardPrinter_file_errors_witness :
  GetStandardPrinter Samples.sampleEnv (typer 0) (encoder 0) []
    (Samples.sampleOptions "jsonpath-file" "")
  = Fail (Errorf "%s format specified but no template file given"
            [ArgString "jsonpath-file"])
  /\ GetStandardPrinter Samples.sampleEnv (typer 0) (encoder 0) []
       (Samples.sampleOptions "custom-columns-file" "missing.txt")
     = Fail (Errorf "error reading template %s, %v\n"
               [ArgString "missing.txt";
                ArgError (Errorf "open %s: no such file or directory"
                            [ArgString "missing.txt"])]).
Proof.
  split.
  - apply (proj1 (GetStandardPrinter_file_errors Samples.sampleEnv (typer 0)
                    (encoder 0) [] (Samples.sampleOptions "jsonpath-file" ""))).
    + simpl. auto.
    + reflexivity.
  - apply (proj2 (GetStandardPrinter_file_errors Samples.sampleEnv (typer 0)
                    (encoder 0) []
                    (Samples.sampleOptions "custom-columns-file" "missing.txt"))).
    + reflexivity.
    + reflexivity.
Defined.

(** The first loop of [TemplatePrintFlags.ToPrinter] in closed form. *)
Lemma splitTemplateFormat_closed (kinds : list string) (outputFormat : string)
  (f : TemplatePrintFlags) :
  Forall (fun g => noEq g = true) kinds ->
  splitTemplateFormat (map (fun g => g ++ "=") kinds) outputFormat f
  = match cutEq (tpf_OutputFormat f) with
    | Some (a, _) =>
        if mem_string a kinds
        then {| tpf_AllowMissingKeys := tpf_AllowMissingKeys f;
                tpf_TemplateArgument :=
                  Some (string_drop (String.length (a ++ "=")) outputFormat);
                tpf_OutputFormat := a |}
        else f
    | None => f
    end.
Proof.
  induction 1 as [|g kinds Hg Hall IH]; cbn [map splitTemplateFormat].
  - now destruct (cutEq (tpf_OutputFormat f)) as [[a b]|].
  - rewrite (HasPrefix_cutEq g _ Hg), IH.
    destruct (cutEq (tpf_OutputFormat f)) as [[a b]|]; [|reflexivity].
    unfold mem_string. cbn [existsb].
    destruct (String.eqb_spec a g) as [-> | Hne]; [|reflexivity].
    now rewrite substring_kind.
Qed.

Lemma prepareFlags_closed (f : TemplatePrintFlags) (o : string) :
  prepareFlags f o
  = match cutEq o with
    | Some (kind, arg) =>
        if mem_string kind splitKinds
        then {| tpf_AllowMissingKeys := tpf_AllowMissingKeys f;
                tpf_TemplateArgument := Some arg;
                tpf_OutputFormat := kind |}
        else storedFormat f o
    | None => storedFormat f o
    end.
Proof.
  unfold prepareFlags.
  change ["go-template="; "go-template-file="; "jsonpath=";
          "jsonpath-file="; "custom-columns="; "custom-columns-file="]
    with (map (fun g => g ++ "=") splitKinds).
  rewrite splitTemplateFormat_closed by (repeat constructor).
  unfold storedFormat.
  cbn [tpf_AllowMissingKeys tpf_TemplateArgument tpf_OutputFormat].
  destruct o as [|c o].
  - destruct (tpf_TemplateArgument f) as [arg|]; [|reflexivity].
    cbn [String.length Nat.eqb andb].
    now destruct (negb (Nat.eqb (String.length arg) 0)).
  - assert (Hsame :
      match tpf_TemplateArgument f with
      | Some arg =>
          if Nat.eqb (String.length (String c o)) 0
             && negb (Nat.eqb (String.length arg) 0)
          then {| tpf_AllowMissingKeys := tpf_AllowMissingKeys f;
                  tpf_TemplateArgument := tpf_TemplateArgument f;
                  tpf_OutputFormat := "template" |}
          else {| tpf_AllowMissingKeys := tpf_AllowMissingKeys f;
                  tpf_TemplateArgument := tpf_TemplateArgument f;
                  tpf_OutputFormat := String c o |}
      | None => {| tpf_AllowMissingKeys := tpf_AllowMissingKeys f;
                   tpf_TemplateArgument := tpf_TemplateArgument f;
                   tpf_OutputFormat := String c o |}
      end
      = {| tpf_AllowMissingKeys := tpf_AllowMissingKeys f;
           tpf_TemplateArgument := tpf_TemplateArgument f;
           tpf_OutputFormat := String c o |}).
    { now destruct (tpf_TemplateArgument f). }
    rewrite Hsame.
    cbn [tpf_AllowMissingKeys tpf_TemplateArgument tpf_OutputFormat].
    destruct (cutEq (String c o)) as [[a b]|] eqn:Hcut.
    + rewrite (string_drop_cutEq _ _ _ Hcut).
      destruct (mem_string a splitKinds); [reflexivity|].
      now destruct (tpf_TemplateArgument f).
    + now destruct (tpf_TemplateArgument f).
Qed.

Lemma prepareFlags_inline (f : TemplatePrintFlags) (kind arg : string) :
  In kind splitKinds ->
  prepareFlags f (kind ++ "=" ++ arg)
  = {| tpf_AllowMissingKeys := tpf_AllowMissingKeys f;
       tpf_TemplateArgument := Some arg;
       tpf_OutputFormat := kind |}.
Proof.
  intro Hin. rewrite prepareFlags_closed.
  rewrite (cutEq_app kind arg (noEq_of_In kind splitKinds eq_refl Hin)).
  now rewrite (mem_string_In _ _ Hin).
Qed.

(** X7 ([TemplatePrintFlags.ToPrinter] of the flags that carry their
    builders).  An output format [kind=arg] of one of the six split kinds
    leaves the flags with format [kind] and template argument [arg],
    whatever the template flag held, and the builders are run on these
    flags; any other output format is stored as it is, or as template when
    it is empty and a template value is given, and the template argument
    is kept.  The split is at the first [=]. *)
Theorem ToPrinter_splits_inline_template (E : Env)
  (builders : list (PrinterBuilder E)) (f : TemplatePrintFlags)
  (outputFormat : string) :
  fst (TemplatePrintFlags_ToPrinter E builders f outputFormat)
  = match cutEq outputFormat with
    | Some (kind, arg) =>
        if mem_string kind splitKinds
        then {| tpf_AllowMissingKeys := tpf_AllowMissingKeys f;
                tpf_TemplateArgument := Some arg;
                tpf_OutputFormat := kind |}
        else storedFormat f outputFormat
    | None => storedFormat f outputFormat
    end
  /\ (forall kind arg,
         In kind splitKinds ->
         TemplatePrintFlags_ToPrinter E builders f (kind ++ "=" ++ arg)
         = ({| tpf_AllowMissingKeys := tpf_AllowMissingKeys f;
               tpf_TemplateArgument := Some arg;
               tpf_OutputFormat := kind |},
            runBuilders E builders
              {| tpf_AllowMissingKeys := tpf_AllowMissingKeys f;
                 tpf_TemplateArgument := Some arg;
                 tpf_OutputFormat := kind |} 0)).
Proof.
  unfold TemplatePrintFlags_ToPrinter. cbn [fst].
  split; [apply prepareFlags_closed|].
  intros kind arg Hin. now rewrite (prepareFlags_inline f kind arg Hin).
Qed.

(** X24 ([TemplatePrintFlags.ToPrinter] called again on the same flags).
    The receiver is a pointer and the call stores what it split off: after
    a call with [kind=arg] for a non-empty [arg], a later call with the
    empty output format resolves to template with the argument [arg] of
    the earlier call, not with the value the flags held before it. *)
Theorem inline_template_persists (E : Env)
  (builders builders' : list (PrinterBuilder E)) (f : TemplatePrintFlags)
  (kind arg : string) :
  In kind splitKinds -> arg <> "" ->
  fst (TemplatePrintFlags_ToPrinter E builders'
         (fst (TemplatePrintFlags_ToPrinter E builders f (kind ++ "=" ++ arg)))
         "")
  = {| tpf_AllowMissingKeys := tpf_AllowMissingKeys f;
       tpf_TemplateArgument := Some arg;
       tpf_OutputFormat := "template" |}.
Proof.
  intros Hin Hne. unfold TemplatePrintFlags_ToPrinter. cbn [fst].
  rewrite (prepareFlags_inline f kind arg Hin), prepareFlags_closed.
  cbn [cutEq]. unfold storedFormat.
  cbn [tpf_AllowMissingKeys tpf_TemplateArgument String.length Nat.eqb andb].
  destruct arg; [contradiction|reflexivity].
Qed.

Lemma inline_template_persists_witness :
  fst (TemplatePrintFlags_ToPrinter Samples.sampleEnv [Samples.buildsJSON]
         (fst (TemplatePrintFlags_ToPrinter Samples.sampleEnv [Samples.declines]
                 Samples.sampleFlags "jsonpath={.a}"))
         "")
  = {| tpf_AllowMissingKeys := Some true;
       tpf_TemplateArgument := Some "{.a}";
       tpf_OutputFormat := "template" |}.
Proof.
  apply (inline_template_persists Samples.sampleEnv [Samples.declines]
           [Samples.buildsJSON] Samples.sampleFlags "jsonpath" "{.a}").
  - simpl. auto.
  - discriminate.
Defined.

(** X8 ([TemplatePrintFlags.Validate] and [ToPrinter] of the
    single-struct variant).  Flags that pass [Validate] resolve the empty
    output format like go-template: the printer is made from the value of
    the template flag and the call matches. *)
Theorem validated_template_is_default (E : Env) (f : TemplateFlags) :
  TemplateFlagsV.Validate f = None ->
  exists arg,
    tf_TemplateArgument f = Some arg
    /\ TemplateFlagsV.ToPrinter E f "" = TemplateFlagsV.ToPrinter E f "go-template"
    /\ TemplateFlagsV.ToPrinter E f ""
       = goTemplateResult E arg (allowMissingKeysOf f).
Proof.
  unfold TemplateFlagsV.Validate, TemplateFlagsV.ToPrinter.
  destruct (tf_TemplateArgument f) as [arg|]; [|discriminate].
  destruct arg as [|c arg]; [discriminate|]. intros _.
  exists (String c arg). split; [reflexivity|].
  cbn [String.length Nat.eqb Nat.ltb Nat.leb andb].
  split; [reflexivity|].
  rewrite stripFormatPrefix_closed by (repeat constructor).
  cbn. unfold TemplateFlagsV.NewTemplatePrinter, goTemplateResult.
  now destruct (parseGoTemplate E (String c arg)).
Qed.

Lemma validated_template_is_default_witness :
  exists arg,
    tf_TemplateArgument MoreSamples.inlineFlags = Some arg
    /\ TemplateFlagsV.ToPrinter Samples.sampleEnv MoreSamples.inlineFlags ""
       = TemplateFlagsV.ToPrinter Samples.sampleEnv MoreSamples.inlineFlags
           "go-template"
    /\ TemplateFlagsV.ToPrinter Samples.sampleEnv MoreSamples.inlineFlags ""
       = goTemplateResult Samples.sampleEnv arg
           (allowMissingKeysOf MoreSamples.inlineFlags).
Proof.
  apply (validated_template_is_default Samples.sampleEnv
           MoreSamples.inlineFlags).
  reflexivity.
Defined.

(** X9 ([TemplatePrintFlags.ToPrinter] of the single-struct variant).  A
    nil template pointer is answered with a match and an error for every
    output format; with a template pointer, an inline [kind=tpl] of any of
    the four kinds, the jsonpath kinds included, makes a Go template
    printer from [tpl]. *)
Theorem TemplateFlagsV_inline (E : Env) (f : TemplateFlags) :
  (tf_TemplateArgument f = None ->
   forall outputFormat,
     TemplateFlagsV.ToPrinter E f outputFormat
     = (None, true, Some (Errorf "missing --template argument" [])))
  /\ (forall kind tpl,
         tf_TemplateArgument f <> None ->
         In kind ["go-template"; "go-template-file"; "jsonpath"; "jsonpath-file"] ->
         TemplateFlagsV.ToPrinter E f (kind ++ "=" ++ tpl)
         = goTemplateResult E tpl (allowMissingKeysOf f)).
Proof.
  split.
  - intros Hnil o. unfold TemplateFlagsV.ToPrinter. now rewrite Hnil.
  - intros kind tpl Hsome Hin. unfold TemplateFlagsV.ToPrinter.
    destruct (tf_TemplateArgument f) as [arg|]; [|contradiction].
    assert (Hlen : Nat.eqb (String.length (kind ++ "=" ++ tpl)) 0 = false).
    { simpl in Hin. now destruct Hin as [<- | [<- | [<- | [<- | []]]]]. }
    rewrite Hlen. cbn [andb].
    rewrite stripFormatPrefix_inline; [|reflexivity|assumption].
    rewrite (mem_string_In _ _ Hin). cbn [negb andb].
    unfold TemplateFlagsV.NewTemplatePrinter, goTemplateResult.
    now destruct (parseGoTemplate E tpl).
Qed.

Lemma TemplateFlagsV_inline_witness :
  TemplateFlagsV.ToPrinter Samples.sampleEnv MoreSamples.inlineFlags
    "jsonpath={.b}"
  = (Some (GoTemplatePrinter "{.b}" false), true, None).
Proof.
  apply (proj2 (TemplateFlagsV_inline Samples.sampleEnv MoreSamples.inlineFlags)
           "jsonpath" "{.b}").
  - discriminate.
  - simpl. auto.
Defined.

(** X10 ([HumanPrintFlags.ToPrinter]).  Only the empty format and wide
    match, and the two are answered alike: the wide columns come from the
    [Wide] flag, not from the format.  On the printer made, headers are
    ensured exactly when [NoHeaders] is set to false, and the order of the
    calls made is that of the source. *)
Theorem HumanFlags_ToPrinter_matches (f : HumanFlags.HumanPrintFlags)
  (encoder : option Encoder) (decoder : option Decoder) :
  HumanFlags.ToPrinter f "" encoder decoder
  = HumanFlags.ToPrinter f "wide" encoder decoder
  /\ (forall outputFormat,
         outputFormat <> "" -> outputFormat <> "wide" ->
         HumanFlags.ToPrinter f outputFormat encoder decoder
         = (None, false, None))
  /\ (forall p matched err,
         HumanFlags.ToPrinter f "wide" encoder decoder = (Some p, matched, err) ->
         Some (HumanFlags.hp_encoder p) = encoder
         /\ Some (HumanFlags.hp_decoder p) = decoder
         /\ (In HumanFlags.EnsureWideOutput (HumanFlags.hp_calls p)
             <-> HumanFlags.hf_Wide f = Some true)
         /\ (In HumanFlags.EnsurePrintHeaders (HumanFlags.hp_calls p)
             <-> HumanFlags.hf_NoHeaders f = Some false)).
Proof.
  split; [reflexivity|]. split.
  - intros o Hne Hw. unfold HumanFlags.ToPrinter.
    destruct o as [|c o]; [contradiction|].
    destruct (String.eqb_spec (String c o) "wide"); [contradiction|].
    reflexivity.
  - intros p matched err. unfold HumanFlags.ToPrinter.
    replace (Nat.ltb 0 (String.length "wide") && negb ("wide" =? "wide")%string)
      with false by reflexivity.
    destruct encoder as [enc|], decoder as [dec|]; try discriminate.
    intro H. inversion H. subst. cbn [HumanFlags.hp_encoder
      HumanFlags.hp_decoder HumanFlags.hp_calls].
    split; [reflexivity|]. split; [reflexivity|].
    unfold HumanFlags.configure. rewrite !in_app_iff.
    assert (H1 : forall (b : bool) (x y : HumanFlags.HumanCall), x <> y ->
               ~ In x (if b then [y] else [])).
    { intros b x y Hxy. destruct b; simpl; intuition congruence. }
    assert (HNS := H1 (HumanFlags.isSet (HumanFlags.hf_WithNamespace f))).
    assert (HSL := H1 (HumanFlags.isSet (HumanFlags.hf_ShowLabels f))).
    assert (HAT := H1 (HumanFlags.isSet (HumanFlags.hf_AbsoluteTimestamps f))).
    assert (HW := H1 (HumanFlags.isSet (HumanFlags.hf_Wide f))).
    assert (HK := H1 (Nat.ltb 0 (String.length (HumanFlags.hf_Kind f)))).
    assert (HCL : forall x,
               (forall l, x <> HumanFlags.EnsurePrintWithColumnLabels l) ->
               ~ In x (match HumanFlags.hf_ColumnLabels f with
                       | Some columnLabels =>
                           if Nat.ltb 0 (List.length columnLabels)
                           then [HumanFlags.EnsurePrintWithColumnLabels columnLabels]
                           else []
                       | None => []
                       end)).
    { intros x Hx. destruct (HumanFlags.hf_ColumnLabels f) as [l|];
        [|simpl; tauto].
      destruct (Nat.ltb 0 (List.length l)); simpl; [|tauto].
      intros [Heq | []]. now apply (Hx l). }
    assert (HNH : forall x,
               In x (match HumanFlags.hf_NoHeaders f with
                     | Some noHeaders =>
                         if negb noHeaders then [HumanFlags.EnsurePrintHeaders]
                         else []
                     | None => []
                     end)
               <-> (x = HumanFlags.EnsurePrintHeaders
                    /\ HumanFlags.hf_NoHeaders f = Some false)).
    { intro x. destruct (HumanFlags.hf_NoHeaders f) as [[|]|]; simpl;
        intuition congruence. }
    split.
    + specialize (HNH HumanFlags.EnsureWideOutput).
      specialize (HNS HumanFlags.EnsureWideOutput HumanFlags.EnsurePrintNamespace ltac:(discriminate)).
      specialize (HSL HumanFlags.EnsureWideOutput HumanFlags.EnsurePrintLabels ltac:(discriminate)).
      specialize (HAT HumanFlags.EnsureWideOutput HumanFlags.EnsureAbsoluteTimestamps ltac:(discriminate)).
      specialize (HK HumanFlags.EnsureWideOutput
                    (HumanFlags.EnsurePrintWithKind (HumanFlags.hf_Kind f))
                    ltac:(discriminate)).
      specialize (HCL HumanFlags.EnsureWideOutput ltac:(discriminate)).
      assert (Hwide : In HumanFlags.EnsureWideOutput
                        (if HumanFlags.isSet (HumanFlags.hf_Wide f)
                         then [HumanFlags.EnsureWideOutput] else [])
                      <-> HumanFlags.hf_Wide f = Some true).
      { destruct (HumanFlags.hf_Wide f) as [[|]|]; simpl;
          intuition congruence. }
      split.
      * intros [Hh | [Hh | [Hh | [Hh | [Hh | [Hh | Hh]]]]]];
          try tauto. destruct HNH as [HNH _].
        destruct (HNH Hh) as [Hd _]. discriminate.
      * intro Hset. right. right. right. right. left. tauto.
    + specialize (HNH HumanFlags.EnsurePrintHeaders).
      specialize (HNS HumanFlags.EnsurePrintHeaders HumanFlags.EnsurePrintNamespace ltac:(discriminate)).
      specialize (HSL HumanFlags.EnsurePrintHeaders HumanFlags.EnsurePrintLabels ltac:(discriminate)).
      specialize (HAT HumanFlags.EnsurePrintHeaders HumanFlags.EnsureAbsoluteTimestamps ltac:(discriminate)).
      specialize (HW HumanFlags.EnsurePrintHeaders HumanFlags.EnsureWideOutput ltac:(discriminate)).
      specialize (HK HumanFlags.EnsurePrintHeaders
                    (HumanFlags.EnsurePrintWithKind (HumanFlags.hf_Kind f))
                    ltac:(discriminate)).
      specialize (HCL HumanFlags.EnsurePrintHeaders ltac:(discriminate)).
      tauto.
Qed.

Lemma GetStandardPrinter_panics_only_without_decoder_witness :
  GetStandardPrinter Samples.sampleEnv (typer 0) (encoder 0) []
    (Samples.sampleOptions "custom-columns-file" "cols.txt") = Panic.
Proof.
  apply (proj2 (GetStandardPrinter_panics_only_without_decoder
                  Samples.sampleEnv (typer 0) (encoder 0)
                  (Samples.sampleOptions "custom-columns-file" "cols.txt"))).
  right. split; [reflexivity|].
  exists "NAME .metadata.name". reflexivity.
Defined.

Lemma ToPrinter_splits_inline_template_witness :
  TemplatePrintFlags_ToPrinter Samples.sampleEnv [Samples.declines]
    Samples.sampleFlags "jsonpath-file=expr.txt"
  = ({| tpf_AllowMissingKeys := Some true;
        tpf_TemplateArgument := Some "expr.txt";
        tpf_OutputFormat := "jsonpath-file" |},
     (Err (Errorf "no printers matched current flag values" []), 1)).
Proof.
  apply (proj2 (ToPrinter_splits_inline_template Samples.sampleEnv
                  [Samples.declines] Samples.sampleFlags "")
           "jsonpath-file" "expr.txt").
  simpl. auto 10.
Defined.

Lemma HumanFlags_ToPrinter_matches_witness :
  In HumanFlags.EnsureWideOutput (HumanFlags.configure MoreSamples.wideFlags)
  /\ ~ In HumanFlags.EnsurePrintHeaders
         (HumanFlags.configure MoreSamples.wideFlags).
Proof.
  destruct (proj2 (proj2 (HumanFlags_ToPrinter_matches MoreSamples.wideFlags
                            (Some (encoder 0)) (Some (decoder 0))))
              {| HumanFlags.hp_encoder := encoder 0;
                 HumanFlags.hp_decoder := decoder 0;
                 HumanFlags.hp_calls :=
                   HumanFlags.configure MoreSamples.wideFlags |}
              true None eq_refl)
    as [_ [_ [Hwide Hheaders]]].
  split.
  - apply Hwide. reflexivity.
  - intro H. apply Hheaders in H. discriminate H.
Defined.

(** X25 ([JSONYamlPrintFlags.ToPrinter] and the switch of
    [GetStandardPrinter]).  The flags compare the lowered output format,
    the switch compares the format as given: a spelling of json or yaml
    with an upper-case letter is matched by the flags and is not
    recognized by [GetStandardPrinter]. *)
Theorem json_yaml_case_sensitivity (E : Env) (typer : ObjectTyper)
  (encoder : Encoder) (decoders : list Decoder) (options : PrintOptions) :
  In (ToLower (OutputFormatType options)) ["json"; "yaml"] ->
  ~ In (OutputFormatType options) ["json"; "yaml"] ->
  JSONYamlPrintFlags_ToPrinter E (OutputFormatType options)
  = (Some (if (ToLower (OutputFormatType options) =? "json")%string
           then JSONPrinter else YAMLPrinter), true, None)
  /\ GetStandardPrinter E typer encoder decoders options
     = Fail (Errorf "output format %q not recognized"
               [ArgString (OutputFormatType options)]).
Proof.
  destruct options as [format arg allow nh wn wk wide sa sl at_ kind cl sb].
  cbn [OutputFormatType]. intros Hlow Hnot.
  assert (Hcase : forall c, ToLower c = c -> ~ In c ["json"; "yaml"] ->
                            format <> c).
  { intros c Hc Hn ->. rewrite Hc in Hlow. contradiction. }
  split.
  - unfold JSONYamlPrintFlags_ToPrinter.
    destruct format as [|ch format]; [simpl in Hlow; intuition discriminate|].
    cbn [String.length Nat.eqb]. cbv zeta.
    destruct Hlow as [Hl | [Hl | []]]; rewrite <- Hl; reflexivity.
  - unfold GetStandardPrinter.
    cbn [OutputFormatType OutputFormatArgument AllowMissingKeys NoHeaders].
    assert (Hmem : forall l,
               Forall (fun c => ToLower c = c /\ ~ In c ["json"; "yaml"]) l ->
               mem_string format l = false).
    { intros l Hl. destruct (mem_string format l) eqn:Hm; [|reflexivity].
      apply In_mem_string in Hm. rewrite Forall_forall in Hl.
      destruct (Hl _ Hm) as [Hc Hn]. now destruct (Hcase format Hc Hn). }
    assert (Hjy : mem_string format ["json"; "yaml"] = false).
    { destruct (mem_string format ["json"; "yaml"]) eqn:Hm; [|reflexivity].
      apply In_mem_string in Hm. contradiction. }
    assert (Heqb : forall c, ToLower c = c -> ~ In c ["json"; "yaml"] ->
                             (format =? c)%string = false).
    { intros c Hc Hn. apply String.eqb_neq. now apply Hcase. }
    rewrite Hjy.
    rewrite (Heqb "name") by (simpl; intuition discriminate).
    rewrite (Hmem ["templatefile"; "go-template-file"; "jsonpath-file"])
      by (repeat constructor; simpl; intuition discriminate).
    rewrite (Hmem ["template"; "go-template"; "jsonpath"])
      by (repeat constructor; simpl; intuition discriminate).
    rewrite (Heqb "custom-columns") by (simpl; intuition discriminate).
    rewrite (Heqb "custom-columns-file") by (simpl; intuition discriminate).
    rewrite (Hmem ["wide"; ""])
      by (repeat constructor; simpl; intuition discriminate).
    reflexivity.
Qed.

Lemma json_yaml_case_sensitivity_witness :
  JSONYamlPrintFlags_ToPrinter Samples.sampleEnv "JSON"
  = (Some JSONPrinter, true, None)
  /\ GetStandardPrinter Samples.sampleEnv (typer 0) (encoder 0) [decoder 0]
       (Samples.sampleOptions "JSON" "")
     = Fail (Errorf "output format %q not recognized" [ArgString "JSON"]).
Proof.
  apply (json_yaml_case_sensitivity Samples.sampleEnv (typer 0) (encoder 0)
           [decoder 0] (Samples.sampleOptions "JSON" "")).
  - simpl. auto.
  - simpl. intuition discriminate.
Defined.

End PrintersMoreFacts.

(** ** Further properties of get.go *)

Module GetMoreFacts.

Import Get GetMore MoreSpec.

Lemma cutEq_None_noEq (s : string) : cutEq s = None -> noEq s = true.
Proof.
  induction s as [|c s IH]; simpl; [reflexivity|].
  destruct (Ascii.eqb c "="%char); [discriminate|].
  destruct (cutEq s) as [[a b]|]; [discriminate|].
  intros _. simpl. now apply IH.
Qed.

Lemma outputOptsFromStr_closed (columnStr : string)
  (printOpts : Printers.PrintOptions) :
  outputOptsFromStr columnStr printOpts
  = match cutEq columnStr with
    | Some (t, a) => (true, withFormat printOpts t a)
    | None => (false, printOpts)
    end.
Proof.
  unfold outputOptsFromStr, SplitN2.
  destruct columnStr as [|c columnStr]; [reflexivity|].
  cbn [String.eqb].
  now destruct (cutEq (String c columnStr)) as [[t a]|].
Qed.

(** X11 ([outputOptsFromStr]).  The column string is split at its first
    [=]: joining the format type and the format argument it stores gives
    the string back, the type holds no [=], and every string [type=arg]
    with such a type is accepted with exactly these two parts.  When the
    function returns false the string holds no [=] and the options are
    unchanged. *)
Theorem outputOptsFromStr_round_trip (columnStr : string)
  (printOpts : Printers.PrintOptions) :
  (forall formatType argument,
      noEq formatType = true ->
      outputOptsFromStr (formatType ++ "=" ++ argument) printOpts
      = (true, withFormat printOpts formatType argument))
  /\ (forall printOpts',
         outputOptsFromStr columnStr printOpts = (true, printOpts') ->
         columnStr
         = Printers.OutputFormatType printOpts' ++ "="
           ++ Printers.OutputFormatArgument printOpts'
         /\ noEq (Printers.OutputFormatType printOpts') = true
         /\ printOpts'
            = withFormat printOpts (Printers.OutputFormatType printOpts')
                (Printers.OutputFormatArgument printOpts'))
  /\ (forall printOpts',
         outputOptsFromStr columnStr printOpts = (false, printOpts') ->
         printOpts' = printOpts /\ noEq columnStr = true).
Proof.
  split; [|split].
  - intros t a Ht. rewrite outputOptsFromStr_closed.
    now rewrite (PrintersMoreFacts.cutEq_app t a Ht).
  - intros opts'. rewrite outputOptsFromStr_closed.
    destruct (cutEq columnStr) as [[t a]|] eqn:Hcut; [|discriminate].
    intro H. inversion H. subst. cbn [withFormat Printers.OutputFormatType
      Printers.OutputFormatArgument].
    destruct (PrintersMoreFacts.cutEq_join _ _ _ Hcut) as [Hjoin Hno].
    auto.
  - intros opts'. rewrite outputOptsFromStr_closed.
    destruct (cutEq columnStr) as [[t a]|] eqn:Hcut; [discriminate|].
    intro H. inversion H. subst. split; [reflexivity|].
    now apply cutEq_None_noEq.
Qed.

Lemma outputOptsFromStr_round_trip_witness :
  outputOptsFromStr "custom-columns=NAME:.metadata.name"
    (Samples.sampleOptions "" "")
  = (true, withFormat (Samples.sampleOptions "" "")
             "custom-columns" "NAME:.metadata.name").
Proof.
  apply (proj1 (outputOptsFromStr_round_trip "" (Samples.sampleOptions "" ""))
           "custom-columns" "NAME:.metadata.name").
  reflexivity.
Defined.

(** X12 ([updatePrintOptionsForOpenAPI]).  The print options change only
    when the function returns true, and it returns true only when the
    schema is available, holds the resource, and the resource carries
    print columns of the form [type=arg], which become the format type and
    argument. *)
Theorem updatePrintOptionsForOpenAPI_sound (api : OpenAPI)
  (gvk : GroupVersionKind) (printOpts printOpts' : Printers.PrintOptions)
  (changed : bool) :
  updatePrintOptionsForOpenAPI api gvk printOpts = (changed, printOpts') ->
  (changed = false -> printOpts' = printOpts)
  /\ (changed = true ->
      exists resources schema formatType argument,
        OpenAPISchema api = Ok resources
        /\ LookupResource api resources gvk = Some schema
        /\ GetPrintColumns api schema = Some (formatType ++ "=" ++ argument)
        /\ noEq formatType = true
        /\ printOpts' = withFormat printOpts formatType argument).
Proof.
  unfold updatePrintOptionsForOpenAPI.
  destruct (OpenAPISchema api) as [resources|e] eqn:Hs.
  2:{ intro H. inversion H. split; [reflexivity|discriminate]. }
  destruct (LookupResource api resources gvk) as [schema|] eqn:Hl.
  2:{ intro H. inversion H. split; [reflexivity|discriminate]. }
  destruct (GetPrintColumns api schema) as [columns|] eqn:Hc.
  2:{ intro H. inversion H. split; [reflexivity|discriminate]. }
  rewrite outputOptsFromStr_closed.
  destruct (cutEq columns) as [[t a]|] eqn:Hcut; intro H; inversion H; subst.
  - split; [discriminate|]. intros _.
    destruct (PrintersMoreFacts.cutEq_join _ _ _ Hcut) as [-> Hno].
    exists resources, schema, t, a. auto.
  - split; [reflexivity|discriminate].
Qed.

Lemma updatePrintOptionsForOpenAPI_sound_witness :
  exists resources schema formatType argument,
    OpenAPISchema MoreSamples.sampleOpenAPI = Ok resources
    /\ LookupResource MoreSamples.sampleOpenAPI resources Samples.podGVK
       = Some schema
    /\ GetPrintColumns MoreSamples.sampleOpenAPI schema
       = Some (formatType ++ "=" ++ argument)
    /\ noEq formatType = true
    /\ withFormat (Samples.sampleOptions "" "")
         "custom-columns" "NAME:.metadata.name"
       = withFormat (Samples.sampleOptions "" "") formatType argument.
Proof.
  apply (proj2 (updatePrintOptionsForOpenAPI_sound MoreSamples.sampleOpenAPI
                  Samples.podGVK (Samples.sampleOptions "" "")
                  (withFormat (Samples.sampleOptions "" "")
                     "custom-columns" "NAME:.metadata.name")
                  true eq_refl)).
  reflexivity.
Defined.

(** X13 ([outputOptsFromStr] followed by [GetStandardPrinter]).  Print
    columns of the form [custom-columns=spec] resolve to the custom-columns
    printer of [spec] over the first decoder, with the headers setting of
    the options they were stored in; a spec that does not parse is the
    error of the resolution. *)
Theorem print_columns_resolve_to_custom_columns (E : Printers.Env)
  (typer : Printers.ObjectTyper) (encoder : Printers.Encoder)
  (d : Printers.Decoder) (ds : list Printers.Decoder)
  (printOpts : Printers.PrintOptions) (spec : string) :
  Printers.GetStandardPrinter E typer encoder (d :: ds)
    (snd (outputOptsFromStr ("custom-columns=" ++ spec) printOpts))
  = match Printers.parseColumnsSpec E spec with
    | Err err => Fail err
    | Ok columns =>
        Ret (Some (Printers.CustomColumnsPrinter columns d
                     (Printers.NoHeaders printOpts)))
    end.
Proof.
  rewrite outputOptsFromStr_closed.
  change (cutEq ("custom-columns=" ++ spec))
    with (cutEq ("custom-columns" ++ "=" ++ spec)).
  rewrite PrintersMoreFacts.cutEq_app by reflexivity.
  cbn [snd]. unfold Printers.GetStandardPrinter, withFormat.
  cbn [Printers.OutputFormatType Printers.OutputFormatArgument
       Printers.AllowMissingKeys Printers.NoHeaders].
  replace (Printers.mem_string "custom-columns" ["json"; "yaml"])
    with false by reflexivity.
  replace ("custom-columns" =? "name")%string with false by reflexivity.
  replace (Printers.mem_string "custom-columns"
             ["templatefile"; "go-template-file"; "jsonpath-file"])
    with false by reflexivity.
  replace (Printers.mem_string "custom-columns"
             ["template"; "go-template"; "jsonpath"])
    with false by reflexivity.
  replace ("custom-columns" =? "custom-columns")%string
    with true by reflexivity.
  unfold Printers.NewCustomColumnsPrinterFromSpec.
  now destruct (Printers.parseColumnsSpec E spec).
Qed.

(** X14 ([GetOptions.Validate]).  The flags are accepted exactly when a
    raw request, if any, comes with no watch, selector, export or output
    flag and parses as a request URI, and the labels column, if asked for,
    comes with the table output, default or wide. *)
Theorem Validate_accepts_iff {f : Factory} (options : GetOptions f)
  (cmd : ValidateInput) :
  Validate options cmd = None
  <-> ((opt_Raw options = ""
        \/ (Watch options = false /\ WatchOnly options = false
            /\ LabelSelector cmd = "" /\ Export cmd = false
            /\ flag_output cmd = ""
            /\ ParseRequestURI cmd (opt_Raw options) = None))
       /\ (flag_show_labels cmd = true ->
           flag_output cmd = "" \/ flag_output cmd = "wide")).
Proof.
  assert (Hlt : forall s, Nat.ltb 0 (String.length s) = false <-> s = "").
  { intros [|c s]; simpl; split; intro H; try reflexivity; discriminate. }
  assert (Hshow :
    (if flag_show_labels cmd
     then if negb (flag_output cmd =? "")%string
             && negb (flag_output cmd =? "wide")%string
          then Some (Errorf "--show-labels option cannot be used with %s printer"
                       [ArgString (flag_output cmd)])
          else None
     else None) = None
    <-> (flag_show_labels cmd = true ->
         flag_output cmd = "" \/ flag_output cmd = "wide")).
  { destruct (flag_show_labels cmd); [|split; [discriminate|reflexivity]].
    destruct (String.eqb_spec (flag_output cmd) "") as [-> | H1];
      [split; auto|].
    destruct (String.eqb_spec (flag_output cmd) "wide") as [-> | H2];
      [split; auto|].
    simpl. split; [discriminate|]. intro H.
    destruct (H eq_refl); contradiction. }
  unfold Validate.
  destruct (Nat.ltb 0 (String.length (opt_Raw options))) eqn:Hraw.
  2:{ apply Hlt in Hraw. rewrite Hshow. tauto. }
  assert (Hne : opt_Raw options <> "").
  { intro H. apply Hlt in H. congruence. }
  destruct (Watch options).
  { simpl. split; [discriminate|]. intros [[? | [? _]] _];
      [contradiction|discriminate]. }
  destruct (WatchOnly options).
  { simpl. split; [discriminate|]. intros [[? | [_ [? _]]] _];
      [contradiction|discriminate]. }
  destruct (Nat.ltb 0 (String.length (LabelSelector cmd))) eqn:Hsel.
  { simpl. split; [discriminate|].
    intros [[? | [_ [_ [Hs _]]]] _]; [contradiction|].
    apply Hlt in Hs. congruence. }
  apply Hlt in Hsel.
  destruct (Export cmd).
  { simpl. split; [discriminate|].
    intros [[? | [_ [_ [_ [? _]]]]] _]; [contradiction|discriminate]. }
  cbn [orb].
  destruct (Nat.ltb 0 (String.length (flag_output cmd))) eqn:Hout.
  { split; [discriminate|].
    intros [[? | [_ [_ [_ [_ [Ho _]]]]]] _]; [contradiction|].
    apply Hlt in Ho. congruence. }
  apply Hlt in Hout.
  destruct (ParseRequestURI cmd (opt_Raw options)) as [err|] eqn:Hparse.
  { split; [discriminate|].
    intros [[? | [_ [_ [_ [_ [_ ?]]]]]] _]; [contradiction|discriminate]. }
  rewrite Hshow. split.
  - intro H. split; [|assumption]. right. auto 10.
  - intros [_ H]. assumption.
Qed.

(** X15 (the function literal that [Complete] stores in [PrintObj]).  It
    dereferences [info.Mapping] after a nil test that guards only the
    assignment before it: with a human-readable printer and [ShowKind]
    set, an info whose mapping is nil makes the call panic, and these are
    the only panics.  When it does print with a kind, the kind is the short
    form of the mapping's resource or else the resource itself, never the
    default none, and the object printed is the internal one. *)
Theorem completePrintObj_nil_mapping {R : Type} (isHuman ShowKind : bool)
  (ResourceShortFormFor : string -> option string) (obj : Object R)
  (info : option (InfoRef R)) :
  (completePrintObj isHuman ShowKind ResourceShortFormFor obj info = Panic
   <-> (isHuman = true /\ ShowKind = true
        /\ exists i, info = Some i /\ ir_Mapping i = None))
  /\ (forall kind obj',
         completePrintObj isHuman ShowKind ResourceShortFormFor obj info
         = Ret (HumanPrintObj (Some kind) obj') ->
         exists i mapping,
           info = Some i /\ ir_Mapping i = Some mapping
           /\ obj' = ir_AsInternal i
           /\ kind = match ResourceShortFormFor (Resource mapping) with
                     | Some alias => alias
                     | None => Resource mapping
                     end)
  /\ (isHuman = false \/ info = None ->
      completePrintObj isHuman ShowKind ResourceShortFormFor obj info
      = Ret (PlainPrintObj obj)).
Proof.
  unfold completePrintObj. split; [|split].
  - destruct isHuman.
    2:{ split; [discriminate|]. intros [? _]. discriminate. }
    destruct info as [i|].
    2:{ split; [discriminate|]. intros [_ [_ [i [? _]]]]. discriminate. }
    destruct ShowKind.
    2:{ split; [discriminate|]. intros [_ [? _]]. discriminate. }
    destruct (ir_Mapping i) as [mapping|] eqn:Hm.
    + split; [discriminate|].
      intros [_ [_ [i' [Hi Hnil]]]]. inversion Hi. subst. congruence.
    + split; [|reflexivity]. intros _. repeat split. now exists i.
  - intros kind obj'.
    destruct isHuman; [|discriminate].
    destruct info as [i|]; [|discriminate].
    destruct ShowKind; [|discriminate].
    destruct (ir_Mapping i) as [mapping|] eqn:Hm; [|discriminate].
    intro H. inversion H. exists i, mapping. auto.
  - intros [-> | ->]; [reflexivity|]. now destruct isHuman.
Qed.

Lemma Validate_accepts_iff_witness :
  Validate (Samples.sessionOptions [] false)
    (MoreSamples.sampleValidateInput "wide" true) = None
  /\ Validate (Samples.sessionOptions [] false)
       (MoreSamples.sampleValidateInput "json" true) <> None.
Proof.
  split.
  - apply (proj2 (Validate_accepts_iff (Samples.sessionOptions [] false)
                    (MoreSamples.sampleValidateInput "wide" true))).
    split; [now left|]. intros _. now right.
  - intro H.
    apply (proj1 (Validate_accepts_iff (Samples.sessionOptions [] false)
                    (MoreSamples.sampleValidateInput "json" true))) in H.
    destruct H as [_ H]. destruct (H eq_refl); discriminate.
Defined.

Lemma completePrintObj_nil_mapping_witness :
  completePrintObj true true (fun _ => None) (Dynamic "pod-a")
    (Some MoreSamples.unmappedInfo) = Panic.
Proof.
  apply (proj2 (proj1 (completePrintObj_nil_mapping true true (fun _ => None)
                         (Dynamic "pod-a") (Some MoreSamples.unmappedInfo)))).
  repeat split. now exists MoreSamples.unmappedInfo.
Defined.

End GetMoreFacts.

(** ** Further properties of [Run], [printGeneric] and [watch] *)

Module GetRunFacts.

Import Get GetSpec MoreSpec.

Section Dispatch.

Variable f : Factory.
Variable options : GetOptions f.

(** X16 ([GetOptions.Run] and [GetOptions.raw]).  A raw request takes
    precedence over every other mode, the watch flags included: the body
    of the response is copied to the output in one piece, and the error of
    the copy is the result unless it is nil or [io.EOF], for which the
    result is nil; when the request cannot be opened its error is returned
    and nothing is written. *)
Theorem Run_raw_takes_precedence (st : St f) :
  opt_Raw options <> "" ->
  Run f options st = raw f options st
  /\ (forall body err,
         rawStream f (opt_Raw options) = Ok (body, err) ->
         Run f options st
         = ({| printerState := printerState st;
               log := (log st ++ [Copy Out body])%list |},
            match err with
            | Some e => if is_io_EOF e then Ret tt else Fail e
            | None => Ret tt
            end))
  /\ (forall body,
         rawStream f (opt_Raw options) = Ok (body, Some io_EOF) ->
         snd (Run f options st) = Ret tt)
  /\ (forall e,
         rawStream f (opt_Raw options) = Err e ->
         Run f options st = (st, Fail e)).
Proof.
  intro Hraw.
  assert (HRun : Run f options st = raw f options st).
  { unfold Run. destruct (opt_Raw options); [contradiction|reflexivity]. }
  rewrite HRun. split; [reflexivity|]. unfold raw, bind. split; [|split].
  - intros body err ->. simpl. destruct err as [e|]; [|reflexivity].
    now destruct (is_io_EOF e).
  - intros body ->. reflexivity.
  - intros e ->. reflexivity.
Qed.

End Dispatch.

Lemma Run_raw_takes_precedence_witness :
  (log (fst (Run (MoreSamples.reversingFactory [])
               (MoreSamples.sortedOptions [] "/eof" true)
               (@start (MoreSamples.reversingFactory []) 0)))
   = [Copy Out "{}"]
   /\ snd (Run (MoreSamples.reversingFactory [])
             (MoreSamples.sortedOptions [] "/eof" true)
             (@start (MoreSamples.reversingFactory []) 0))
      = Ret tt)
  /\ snd (Run (MoreSamples.reversingFactory [])
            (MoreSamples.sortedOptions [] "/reset" true)
            (@start (MoreSamples.reversingFactory []) 0))
     = Fail (Errorf "connection reset by peer" []).
Proof.
  split.
  - rewrite (proj1 (proj2 (Run_raw_takes_precedence
                             (MoreSamples.reversingFactory [])
                             (MoreSamples.sortedOptions [] "/eof" true)
                             (@start (MoreSamples.reversingFactory []) 0)
                             ltac:(discriminate)))
               "{}" (Some io_EOF) eq_refl).
    split; reflexivity.
  - rewrite (proj1 (proj2 (Run_raw_takes_precedence
                             (MoreSamples.reversingFactory [])
                             (MoreSamples.sortedOptions [] "/reset" true)
                             (@start (MoreSamples.reversingFactory []) 0)
                             ltac:(discriminate)))
               "{" (Some (Errorf "connection reset by peer" [])) eq_refl).
    reflexivity.
Defined.

Section Decode.

Variable f : Factory.
Variable options : GetOptions f.

(** X17 ([GetOptions.decodeIntoTable] and the first loop of [Run]).  The
    loop keeps the number, the order and the mappings of the infos.  With
    server-side printing, an object of kind Table whose encoding
    unmarshals is replaced by the decoded table; in every other case
    (no server-side printing, another kind, an encoding error, an
    unmarshalling error) the info is left as it was, and the failure is
    not an error of the run. *)
Theorem decodeInfos_keeps_infos (infos : list (Info (Raw f))) :
  List.length (decodeInfos f options infos) = List.length infos
  /\ map Mapping (decodeInfos f options infos) = map Mapping infos
  /\ (forall ix info,
         nth_error infos ix = Some info ->
         (forall b table,
             ServerPrint options = true ->
             objectKind f (info_Object info) = "Table" ->
             Encode f (info_Object info) = Ok b ->
             Unmarshal f b = Ok table ->
             nth_error (decodeInfos f options infos) ix
             = Some {| info_Object := TableObject table;
                       Mapping := Mapping info |})
         /\ (ServerPrint options = false
             \/ objectKind f (info_Object info) <> "Table"
             \/ (exists e, Encode f (info_Object info) = Err e)
             \/ (exists b e, Encode f (info_Object info) = Ok b
                             /\ Unmarshal f b = Err e) ->
             nth_error (decodeInfos f options infos) ix = Some info)).
Proof.
  unfold decodeInfos. split; [apply length_map|]. split.
  - rewrite map_map. apply map_ext. intro info.
    destruct (ServerPrint options); [|reflexivity].
    now destruct (decodeIntoTable f (info_Object info)).
  - intros ix info Hix. rewrite nth_error_map, Hix. cbn [option_map].
    unfold decodeIntoTable. split.
    + intros b table -> Hk He Hu. rewrite Hk, He, Hu. reflexivity.
    + intros [Hs | [Hk | [[e He] | [b [e [He Hu]]]]]].
      * now rewrite Hs.
      * destruct (ServerPrint options); [|reflexivity].
        destruct (String.eqb_spec (objectKind f (info_Object info)) "Table");
          [contradiction|reflexivity].
      * destruct (ServerPrint options); [|reflexivity].
        rewrite He. now destruct (negb _).
      * destruct (ServerPrint options); [|reflexivity].
        rewrite He, Hu. now destruct (negb _).
Qed.

End Decode.

Lemma decodeInfos_keeps_infos_witness :
  nth_error
    (decodeInfos (MoreSamples.serverPrintFactory MoreSamples.serverItems)
       (MoreSamples.serverPrintOptions MoreSamples.serverItems)
       MoreSamples.serverItems) 0
  = Some {| info_Object := TableObject {| Rows := [["table-pods"]] |};
            Mapping := Samples.sampleMapping Samples.podGVK true |}
  /\ nth_error
       (decodeInfos (MoreSamples.serverPrintFactory MoreSamples.serverItems)
          (MoreSamples.serverPrintOptions MoreSamples.serverItems)
          MoreSamples.serverItems) 2
     = Some (Samples.item "table-broken").
Proof.
  split.
  - apply (proj1 (proj2 (proj2 (decodeInfos_keeps_infos
                                  (MoreSamples.serverPrintFactory
                                     MoreSamples.serverItems)
                                  (MoreSamples.serverPrintOptions
                                     MoreSamples.serverItems)
                                  MoreSamples.serverItems))
                    0 (Samples.item "table-pods") eq_refl)
             "table-pods" {| Rows := [["table-pods"]] |});
      reflexivity.
  - apply (proj2 (proj2 (proj2 (decodeInfos_keeps_infos
                                  (MoreSamples.serverPrintFactory
                                     MoreSamples.serverItems)
                                  (MoreSamples.serverPrintOptions
                                     MoreSamples.serverItems)
                                  MoreSamples.serverItems))
                    2 (Samples.item "table-broken") eq_refl)).
    right. right. right.
    exists "table-broken", (Errorf "invalid character" []).
    split; reflexivity.
Defined.

Section Session.

Variable f : Factory.
Variable options : GetOptions f.

Lemma list_pairs_ind {A : Type} (P : list A -> Prop) :
  P [] -> (forall a, P [a]) -> (forall a b l, P l -> P (a :: b :: l)) ->
  forall l, P l.
Proof.
  intros Hnil Hone Htwo l.
  assert (H : P l /\ forall a, P (a :: l)).
  { induction l as [|b l [IH1 IH2]]; [now split|].
    split; [apply IH2|]. intro a. now apply Htwo. }
  apply H.
Qed.

Lemma flushedCalls_length (l : list (Effect f)) :
  flushedCalls l -> List.length l = 2 * List.length (printed l).
Proof.
  induction l as [|e|e1 e2 l IH] using list_pairs_ind; simpl.
  - reflexivity.
  - now destruct e.
  - destruct e1; try tauto. destruct e2; try tauto. destruct w; try tauto.
    intro H. simpl. rewrite (IH H). lia.
Qed.

(** The loop appends pairs of a flush and a call on the tab writer. *)
Lemma printLoop_flushed (items : list (option (Info (Raw f))))
  (allErrs : list error) (n : nat) (st : St f) :
  exists l,
    log (fst (printLoop options items allErrs n st)) = (log st ++ l)%list
    /\ flushedCalls l.
Proof.
  revert allErrs n st.
  induction items as [|x items IH]; intros allErrs n st; simpl.
  - exists []. now rewrite app_nil_r.
  - destruct x as [info|]; [|exists []; now rewrite app_nil_r].
    destruct (isEmptyTable (info_Object info)); [apply IH|].
    unfold bind. simpl. unfold callPrinter. simpl.
    destruct (PrintObj options _ _ _) as [ps' [e|]]; simpl;
      match goal with |- context [printLoop options items ?a ?m ?s] =>
        destruct (IH a m s) as [l [E F]] end;
      eexists (Flush :: CallPrintObj (info_Object info) TabWriter _ :: l);
      (split; [rewrite E; simpl; now rewrite <- !app_assoc | exact F]).
Qed.

(** X18 (the print loop of [Run] and its tail).  The sink is flushed
    before every [PrintObj] call and every call writes to the tab writer:
    the log of a one-shot run is a sequence of pairs, a flush and a call,
    followed by one last flush and, at most, the line that no resources
    were found; a run that panics on an index out of range stops after the
    pairs. *)
Theorem Run_flushes_before_each_print
  (items : list (option (Info (Raw f)))) (st : St f) :
  OneShot f options items ->
  exists l tail,
    log (fst (Run f options st)) = (log st ++ l ++ tail)%list
    /\ flushedCalls l
    /\ List.length l = 2 * List.length (printed l)
    /\ match snd (Run f options st) with
       | Panic => tail = []
       | _ => tail = [Flush] \/ tail = [Flush; noResourcesFound]
       end.
Proof.
  intro Hone. rewrite (GetFacts.Run_printSession f options items st Hone).
  pose proof flushedCalls_length as Hlen.
  destruct (printLoop_flushed items [] 0 st) as [l [E F]].
  destruct (printLoop options items [] 0 st) as [st1 [[allErrs n] | e | ]] eqn:Hloop.
  - rewrite (GetFacts.printSession_after_loop f options items st st1 allErrs n Hloop).
    simpl in E. simpl. rewrite E.
    exists l, (Flush :: (if Nat.eqb n 0 && negb (IgnoreNotFound options)
                         then [noResourcesFound] else [])).
    split; [now rewrite <- app_assoc|]. split; [exact F|].
    split; [now apply Hlen|].
    destruct (Nat.eqb n 0 && negb (IgnoreNotFound options));
      destruct (NewAggregate allErrs); auto.
  - exfalso. clear - Hloop. revert Hloop. generalize (@nil error) 0 st.
    induction items as [|x items IH]; intros a m s; simpl; [discriminate|].
    destruct x as [info|]; [|discriminate].
    destruct (isEmptyTable (info_Object info)); [apply IH|].
    unfold bind. simpl. unfold callPrinter. simpl.
    destruct (PrintObj options _ _ _) as [ps' [e'|]]; simpl; apply IH.
  - unfold printSession, bind. rewrite Hloop. simpl in E. simpl.
    exists l, []. rewrite app_nil_r.
    split; [exact E|]. split; [exact F|]. split; [now apply Hlen|reflexivity].
Qed.

Lemma displayed_None (infos : list (Info (Raw f))) :
  displayed infos None = map Some infos.
Proof.
  unfold displayed.
  induction infos as [|info infos IH]; simpl; [reflexivity|].
  f_equal. rewrite <- seq_shift, map_map. exact IH.
Qed.





End Session.

Lemma Run_flushes_before_each_print_witness :
  exists l tail,
    log (fst (Run (Samples.sessionFactory Samples.threeItems)
                (Samples.sessionOptions Samples.threeItems false)
                (@start (Samples.sessionFactory Samples.threeItems) 0)))
    = (log (@start (Samples.sessionFactory Samples.threeItems) 0) ++ l ++ tail)%list
    /\ flushedCalls l
    /\ List.length l = 2 * List.length (printed l)
    /\ match snd (Run (Samples.sessionFactory Samples.threeItems)
                    (Samples.sessionOptions Samples.threeItems false)
                    (@start (Samples.sessionFactory Samples.threeItems) 0)) with
       | Panic => tail = []
       | _ => tail = [Flush] \/ tail = [Flush; noResourcesFound]
       end.
Proof.
  apply (Run_flushes_before_each_print (Samples.sessionFactory Samples.threeItems)
           (Samples.sessionOptions Samples.threeItems false)
           (displayed Samples.threeItems None)).
  apply GetFacts.OneShot_session.
Defined.


Section Generic.

Variable f : Factory.
Variable options : GetOptions f.

Lemma atMostOneCall_silent {A : Type} (m : M f A) :
  (forall st, fst (m st) = st) -> atMostOneCall m.
Proof.
  intros H st. exists []. rewrite H, app_nil_r. auto.
Qed.

Lemma atMostOneCall_bind_silent {A B : Type} (m : M f A) (k : A -> M f B) :
  (forall st, fst (m st) = st) -> (forall a, atMostOneCall (k a)) ->
  atMostOneCall (bind m k).
Proof.
  intros Hm Hk st. unfold bind. specialize (Hm st).
  destruct (m st) as [st' [a|e|]]; simpl in Hm; subst st'.
  - apply Hk.
  - exists []. simpl. rewrite app_nil_r. auto.
  - exists []. simpl. rewrite app_nil_r. auto.
Qed.

Lemma atMostOneCall_print (printer : ResourcePrinter f) (obj : Object (Raw f))
  (k : option error -> option error) :
  atMostOneCall (err <- callPrinter printer obj Out ;; returnError (k err)).
Proof.
  intro st. unfold bind, callPrinter.
  destruct (printer (printerState st) obj) as [ps' err].
  exists [CallPrintObj obj Out err]. split.
  - destruct (k err); reflexivity.
  - right. now exists obj, err.
Qed.

Lemma orReturn_silent {A : Type} (r : result A) (st : St f) :
  fst (orReturn r st) = st.
Proof. now destruct r. Qed.

Lemma returnError_silent (err : option error) (st : St f) :
  fst (returnError err st) = st.
Proof. now destruct err. Qed.

(** X20 ([GetOptions.printGeneric]).  The generic path hands at most one
    object to the printer, on the output and not on the tab writer, and
    writes nothing else.  An error of the fetch with a single item implied
    is returned at once; with no infos and ignore-not-found set nothing is
    printed; and with a single item implied, no infos and ignore-not-found
    unset, the function indexes [infos[0]] and panics. *)
Theorem printGeneric_prints_at_most_once (r : BuilderResult (Raw f)) (st : St f) :
  (exists l,
      log (fst (printGeneric f options r st)) = (log st ++ l)%list
      /\ (l = [] \/ exists obj err, l = [CallPrintObj obj Out err]))
  /\ (forall printer infos e,
         PrinterForOptions f = Ok printer ->
         r_IntoSingleItemImplied r = (true, (infos, Some e)) ->
         printGeneric f options r st = (st, Fail e))
  /\ (forall singleItemImplied err,
         r_IntoSingleItemImplied r = (singleItemImplied, ([], err)) ->
         IgnoreNotFound options = true ->
         fst (printGeneric f options r st) = st)
  /\ (forall printer,
         PrinterForOptions f = Ok printer ->
         r_IntoSingleItemImplied r = (true, ([], None)) ->
         IgnoreNotFound options = false ->
         printGeneric f options r st = (st, Panic)).
Proof.
  split; [|split; [|split]].
  - revert st. change (atMostOneCall (printGeneric f options r)).
    unfold printGeneric.
    apply atMostOneCall_bind_silent; [apply orReturn_silent|]. intro printer.
    destruct (r_IntoSingleItemImplied r) as [single [infos err]].
    apply atMostOneCall_bind_silent.
    { intro st. destruct err; [destruct single|]; reflexivity. }
    intro errs.
    destruct (Nat.eqb (List.length infos) 0 && IgnoreNotFound options).
    { apply atMostOneCall_silent, returnError_silent. }
    apply atMostOneCall_bind_silent.
    { intro st. destruct (negb single || Nat.ltb 1 (List.length infos));
        [apply orReturn_silent|]. now destruct infos. }
    intro obj.
    destruct (IsListType f obj).
    + destruct (ExtractList f obj) as [items [e|]];
        [now apply atMostOneCall_silent|].
      destruct (displayList f obj items) as [lst|e|];
        try now apply atMostOneCall_silent.
      apply (atMostOneCall_print printer lst
               (fun err => Reduce f (Flatten f (NewAggregate
                  match err with Some e => (errs ++ [e])%list | None => errs end)))).
    + apply (atMostOneCall_print printer obj
               (fun err => Reduce f (Flatten f (NewAggregate
                  match err with Some e => (errs ++ [e])%list | None => errs end)))).
  - intros printer infos e Hp Hr. unfold printGeneric. rewrite Hp, Hr.
    reflexivity.
  - intros single err Hr Hignore. unfold printGeneric. rewrite Hr, Hignore.
    unfold bind.
    destruct (PrinterForOptions f) as [printer|e]; [|reflexivity]. simpl.
    destruct err as [e|]; [destruct single|]; simpl;
      try reflexivity; apply returnError_silent.
  - intros printer Hp Hr Hignore. unfold printGeneric.
    rewrite Hp, Hr, Hignore. reflexivity.
Qed.

End Generic.

Lemma printGeneric_prints_at_most_once_witness :
  printGeneric (Samples.sessionFactory []) (Samples.sessionOptions [] false)
    MoreSamples.impliedEmpty (@start (Samples.sessionFactory []) 0)
  = (@start (Samples.sessionFactory []) 0, Panic).
Proof.
  apply (proj2 (proj2 (proj2 (printGeneric_prints_at_most_once
                                (Samples.sessionFactory [])
                                (Samples.sessionOptions [] false)
                                MoreSamples.impliedEmpty
                                (@start (Samples.sessionFactory []) 0))))
           Samples.samplePrinter);
    reflexivity.
Defined.

Section WatchMore.

Variable f : Factory.
Variable options : GetOptions f.

(** The loop over the stream always hands back to [watch], and what it
    appends are calls on the output. *)
Lemma Until_returns (isList : bool) (printer : ResourcePrinter f)
  (mapping : RESTMapping (Raw f)) (w : list (Event (Raw f))) (first : bool)
  (lastEvent : option (Event (Raw f))) (st : St f) :
  exists st' r l,
    Until (watchCondition isList printer mapping) first w lastEvent st
    = (st', Ret r)
    /\ log st' = (log st ++ l)%list
    /\ Forall (isCallTo Out) l.
Proof.
  revert first lastEvent st.
  induction w as [|event w IH]; intros first lastEvent st; simpl.
  - exists st, (lastEvent, Some ErrWatchClosed), [].
    rewrite app_nil_r. auto.
  - unfold bind at 1. unfold watchCondition at 1.
    destruct (negb isList && first).
    + simpl. apply IH.
    + unfold bind at 1, callPrinter.
      destruct (printer (printerState st) _) as [ps' [e|]]; simpl.
      * eexists _, _, [_]. split; [reflexivity|].
        split; [reflexivity|]. repeat constructor.
      * match goal with |- context [Until _ first w (Some event) ?s] =>
          destruct (IH first (Some event) s) as [st' [r [l [E [L F]]]]]
        end.
        exists st', r, (CallPrintObj
                          (attemptToConvertToInternal (ev_Object event) mapping
                             (internalGVOf mapping)) Out None :: l).
        split; [exact E|]. split.
        -- rewrite L. simpl. now rewrite <- app_assoc.
        -- constructor; [reflexivity | exact F].
Qed.

(** The loop over the current objects when the printer rejects one. *)
Lemma printCurrent_rejected (printer : ResourcePrinter f)
  (mapping : RESTMapping (Raw f)) (objs : list (Object (Raw f))) (st : St f) :
  ~ printsAll printer (printerState st) (map (toInternal mapping) objs) ->
  exists st' e l,
    printCurrent printer mapping objs st = (st', Fail (unableToOutput e))
    /\ log st' = (log st ++ l)%list
    /\ Forall (isCallTo TabWriter) l
    /\ In e (printErrors l).
Proof.
  revert st. induction objs as [|obj objs IH]; intros st Hnot; simpl in *.
  - now destruct Hnot.
  - unfold bind, callPrinter. fold (toInternal mapping obj).
    unfold toInternal in *.
    destruct (printer (printerState st) _) as [ps' [e|]] eqn:Hp; simpl in *.
    + eexists _, e, [_]. split; [reflexivity|]. split; [reflexivity|].
      split; [repeat constructor|]. simpl. auto.
    + match goal with |- context [printCurrent printer mapping objs ?s] =>
        destruct (IH s) as [st' [e [l [E [L [F I]]]]]]
      end.
      { simpl. intro H. apply Hnot. now split. }
      exists st', e, (CallPrintObj
                        (attemptToConvertToInternal obj mapping
                           (internalGVOf mapping)) TabWriter None :: l).
      split; [exact E|]. split.
      * rewrite L. simpl. now rewrite <- app_assoc.
      * split; [constructor; [reflexivity | exact F]|]. simpl. exact I.
Qed.

(** X21 ([GetOptions.watch], its return value).  Once the current objects
    are printed the function returns nil whatever happens on the stream:
    the value of [intr.Run] is dropped, so neither the end of the stream
    nor an error of a [PrintObj] call on an event is returned.  An error of
    a [PrintObj] call on a current object is returned, wrapped, before the
    tab writer is flushed and before the stream is opened. *)
Theorem watch_returns_nil_once_streaming (mapping : RESTMapping (Raw f))
  (printer : ResourcePrinter f) (obj : Object (Raw f)) (rv : string)
  (w : list (Event (Raw f))) (st : St f) :
  Streaming f mapping printer obj rv w ->
  (printsAll printer (printerState st)
     (map (toInternal mapping) (snapshot f options obj)) ->
   snd (watch f options st) = Ret tt
   /\ exists l,
       log (fst (watch f options st))
       = (log st
          ++ map (printedTo TabWriter)
               (map (toInternal mapping) (snapshot f options obj))
          ++ (if WatchOnly options then [] else [Flush])
          ++ OpenWatch rv :: l)%list
       /\ Forall (isCallTo Out) l)
  /\ (~ printsAll printer (printerState st)
          (map (toInternal mapping) (snapshot f options obj)) ->
      exists e l,
        snd (watch f options st) = Fail (unableToOutput e)
        /\ log (fst (watch f options st)) = (log st ++ l)%list
        /\ Forall (isCallTo TabWriter) l
        /\ In e (printErrors l)).
Proof.
  intros Hs.
  destruct Hs as [info infos printer obj rv w Herr Hinfos Hkind Hprinter Hobj Hrv Hw].
  assert (Hrv' : forall s : St f,
             (if IsListType f obj
              then orReturn (ResourceVersion (Mapping info) obj)
              else ret "0") s = (s, Ret rv)).
  { intro s. destruct (IsListType f obj); [rewrite Hrv|]; simpl; [reflexivity|].
    now inversion Hrv. }
  assert (Hwatch : watch f options st
    = ((if negb (WatchOnly options) then
          let objsToPrint :=
            if IsListType f obj then fst (ExtractList f obj) else [obj] in
          printCurrent printer (Mapping info) objsToPrint ;;;
          emit Flush
        else ret tt) ;;;
       emit (OpenWatch rv) ;;;
       w' <- orReturn (r_Watch (DoWatch f) rv) ;;
       _ <- Until (watchCondition (IsListType f obj) printer (Mapping info))
              true w' None ;;
       ret tt) st).
  { unfold watch. rewrite Herr, Hinfos.
    unfold bind at 1. simpl. unfold bind at 1. simpl. unfold bind at 1.
    rewrite (GetFacts.checkSingleKind_same f info infos st Hkind).
    unfold watchInfos. rewrite Hprinter, Hobj.
    unfold bind at 1. simpl. unfold bind at 1. simpl. unfold bind at 1.
    now rewrite Hrv'. }
  rewrite Hwatch. clear Hwatch. rewrite Hw.
  unfold snapshot. split.
  - intro Hall.
    match goal with |- snd ?X = Ret tt /\ _ =>
      cut (exists st' l,
              X = (st', Ret tt)
              /\ log st'
                 = (log st
                    ++ map (printedTo TabWriter)
                         (map (toInternal (Mapping info))
                            (if WatchOnly options then []
                             else if IsListType f obj
                                  then fst (ExtractList f obj) else [obj]))
                    ++ (if WatchOnly options then [] else [Flush])
                    ++ OpenWatch rv :: l)%list
              /\ Forall (isCallTo Out) l)
    end.
    { intros [st' [l [E [L F]]]]. rewrite E. simpl.
      split; [reflexivity|]. exists l. split; assumption. }
    destruct (WatchOnly options); simpl.
    + unfold bind at 1. simpl. unfold bind at 1. simpl.
      unfold bind at 1. simpl. unfold bind at 1.
      match goal with |- context [Until _ true w None ?s] =>
        destruct (Until_returns (IsListType f obj) printer (Mapping info)
                    w true None s) as [st' [r [l [E [L F]]]]]
      end.
      rewrite E. simpl. exists st', l. split; [reflexivity|].
      split; [|exact F]. rewrite L. simpl.
      now rewrite <- app_assoc.
    + unfold bind at 1. unfold bind at 1. unfold bind at 1.
      rewrite (GetFacts.printCurrent_all f printer (Mapping info) _ st Hall).
      simpl. unfold bind at 1. simpl. unfold bind at 1. simpl.
      match goal with |- context [Until _ true w None ?s] =>
        destruct (Until_returns (IsListType f obj) printer (Mapping info)
                    w true None s) as [st' [r [l [E [L F]]]]]
      end.
      rewrite E. simpl. exists st', l. split; [reflexivity|].
      split; [|exact F]. rewrite L. simpl.
      rewrite <- !app_assoc. reflexivity.
  - intro Hnot.
    match goal with |- exists e l, snd ?X = _ /\ _ =>
      cut (exists st' e l,
              X = (st', Fail (unableToOutput e))
              /\ log st' = (log st ++ l)%list
              /\ Forall (isCallTo TabWriter) l
              /\ In e (printErrors l))
    end.
    { intros [st' [e [l [E [L [F I]]]]]]. rewrite E. simpl.
      exists e, l. auto. }
    destruct (WatchOnly options); simpl in *.
    + now destruct Hnot.
    + destruct (printCurrent_rejected printer (Mapping info) _ st Hnot)
        as [st' [e [l [E [L [F I]]]]]].
      unfold bind at 1. unfold bind at 1. rewrite E. simpl.
      exists st', e, l. auto.
Qed.

(** X22 (the kind check of [GetOptions.watch]).  The number in the
    mixed-kinds error is one more than the number of infos whose
    group-version-kind differs from that of the first info: it counts
    infos, not kinds. *)
Theorem mixed_kinds_error_counts_infos (info : Info (Raw f))
  (infos : list (Info (Raw f))) (st : St f) :
  otherKinds info infos <> [] ->
  checkSingleKind (info :: infos) st
  = (st, Fail (mixedKinds (1 + List.length (otherKinds info infos)))).
Proof.
  intro Hne.
  assert (Hcount : forall l n,
    fold_left
      (fun uniqueGVKs i =>
         if negb (GroupVersionKind_eqb (mapping_GroupVersionKind (Mapping i))
                    (mapping_GroupVersionKind (Mapping info)))
         then S uniqueGVKs else uniqueGVKs) l n
    = n + List.length (otherKinds info l)).
  { induction l as [|i l IH]; intro n; simpl; [lia|].
    rewrite IH.
    destruct (negb (GroupVersionKind_eqb _ _)); simpl; lia. }
  assert (Hself : GroupVersionKind_eqb (mapping_GroupVersionKind (Mapping info))
                    (mapping_GroupVersionKind (Mapping info)) = true)
    by now apply GetFacts.GroupVersionKind_eqb_eq.
  unfold checkSingleKind.
  destruct infos as [|i infos]; [now destruct Hne|].
  change (Nat.ltb 1 (List.length (info :: i :: infos))) with true.
  cbv iota. unfold countGVKs. rewrite Hcount.
  assert (Hother : otherKinds info (info :: i :: infos)
                   = otherKinds info (i :: infos)).
  { unfold otherKinds at 1. cbn [filter]. now rewrite Hself. }
  rewrite Hother.
  destruct (List.length (otherKinds info (i :: infos))) as [|k] eqn:Hk.
  - destruct (otherKinds info (i :: infos)); [now destruct Hne|discriminate].
  - reflexivity.
Qed.

(** X23 ([GetOptions.watch] before the stream).  An error of the builder
    or of its infos is returned with nothing printed and no stream opened;
    and when the builder answers with no infos and no error, the function
    indexes [infos[0]] and panics. *)
Theorem watch_without_infos (st : St f) :
  (forall e, r_Err (DoWatch f) = Some e -> watch f options st = (st, Fail e))
  /\ (forall infos e,
         r_Err (DoWatch f) = None ->
         r_Infos (DoWatch f) = (infos, Some e) ->
         watch f options st = (st, Fail e))
  /\ (r_Err (DoWatch f) = None ->
      r_Infos (DoWatch f) = ([], None) ->
      watch f options st = (st, Panic)).
Proof.
  unfold watch. split; [|split].
  - intros e ->. reflexivity.
  - intros infos e -> ->. reflexivity.
  - intros -> ->. reflexivity.
Qed.

End WatchMore.

Lemma watch_returns_nil_once_streaming_witness :
  snd (Samples.watchRun [Samples.item "pod-a"] (Dynamic "pod-a") false []
         MoreSamples.brokenEvents false) = Ret tt
  /\ printErrors
       (log (fst (Samples.watchRun [Samples.item "pod-a"] (Dynamic "pod-a")
                    false [] MoreSamples.brokenEvents false)))
     = [Samples.unknownType].
Proof.
  split; [|reflexivity].
  unfold Samples.watchRun.
  refine (proj1 (proj1 (watch_returns_nil_once_streaming
                          (Samples.sampleFactory [Samples.item "pod-a"]
                             (Dynamic "pod-a") false [] MoreSamples.brokenEvents)
                          (Samples.watchOptions [Samples.item "pod-a"]
                             (Dynamic "pod-a") false [] MoreSamples.brokenEvents
                             false)
                          _ _ _ _ _
                          (Samples.fresh [Samples.item "pod-a"] (Dynamic "pod-a")
                             false [] MoreSamples.brokenEvents)
                          (GetFacts.Streaming_sample "pod-a" true
                             (Dynamic "pod-a") false []
                             MoreSamples.brokenEvents)) _)).
  simpl. repeat split.
Defined.

Lemma mixed_kinds_error_counts_infos_witness :
  @checkSingleKind (Samples.sessionFactory [])
    [Samples.item "pod-a"; Samples.service "svc-a"; Samples.service "svc-b"]
    (@start (Samples.sessionFactory []) 0)
  = (@start (Samples.sessionFactory []) 0, Fail (mixedKinds 3)).
Proof.
  apply (mixed_kinds_error_counts_infos (Samples.sessionFactory [])
           (Samples.item "pod-a")
           [Samples.service "svc-a"; Samples.service "svc-b"]).
  discriminate.
Defined.

Lemma watch_without_infos_witness :
  Samples.watchRun [] (Dynamic "pod-a") false [] [] false
  = (Samples.fresh [] (Dynamic "pod-a") false [] [], Panic).
Proof.
  apply (proj2 (proj2 (watch_without_infos
                         (Samples.sampleFactory [] (Dynamic "pod-a") false [] [])
                         (Samples.watchOptions [] (Dynamic "pod-a") false [] []
                            false)
                         (Samples.fresh [] (Dynamic "pod-a") false [] []))));
    reflexivity.
Defined.

End GetRunFacts.
